(** * BountyX AI helper: shallow embedding of [ai_helper.py]

    The development follows the class [BountyXAI]: the finding normalizer
    ([_analyze_vulnerabilities]), the keyword classifiers
    ([_find_interesting_subdomains], [_find_interesting_directories],
    [_analyze_ports]), the remediation catalog with its two-pass lookup
    ([_get_recommendation_for_vulnerability_type]), the per-finding
    recommendation builder ([_get_recommendation_for_vulnerability]), the
    summary of [analyze_results], the bucketing loops of
    [generate_recommendations], the timed actions of [prioritize_findings],
    the file loading of [load_results] and the two texts built from the
    analysis ([_prepare_ai_prompt], [_prepare_transformers_text]).

    Conventions of the embedding.
    - Python values loaded from JSON are terms of [pyval]; a [dict] is an
      association list in insertion order (the order CPython iterates in).
      JSON floats are not modelled.
    - Python [str] is Rocq [string], read as ASCII text: [lower] and the
      regular-expression class [\w] act on ASCII letters, digits and [_].
    - An exception is a value [Raise e] of the error monad [res]; the
      exception classes that the modelled code can raise are in [exn].
    - A method that updates a field of [self] is a function from the old
      value of the field to [res] of the new one.
    - The ['timestamp'] of [self.analysis] ([datetime.now()]) is an
      argument of [analysis_dict]; the logging calls and the optional
      ['ai_enhanced'] entry are left out: no modelled function reads them.
    - The file system is seen through what [load_results] gets from it: for
      each listing of [glob], the outcome of opening and parsing each file
      ([scan_tree]). *)

From Stdlib Require Import String Ascii List ZArith Bool Lia.
From Stdlib Require Import Numbers.DecimalString.
Import ListNotations.
Open Scope list_scope.
Open Scope string_scope.

(* ===================================================================== *)
(** ** Python strings *)
(* ===================================================================== *)

Module PyStr.

(** The double-quote character, written by code so that no literal has to
    escape it. *)
Definition dquote : ascii := ascii_of_nat 34.
Definition squote : ascii := ascii_of_nat 39.
Definition backslash : ascii := ascii_of_nat 92.

Definition in_range (lo hi : nat) (c : ascii) : bool :=
  let n := nat_of_ascii c in (lo <=? n)%nat && (n <=? hi)%nat.

Definition is_upper (c : ascii) : bool := in_range 65 90 c.
Definition is_lower (c : ascii) : bool := in_range 97 122 c.
Definition is_digit (c : ascii) : bool := in_range 48 57 c.

(** [\w] of the [re] module on ASCII text. *)
Definition is_word (c : ascii) : bool :=
  is_upper c || is_lower c || is_digit c || Ascii.eqb c "_".

(** [str.isspace] on ASCII: TAB, LF, VT, FF, CR, FS, GS, RS, US, SPACE. *)
Definition is_space (c : ascii) : bool :=
  in_range 9 13 c || in_range 28 32 c.

Definition lower_ascii (c : ascii) : ascii :=
  if is_upper c then ascii_of_nat (nat_of_ascii c + 32) else c.

(** [s.lower()] *)
Fixpoint lower (s : string) : string :=
  match s with
  | EmptyString => EmptyString
  | String c s' => String (lower_ascii c) (lower s')
  end.

(** [needle in hay] for two strings. *)
Fixpoint contains (needle hay : string) : bool :=
  prefix needle hay ||
  match hay with
  | EmptyString => false
  | String _ hay' => contains needle hay'
  end.

(** [s.split()]: maximal runs of non-whitespace characters.  [cur] holds
    the word being read, reversed. *)
Fixpoint split_aux (cur : list ascii) (s : string) : list string :=
  let flush tl :=
    match cur with
    | [] => tl
    | _ => string_of_list_ascii (rev cur) :: tl
    end in
  match s with
  | EmptyString => flush []
  | String c s' =>
      if is_space c then flush (split_aux [] s')
      else split_aux (c :: cur) s'
  end.

Definition split (s : string) : list string := split_aux [] s.

(** [s.replace(old, new)] for a non-empty [old]: non-overlapping occurrences
    are replaced from left to right.  [skip] counts the characters of a
    matched occurrence that are still to be dropped. *)
Fixpoint replace_aux (old new : string) (skip : nat) (s : string) : string :=
  match s with
  | EmptyString => EmptyString
  | String c s' =>
      match skip with
      | S k => replace_aux old new k s'
      | O =>
          if prefix old s
          then new ++ replace_aux old new (String.length old - 1) s'
          else String c (replace_aux old new 0 s')
      end
  end.

Definition replace (old new s : string) : string := replace_aux old new 0 s.

(** Is a position between a character [prev] and a character [next] a
    word boundary ([\b])?  The ends of the text count as non-word. *)
Definition word_of (c : option ascii) : bool :=
  match c with Some a => is_word a | None => false end.

Definition boundary (prev next : option ascii) : bool :=
  xorb (word_of prev) (word_of next).

Definition head (s : string) : option ascii :=
  match s with EmptyString => None | String c _ => Some c end.

(** [match_literal prev w s]: the literal [w] is read off the front of [s];
    the result is the last character read (or [prev]) and the rest. *)
Fixpoint match_literal (prev : option ascii) (w s : string)
  : option (option ascii * string) :=
  match w with
  | EmptyString => Some (prev, s)
  | String a w' =>
      match s with
      | EmptyString => None
      | String c s' =>
          if Ascii.eqb a c then match_literal (Some c) w' s' else None
      end
  end.

(** The pattern [\b<w>\b] anchored at the front of [s], [prev] being the
    character before it. *)
Definition word_here (prev : option ascii) (w s : string) : bool :=
  boundary prev (head s) &&
  match match_literal prev w s with
  | Some (last, rest) => boundary last (head rest)
  | None => false
  end.

Fixpoint word_search_from (prev : option ascii) (w s : string) : bool :=
  word_here prev w s ||
  match s with
  | EmptyString => false
  | String c s' => word_search_from (Some c) w s'
  end.

(** [re.search(r'\b' + re.escape(w) + r'\b', s)] as a truth value:
    [re.escape] makes the pattern match [w] literally. *)
Definition word_search (w s : string) : bool := word_search_from None w s.

(** The lines of a block of text, joined by line feeds. *)
Definition newline : string := String (ascii_of_nat 10) EmptyString.
Definition unlines (l : list string) : string := String.concat newline l.

(** [sep.join(l)] *)
Definition join (sep : string) (l : list string) : string :=
  String.concat sep l.

(** [str(n)] for an integer. *)
Definition of_Z (n : Z) : string := NilZero.string_of_int (Z.to_int n).

Definition upper_ascii (c : ascii) : ascii :=
  if is_lower c then ascii_of_nat (nat_of_ascii c - 32) else c.

(** [s.upper()] *)
Fixpoint upper (s : string) : string :=
  match s with
  | EmptyString => EmptyString
  | String c s' => String (upper_ascii c) (upper s')
  end.

(** Is the character one of those of [chars]? *)
Fixpoint mem (c : ascii) (chars : string) : bool :=
  match chars with
  | EmptyString => false
  | String a chars' => Ascii.eqb a c || mem c chars'
  end.

(** [s.rstrip(chars)]: the characters of [chars] are taken off the end. *)
Fixpoint rstrip (chars s : string) : string :=
  match s with
  | EmptyString => EmptyString
  | String c s' =>
      match rstrip chars s' with
      | EmptyString => if mem c chars then EmptyString else String c EmptyString
      | kept => String c kept
      end
  end.

End PyStr.

(* ===================================================================== *)
(** ** Python values, exceptions and the operations the code applies *)
(* ===================================================================== *)

#[local] Set Warnings "-register-all".

Inductive pyval : Type :=
| PNone
| PBool (b : bool)
| PInt (n : Z)
| PStr (s : string)
| PList (l : list pyval)
| PDict (d : list (string * pyval)).

Definition dict : Type := list (string * pyval).

Inductive exn : Type := AttributeError | TypeError | KeyError | IndexError.

Inductive res (A : Type) : Type :=
| Ok (a : A)
| Raise (e : exn).
Arguments Ok {A} a.
Arguments Raise {A} e.

Definition bind {A B : Type} (m : res A) (k : A -> res B) : res B :=
  match m with
  | Ok a => k a
  | Raise e => Raise e
  end.

Notation "'let*' x ':=' m 'in' k" := (bind m (fun x => k))
  (at level 10, x name, m at level 100, k at level 200).

(** [for x in xs: s = body(s, x)]: a loop that threads the state [s] and
    stops at the first exception. *)
Fixpoint for_each {S X : Type} (body : S -> X -> res S) (xs : list X) (s : S)
  : res S :=
  match xs with
  | [] => Ok s
  | x :: xs' => let* s' := body s x in for_each body xs' s'
  end.

Module Py.

(** [d[k]] on the association list: the binding met first. *)
Fixpoint lookup (k : string) (d : dict) : option pyval :=
  match d with
  | [] => None
  | (k', v) :: d' => if String.eqb k' k then Some v else lookup k d'
  end.

(** [d[k] = v]: an existing key keeps its place, a new one goes last. *)
Fixpoint store (k : string) (v : pyval) (d : dict) : dict :=
  match d with
  | [] => [(k, v)]
  | (k', v') :: d' =>
      if String.eqb k' k then (k, v) :: d' else (k', v') :: store k v d'
  end.

Definition has_key (k : string) (d : dict) : bool :=
  match lookup k d with Some _ => true | None => false end.

(** [v.get(k, dflt)]: only a dict has the method. *)
Definition get (v : pyval) (k : string) (dflt : pyval) : res pyval :=
  match v with
  | PDict d =>
      Ok (match lookup k d with Some x => x | None => dflt end)
  | _ => Raise AttributeError
  end.

(** [v[k]] with a string subscript. *)
Definition getitem (v : pyval) (k : string) : res pyval :=
  match v with
  | PDict d =>
      match lookup k d with Some x => Ok x | None => Raise KeyError end
  | _ => Raise TypeError
  end.

Definition is_str (k : string) (v : pyval) : bool :=
  match v with PStr s => String.eqb s k | _ => false end.

(** [k in v] for a string [k]: key membership in a dict, element membership
    in a list, substring test in a string. *)
Definition contains (k : string) (v : pyval) : res bool :=
  match v with
  | PDict d => Ok (has_key k d)
  | PList l => Ok (existsb (is_str k) l)
  | PStr s => Ok (PyStr.contains k s)
  | _ => Raise TypeError
  end.

Fixpoint chars (s : string) : list pyval :=
  match s with
  | EmptyString => []
  | String c s' => PStr (String c EmptyString) :: chars s'
  end.

(** The sequence a [for] loop walks through. *)
Definition iter (v : pyval) : res (list pyval) :=
  match v with
  | PList l => Ok l
  | PDict d => Ok (map (fun kv => PStr (fst kv)) d)
  | PStr s => Ok (chars s)
  | _ => Raise TypeError
  end.

(** [v.lower()] *)
Definition lower (v : pyval) : res string :=
  match v with
  | PStr s => Ok (PyStr.lower s)
  | _ => Raise AttributeError
  end.

(** [len(v)] *)
Definition len (v : pyval) : res Z :=
  match v with
  | PList l => Ok (Z.of_nat (List.length l))
  | PDict d => Ok (Z.of_nat (List.length d))
  | PStr s => Ok (Z.of_nat (String.length s))
  | _ => Raise TypeError
  end.

(** Truth value of [v] in a condition. *)
Definition truthy (v : pyval) : bool :=
  match v with
  | PNone => false
  | PBool b => b
  | PInt n => negb (Z.eqb n 0)
  | PStr s => negb (String.eqb s "")
  | PList l => match l with [] => false | _ => true end
  | PDict d => match d with [] => false | _ => true end
  end.

(** [v == n] for an integer literal [n] ([True == 1] and [False == 0]). *)
Definition eq_int (v : pyval) (n : Z) : bool :=
  match v with
  | PInt m => Z.eqb m n
  | PBool b => Z.eqb (if b then 1 else 0) n
  | _ => false
  end.

(** [v in [n1, n2, ...]] for a list of integer literals. *)
Definition in_ints (v : pyval) (ns : list Z) : bool := existsb (eq_int v) ns.

(** [s in [s1, s2, ...]] for a string and a list of string literals. *)
Definition in_strs (s : string) (l : list string) : bool :=
  existsb (String.eqb s) l.

Definition hex_digit (n : nat) : ascii :=
  if (n <? 10)%nat then ascii_of_nat (48 + n) else ascii_of_nat (87 + n).

(** One character inside [repr] of a string delimited by [q]. *)
Definition repr_char (q c : ascii) : string :=
  let n := nat_of_ascii c in
  let esc x := String PyStr.backslash (String x EmptyString) in
  if Ascii.eqb c q || Ascii.eqb c PyStr.backslash then esc c
  else if (n =? 9)%nat then esc "t"%char
  else if (n =? 10)%nat then esc "n"%char
  else if (n =? 13)%nat then esc "r"%char
  else if (n <? 32)%nat || (n =? 127)%nat then
    String PyStr.backslash
      (String "x" (String (hex_digit (n / 16))
                     (String (hex_digit (n mod 16)) EmptyString)))
  else String c EmptyString.

Fixpoint repr_chars (q : ascii) (s : string) : string :=
  match s with
  | EmptyString => EmptyString
  | String c s' => repr_char q c ++ repr_chars q s'
  end.

(** [repr(s)] of a string: single quotes unless the text has a single
    quote and no double quote. *)
Definition repr_str (s : string) : string :=
  let sq := String PyStr.squote EmptyString in
  let dq := String PyStr.dquote EmptyString in
  let q :=
    if PyStr.contains sq s && negb (PyStr.contains dq s)
    then PyStr.dquote else PyStr.squote in
  String q (repr_chars q s ++ String q EmptyString).

(** [repr(v)] *)
Fixpoint repr (v : pyval) : string :=
  match v with
  | PNone => "None"
  | PBool true => "True"
  | PBool false => "False"
  | PInt n => PyStr.of_Z n
  | PStr s => repr_str s
  | PList l => "[" ++ PyStr.join ", " (map repr l) ++ "]"
  | PDict d =>
      "{" ++ PyStr.join ", "
               (map (fun kv : string * pyval =>
                       let (k, x) := kv in repr_str k ++ ": " ++ repr x) d) ++ "}"
  end.

(** [str(v)], which is what an f-string field [{v}] inserts. *)
Definition str (v : pyval) : string :=
  match v with
  | PStr s => s
  | _ => repr v
  end.

(** [v.upper()] *)
Definition upper (v : pyval) : res string :=
  match v with
  | PStr s => Ok (PyStr.upper s)
  | _ => Raise AttributeError
  end.

(** [a == b] on values loaded from JSON: numbers compare by value, a bool
    being 0 or 1; lists compare element by element; dicts compare as
    mappings, whatever the order of their keys. *)
Fixpoint eq (a b : pyval) : bool :=
  match a, b with
  | PNone, PNone => true
  | PBool x, PBool y => Bool.eqb x y
  | PBool x, PInt n => Z.eqb (if x then 1 else 0) n
  | PInt n, PBool x => Z.eqb n (if x then 1 else 0)
  | PInt m, PInt n => Z.eqb m n
  | PStr s, PStr t => String.eqb s t
  | PList l, PList l' =>
      (fix eq_list (l l' : list pyval) : bool :=
         match l, l' with
         | [], [] => true
         | x :: xs, y :: ys => eq x y && eq_list xs ys
         | _, _ => false
         end) l l'
  | PDict d, PDict d' =>
      Nat.eqb (List.length d) (List.length d') &&
      (fix eq_items (d : list (string * pyval)) : bool :=
         match d with
         | [] => true
         | (k, x) :: rest =>
             match lookup k d' with
             | Some y => eq x y
             | None => false
             end && eq_items rest
         end) d
  | _, _ => false
  end.

(** [x in l] for a list [l]. *)
Definition in_list (x : pyval) (l : list pyval) : bool := existsb (eq x) l.

(** [sep.join(l)]: every item has to be a string. *)
Fixpoint join (sep : string) (l : list pyval) : res string :=
  match l with
  | [] => Ok EmptyString
  | [PStr s] => Ok s
  | PStr s :: rest =>
      match join sep rest with
      | Ok t => Ok (s ++ sep ++ t)
      | Raise e => Raise e
      end
  | _ => Raise TypeError
  end.

End Py.

(* ===================================================================== *)
(** ** The remediation catalog *)
(* ===================================================================== *)

(** A catalog entry is the dict
    [{'summary': .., 'steps': [..], 'code_example': .., 'references': [..]}]. *)
Definition template (summary : string) (steps : list string)
    (code_example : string) (references : list string) : pyval :=
  PDict [("summary", PStr summary);
         ("steps", PList (map PStr steps));
         ("code_example", PStr code_example);
         ("references", PList (map PStr references))].

(** The [code_example] literals are triple-quoted blocks; each is given
    line by line, [dq] standing for a double quote inside a line. *)
Definition dq : string := String PyStr.dquote EmptyString.

Definition code_example_sql_injection : string :=
  PyStr.unlines
    [EmptyString;
     "# Example of parameterized query in Python with SQLite:";
     "import sqlite3";
     "conn = sqlite3.connect('database.db')";
     "cursor = conn.cursor()";
     EmptyString;
     "# UNSAFE:";
     "# username = request.args.get('username')";
     "# cursor.execute(f" ++ dq ++ "SELECT * FROM users WHERE username = '{username}'" ++ dq ++ ")";
     EmptyString;
     "# SAFE:";
     "username = request.args.get('username')";
     "cursor.execute(" ++ dq ++ "SELECT * FROM users WHERE username = ?" ++ dq ++ ", (username,))";
     "                "].

Definition rec_sql_injection : pyval :=
  template
    "Protect against SQL injection attacks by using parameterized queries and input validation"
    ["Replace dynamic SQL queries with parameterized queries or prepared statements";
     "Implement proper input validation and sanitization for all user inputs";
     "Apply the principle of least privilege to database accounts";
     "Use an ORM (Object-Relational Mapping) library when possible";
     "Implement a Web Application Firewall (WAF) as an additional layer of protection"]
    code_example_sql_injection
    ["OWASP SQL Injection Prevention Cheat Sheet: https://cheatsheetseries.owasp.org/cheatsheets/SQL_Injection_Prevention_Cheat_Sheet.html";
     "PortSwigger SQL Injection Guide: https://portswigger.net/web-security/sql-injection"].

Definition code_example_xss : string :=
  PyStr.unlines
    [EmptyString;
     "# Example of CSP header implementation in Node.js:";
     "app.use(helmet.contentSecurityPolicy({";
     "  directives: {";
     "    defaultSrc: [" ++ dq ++ "'self'" ++ dq ++ "],";
     "    scriptSrc: [" ++ dq ++ "'self'" ++ dq ++ ", " ++ dq ++ "'nonce-{RANDOM_NONCE}'" ++ dq ++ "],";
     "    styleSrc: [" ++ dq ++ "'self'" ++ dq ++ ", " ++ dq ++ "'unsafe-inline'" ++ dq ++ "],";
     "    imgSrc: [" ++ dq ++ "'self'" ++ dq ++ ", " ++ dq ++ "data:" ++ dq ++ "],";
     "    connectSrc: [" ++ dq ++ "'self'" ++ dq ++ "],";
     "    fontSrc: [" ++ dq ++ "'self'" ++ dq ++ "],";
     "    objectSrc: [" ++ dq ++ "'none'" ++ dq ++ "],";
     "    mediaSrc: [" ++ dq ++ "'self'" ++ dq ++ "],";
     "    frameSrc: [" ++ dq ++ "'none'" ++ dq ++ "],";
     "  }";
     "})";
     "                "].

Definition rec_xss : pyval :=
  template
    "Prevent Cross-Site Scripting (XSS) by implementing proper output encoding and CSP headers"
    ["Implement context-appropriate output encoding for all user-controlled data";
     "Use Content-Security-Policy (CSP) headers to restrict script execution";
     "Sanitize all user inputs before rendering them in HTML contexts";
     "Use modern frameworks that automatically escape output";
     "Implement X-XSS-Protection header as an additional defense"]
    code_example_xss
    ["OWASP XSS Prevention Cheat Sheet: https://cheatsheetseries.owasp.org/cheatsheets/Cross_Site_Scripting_Prevention_Cheat_Sheet.html";
     "Content Security Policy (CSP) Quick Reference: https://content-security-policy.com/"].

Definition code_example_open_redirect : string :=
  PyStr.unlines
    [EmptyString;
     "# Example of safe redirect implementation in Python:";
     "from urllib.parse import urlparse";
     "import re";
     EmptyString;
     "def is_safe_redirect_url(url, allowed_hosts):";
     "    parsed_url = urlparse(url)";
     "    return (not parsed_url.netloc) or (parsed_url.netloc in allowed_hosts)";
     EmptyString;
     "def safe_redirect(request):";
     "    redirect_url = request.args.get('next', '/')";
     "    allowed_hosts = ['example.com', 'subdomain.example.com']";
     "    ";
     "    if is_safe_redirect_url(redirect_url, allowed_hosts):";
     "        return redirect(redirect_url)";
     "    else:";
     "        return redirect('/')";
     "                "].

Definition rec_open_redirect : pyval :=
  template
    "Prevent open redirect vulnerabilities by validating destination URLs against a whitelist"
    ["Implement a whitelist of allowed redirect destinations";
     "Validate all redirect parameters against this whitelist";
     "Use relative path redirects when possible";
     "For external redirects, use an intermediate page that requires user confirmation";
     "Consider implementing URL signing for sensitive redirects"]
    code_example_open_redirect
    ["OWASP Unvalidated Redirects and Forwards Cheat Sheet: https://cheatsheetseries.owasp.org/cheatsheets/Unvalidated_Redirects_and_Forwards_Cheat_Sheet.html"].

Definition code_example_csrf : string :=
  PyStr.unlines
    [EmptyString;
     "# Example of CSRF protection in Flask:";
     "from flask_wtf.csrf import CSRFProtect";
     EmptyString;
     "app = Flask(__name__)";
     "app.config['SECRET_KEY'] = 'your-secret-key'";
     "csrf = CSRFProtect(app)";
     EmptyString;
     "@app.route('/form', methods=['POST'])";
     "def process_form():";
     "    # CSRF token is automatically checked";
     "    # Process form data";
     "    return 'Form processed'";
     "                "].

Definition rec_csrf : pyval :=
  template
    "Protect against Cross-Site Request Forgery (CSRF) with anti-CSRF tokens and proper validation"
    ["Implement anti-CSRF tokens for all state-changing operations";
     "Ensure tokens are unique per user session and per request";
     "Add the 'SameSite=Strict' attribute to cookies";
     "Use the 'X-CSRF-TOKEN' header for AJAX requests";
     "Consider implementing custom request headers for sensitive operations"]
    code_example_csrf
    ["OWASP CSRF Prevention Cheat Sheet: https://cheatsheetseries.owasp.org/cheatsheets/Cross-Site_Request_Forgery_Prevention_Cheat_Sheet.html";
     "SameSite Cookie Attribute: https://developer.mozilla.org/en-US/docs/Web/HTTP/Headers/Set-Cookie/SameSite"].

Definition code_example_ssrf : string :=
  PyStr.unlines
    [EmptyString;
     "# Example of SSRF protection in Python:";
     "import ipaddress";
     "from urllib.parse import urlparse";
     EmptyString;
     "def is_internal_ip(hostname):";
     "    try:";
     "        ip = socket.gethostbyname(hostname)";
     "        ip_addr = ipaddress.ip_address(ip)";
     "        return (";
     "            ip_addr.is_private or";
     "            ip_addr.is_loopback or";
     "            ip_addr.is_link_local";
     "        )";
     "    except:";
     "        return False";
     EmptyString;
     "def safe_request(url):";
     "    parsed_url = urlparse(url)";
     "    if is_internal_ip(parsed_url.netloc):";
     "        raise ValueError(" ++ dq ++ "URL points to internal network" ++ dq ++ ")";
     "    ";
     "    allowed_hosts = ['api.example.com', 'public-api.com']";
     "    if parsed_url.netloc not in allowed_hosts:";
     "        raise ValueError(" ++ dq ++ "URL hostname not in whitelist" ++ dq ++ ")";
     "    ";
     "    # Make the request";
     "    response = requests.get(url)";
     "    return response";
     "                "].

Definition rec_ssrf : pyval :=
  template
    "Protect against Server-Side Request Forgery (SSRF) by validating and restricting URLs"
    ["Implement a whitelist of allowed destinations";
     "Validate and sanitize all user-provided URLs";
     "Use a URL parsing library to canonicalize URLs before validation";
     "Block requests to internal networks (127.0.0.0/8, 169.254.0.0/16, etc.)";
     "Use network-level protections like firewalls to restrict server connections"]
    code_example_ssrf
    ["OWASP SSRF Prevention Cheat Sheet: https://cheatsheetseries.owasp.org/cheatsheets/Server_Side_Request_Forgery_Prevention_Cheat_Sheet.html";
     "PortSwigger SSRF Guide: https://portswigger.net/web-security/ssrf"].

Definition code_example_lfi : string :=
  PyStr.unlines
    [EmptyString;
     "# Example of safe file inclusion in PHP:";
     "function safeInclude($file) {";
     "    // Define the base directory for includes";
     "    $baseDir = '/var/www/includes/';";
     "    ";
     "    // Remove any path traversal attempts";
     "    $file = basename($file);";
     "    ";
     "    // Whitelist of allowed files";
     "    $allowedFiles = ['header.php', 'footer.php', 'menu.php'];";
     "    ";
     "    if (in_array($file, $allowedFiles) && file_exists($baseDir . $file)) {";
     "        include($baseDir . $file);";
     "        return true;";
     "    }";
     "    return false;";
     "}";
     EmptyString;
     "// Usage";
     "$file = $_GET['include'];";
     "if (!safeInclude($file)) {";
     "    // Log the attempt and show error";
     "    error_log(" ++ dq ++ "Potential LFI attempt: " ++ dq ++ " . $file);";
     "    include('error.php');";
     "}";
     "                "].

Definition rec_lfi : pyval :=
  template
    "Protect against Local File Inclusion (LFI) by restricting file access and validating paths"
    ["Implement strict input validation for file paths";
     "Use a whitelist of allowed files or directories";
     "Avoid using user input directly in file operations";
     "Implement proper file access controls";
     "Consider using a file abstraction layer instead of direct file system access"]
    code_example_lfi
    ["OWASP File Inclusion Guide: https://owasp.org/www-project-web-security-testing-guide/latest/4-Web_Application_Security_Testing/07-Input_Validation_Testing/11.1-Testing_for_Local_File_Inclusion"].

Definition code_example_rfi : string :=
  PyStr.unlines
    [EmptyString;
     "# PHP configuration changes in php.ini:";
     "allow_url_fopen = Off";
     "allow_url_include = Off";
     EmptyString;
     "# Example of safer dynamic inclusion in PHP:";
     "function safeIncludeRemote($url) {";
     "    // Whitelist of allowed domains";
     "    $allowedDomains = ['trusted-cdn.com', 'company-repo.com'];";
     "    ";
     "    // Parse the URL";
     "    $parsed = parse_url($url);";
     "    ";
     "    // Check if the domain is in the whitelist";
     "    if (isset($parsed['host']) && in_array($parsed['host'], $allowedDomains)) {";
     "        // Use file_get_contents with stream context to enforce HTTPS";
     "        $context = stream_context_create([";
     "            'ssl' => [";
     "                'verify_peer' => true,";
     "                'verify_peer_name' => true,";
     "            ],";
     "        ]);";
     "        ";
     "        $content = file_get_contents($url, false, $context);";
     "        ";
     "        // Safety check on content";
     "        if (strpos($content, '<?php') === false) {";
     "            // Process the content";
     "            return $content;";
     "        }";
     "    }";
     "    ";
     "    return false;";
     "}";
     "                "].

Definition rec_rfi : pyval :=
  template
    "Protect against Remote File Inclusion (RFI) by disabling remote includes and validating sources"
    ["Disable remote file includes if not needed (allow_url_include=Off in PHP)";
     "Implement a whitelist of allowed external resources";
     "Validate all URLs against the whitelist";
     "Use content verification for included files";
     "Consider alternatives to dynamic file inclusion"]
    code_example_rfi
    ["OWASP Remote File Inclusion Guide: https://owasp.org/www-project-web-security-testing-guide/latest/4-Web_Application_Security_Testing/07-Input_Validation_Testing/11.2-Testing_for_Remote_File_Inclusion"].

Definition code_example_cve : string :=
  PyStr.unlines
    [EmptyString;
     "# Example of security patching process:";
     "1. Set up automated vulnerability scanning:";
     "   - Use tools like OWASP Dependency Check, Snyk, or GitHub Dependency Graph";
     "   - Integrate scanning into CI/CD pipeline";
     EmptyString;
     "2. Implement a patch management system:";
     "   ```bash";
     "   # Example update script for Linux server";
     "   #!/bin/bash";
     "   ";
     "   # Update package lists";
     "   apt-get update";
     "   ";
     "   # Apply security updates";
     "   apt-get upgrade -y";
     "   ";
     "   # Log the update";
     "   echo " ++ dq ++ "Security update applied on $(date)" ++ dq ++ " >> /var/log/security-updates.log";
     "   ```";
     "                "].

Definition rec_cve : pyval :=
  template
    "Address known Common Vulnerabilities and Exposures (CVEs) by applying patches and updates"
    ["Identify the specific CVE affecting your software";
     "Update the affected software to the latest patched version";
     "If patches are not available, implement temporary mitigations as recommended by the vendor";
     "Set up a vulnerability management process to track and prioritize patching";
     "Consider using a Web Application Firewall (WAF) to block exploitation attempts"]
    code_example_cve
    ["National Vulnerability Database: https://nvd.nist.gov/";
     "OWASP Dependency Check: https://owasp.org/www-project-dependency-check/"].

Definition code_example_outdated : string :=
  PyStr.unlines
    [EmptyString;
     "# Example of automated dependency updates in Node.js:";
     "# package.json";
     "{";
     "  " ++ dq ++ "name" ++ dq ++ ": " ++ dq ++ "your-app" ++ dq ++ ",";
     "  " ++ dq ++ "scripts" ++ dq ++ ": {";
     "    " ++ dq ++ "audit" ++ dq ++ ": " ++ dq ++ "npm audit fix" ++ dq ++ ",";
     "    " ++ dq ++ "update-deps" ++ dq ++ ": " ++ dq ++ "npm update" ++ dq ++ ",";
     "    " ++ dq ++ "security-check" ++ dq ++ ": " ++ dq ++ "snyk test" ++ dq;
     "  },";
     "  " ++ dq ++ "devDependencies" ++ dq ++ ": {";
     "    " ++ dq ++ "snyk" ++ dq ++ ": " ++ dq ++ "^1.500.0" ++ dq;
     "  }";
     "}";
     EmptyString;
     "# GitHub Actions Workflow for automated updates";
     "name: Security Updates";
     "on:";
     "  schedule:";
     "    - cron: '0 0 * * 0'  # Weekly on Sundays";
     "jobs:";
     "  update-dependencies:";
     "    runs-on: ubuntu-latest";
     "    steps:";
     "      - uses: actions/checkout@v2";
     "      - name: Update dependencies";
     "        run: npm update";
     "      - name: Test changes";
     "        run: npm test";
     "      - name: Create Pull Request";
     "        uses: peter-evans/create-pull-request@v3";
     "        with:";
     "          title: 'Dependency Updates'";
     "          branch: 'automated-updates'";
     "                "].

Definition rec_outdated : pyval :=
  template
    "Fix outdated software vulnerabilities by updating components and implementing security patches"
    ["Inventory all software components and dependencies";
     "Update to the latest stable and secure versions";
     "Set up automated dependency checking";
     "Implement a regular update schedule and policy";
     "Consider containerization to isolate components and simplify updates"]
    code_example_outdated
    ["OWASP Top 10 - A9:2017 Using Components with Known Vulnerabilities: https://owasp.org/www-project-top-ten/2017/A9_2017-Using_Components_with_Known_Vulnerabilities";
     "Snyk - Dependency Vulnerability Scanner: https://snyk.io/"].

Definition code_example_missing_header : string :=
  PyStr.unlines
    [EmptyString;
     "# Example security headers in Nginx:";
     "server {";
     "    listen 443 ssl;";
     "    server_name example.com;";
     "    ";
     "    # Security headers";
     "    add_header Content-Security-Policy " ++ dq ++ "default-src 'self'; script-src 'self' 'unsafe-inline'; style-src 'self' 'unsafe-inline';" ++ dq ++ " always;";
     "    add_header X-XSS-Protection " ++ dq ++ "1; mode=block" ++ dq ++ " always;";
     "    add_header X-Content-Type-Options " ++ dq ++ "nosniff" ++ dq ++ " always;";
     "    add_header Strict-Transport-Security " ++ dq ++ "max-age=31536000; includeSubDomains; preload" ++ dq ++ " always;";
     "    add_header X-Frame-Options " ++ dq ++ "SAMEORIGIN" ++ dq ++ " always;";
     "    add_header Referrer-Policy " ++ dq ++ "strict-origin-when-cross-origin" ++ dq ++ " always;";
     "    ";
     "    # Other server configuration...";
     "}";
     EmptyString;
     "# Example security headers in Express.js:";
     "const helmet = require('helmet');";
     "app.use(helmet());";
     "                "].

Definition rec_missing_header : pyval :=
  template
    "Implement security headers to improve web application defense against common attacks"
    ["Implement Content-Security-Policy (CSP) header";
     "Add X-XSS-Protection header";
     "Set X-Content-Type-Options: nosniff header";
     "Configure Strict-Transport-Security (HSTS) header";
     "Add X-Frame-Options header to prevent clickjacking"]
    code_example_missing_header
    ["OWASP Secure Headers Project: https://owasp.org/www-project-secure-headers/";
     "Mozilla Observatory: https://observatory.mozilla.org/"].

Definition code_example_information_disclosure : string :=
  PyStr.unlines
    [EmptyString;
     "# Example of custom error handling in Express.js:";
     "app.use((err, req, res, next) => {";
     "  // Log the error internally";
     "  console.error(err);";
     "  ";
     "  // Return a generic error message to the client";
     "  res.status(500).json({";
     "    status: 'error',";
     "    message: 'An internal server error occurred'";
     "  });";
     "});";
     EmptyString;
     "# Example of properly redacting sensitive information in logs:";
     "function logSanitizer(logObject) {";
     "  const sensitiveFields = ['password', 'token', 'ssn', 'creditCard', 'secret'];";
     "  ";
     "  return Object.keys(logObject).reduce((acc, key) => {";
     "    if (sensitiveFields.includes(key.toLowerCase())) {";
     "      acc[key] = '[REDACTED]';";
     "    } else {";
     "      acc[key] = logObject[key];";
     "    }";
     "    return acc;";
     "  }, {});";
     "}";
     "                "].

Definition rec_information_disclosure : pyval :=
  template
    "Prevent sensitive information disclosure by controlling error messages and removing debugging info"
    ["Configure custom error pages to avoid revealing system information";
     "Remove version information from HTTP headers";
     "Disable directory listings on web servers";
     "Implement proper exception handling to avoid stack traces in responses";
     "Remove comments containing sensitive information from client-side code"]
    code_example_information_disclosure
    ["OWASP Information Leakage Guide: https://owasp.org/www-project-web-security-testing-guide/latest/4-Web_Application_Security_Testing/01-Information_Gathering/07-Map_Application_Architecture"].

Definition code_example_directory_listing : string :=
  PyStr.unlines
    [EmptyString;
     "# Apache configuration (.htaccess):";
     "Options -Indexes";
     "ErrorDocument 403 /error/forbidden.html";
     EmptyString;
     "# Nginx configuration:";
     "server {";
     "    # ...";
     "    ";
     "    # Disable directory listing";
     "    autoindex off;";
     "    ";
     "    # Custom error page";
     "    error_page 403 /error/forbidden.html;";
     "    ";
     "    # ...";
     "}";
     "                "].

Definition rec_directory_listing : pyval :=
  template
    "Disable directory listing to prevent unauthorized browsing of server directories"
    ["Disable directory listing in web server configuration";
     "Create index files in all directories that need to be accessed";
     "Configure a custom 403 Forbidden page";
     "Use access controls to restrict directory access";
     "Regularly audit accessible directories"]
    code_example_directory_listing
    ["OWASP Testing for Directory Traversal: https://owasp.org/www-project-web-security-testing-guide/latest/4-Web_Application_Security_Testing/05-Authorization_Testing/01-Testing_Directory_Traversal_File_Include"].

Definition code_example_default_credentials : string :=
  PyStr.unlines
    [EmptyString;
     "# Example of strong password policy implementation in Node.js:";
     "const passwordValidator = require('password-validator');";
     EmptyString;
     "// Create a password schema";
     "const passwordSchema = new passwordValidator();";
     "passwordSchema";
     "  .is().min(12)                                   // Minimum length 12";
     "  .is().max(100)                                  // Maximum length 100";
     "  .has().uppercase()                              // Must have uppercase letters";
     "  .has().lowercase()                              // Must have lowercase letters";
     "  .has().digits(2)                                // Must have at least 2 digits";
     "  .has().not().spaces()                           // Should not have spaces";
     "  .has().symbols(1)                               // Must have at least 1 symbol";
     "  .is().not().oneOf(['Password123!', 'Admin123!']); // Blacklist common passwords";
     EmptyString;
     "// Validate a password";
     "function validatePassword(password) {";
     "  return passwordSchema.validate(password, { list: true });";
     "}";
     "                "].

Definition rec_default_credentials : pyval :=
  template
    "Eliminate default credential vulnerabilities by changing passwords and implementing proper authentication"
    ["Change all default credentials on all systems and components";
     "Implement a strong password policy for all accounts";
     "Set up multi-factor authentication (MFA) where possible";
     "Audit system accounts regularly";
     "Implement password rotation for service accounts"]
    code_example_default_credentials
    ["OWASP Authentication Best Practices: https://cheatsheetseries.owasp.org/cheatsheets/Authentication_Cheat_Sheet.html";
     "NIST Password Guidelines: https://pages.nist.gov/800-63-3/sp800-63b.html"].

Definition code_example_sensitive_file : string :=
  PyStr.unlines
    [EmptyString;
     "# Example .gitignore file:";
     "# Ignore sensitive files";
     ".env";
     ".env.*";
     "config/secrets.yml";
     "credentials.json";
     "private_key.pem";
     "*.key";
     "*.p12";
     "*.pfx";
     "*.password";
     EmptyString;
     "# Example of using environment variables instead of config files:";
     "# Instead of:";
     "# database.json";
     "{";
     "  " ++ dq ++ "host" ++ dq ++ ": " ++ dq ++ "db.example.com" ++ dq ++ ",";
     "  " ++ dq ++ "username" ++ dq ++ ": " ++ dq ++ "admin" ++ dq ++ ",";
     "  " ++ dq ++ "password" ++ dq ++ ": " ++ dq ++ "super-secret-password" ++ dq;
     "}";
     EmptyString;
     "# Use environment variables:";
     "const dbConfig = {";
     "  host: process.env.DB_HOST,";
     "  username: process.env.DB_USER,";
     "  password: process.env.DB_PASSWORD";
     "};";
     "                "].

Definition rec_sensitive_file : pyval :=
  template
    "Protect sensitive files by removing them from publicly accessible locations and implementing access controls"
    ["Remove sensitive files from web-accessible directories";
     "Move configuration files outside the web root";
     "Use environment variables for sensitive configuration";
     "Implement proper file permissions";
     "Use .gitignore to prevent committing sensitive files"]
    code_example_sensitive_file
    ["OWASP Sensitive Data Exposure: https://owasp.org/www-project-top-ten/2017/A3_2017-Sensitive_Data_Exposure";
     "The Twelve-Factor App - Config: https://12factor.net/config"].

Definition code_example_ssl_tls : string :=
  PyStr.unlines
    [EmptyString;
     "# Nginx secure TLS configuration:";
     "server {";
     "    listen 443 ssl;";
     "    server_name example.com;";
     "    ";
     "    # TLS configuration";
     "    ssl_protocols TLSv1.2 TLSv1.3;";
     "    ssl_prefer_server_ciphers on;";
     "    ssl_ciphers 'ECDHE-ECDSA-AES256-GCM-SHA384:ECDHE-RSA-AES256-GCM-SHA384:ECDHE-ECDSA-CHACHA20-POLY1305:ECDHE-RSA-CHACHA20-POLY1305:ECDHE-ECDSA-AES128-GCM-SHA256:ECDHE-RSA-AES128-GCM-SHA256';";
     "    ssl_session_timeout 1d;";
     "    ssl_session_cache shared:SSL:50m;";
     "    ssl_session_tickets off;";
     "    ssl_certificate /path/to/fullchain.pem;";
     "    ssl_certificate_key /path/to/privkey.pem;";
     "    ";
     "    # HSTS";
     "    add_header Strict-Transport-Security " ++ dq ++ "max-age=63072000; includeSubDomains; preload" ++ dq ++ " always;";
     "    ";
     "    # ...";
     "}";
     "                "].

Definition rec_ssl_tls : pyval :=
  template
    "Fix SSL/TLS vulnerabilities by configuring proper protocols, cipher suites, and certificates"
    ["Disable outdated protocols (SSL 2.0, SSL 3.0, TLS 1.0, TLS 1.1)";
     "Enable only strong cipher suites";
     "Configure proper certificate validation";
     "Implement HTTP Strict Transport Security (HSTS)";
     "Use secure flag for cookies"]
    code_example_ssl_tls
    ["Mozilla SSL Configuration Generator: https://ssl-config.mozilla.org/";
     "OWASP Transport Layer Protection Cheat Sheet: https://cheatsheetseries.owasp.org/cheatsheets/Transport_Layer_Protection_Cheat_Sheet.html"].

Definition code_example_cors : string :=
  PyStr.unlines
    [EmptyString;
     "# Example of secure CORS configuration in Express.js:";
     "const cors = require('cors');";
     EmptyString;
     "// Basic CORS configuration";
     "app.use(cors({";
     "  origin: ['https://example.com', 'https://www.example.com'],";
     "  methods: ['GET', 'POST'],";
     "  allowedHeaders: ['Content-Type', 'Authorization'],";
     "  credentials: true,";
     "  maxAge: 600 // Cache preflight requests for 10 minutes";
     "}));";
     EmptyString;
     "# Example of CORS configuration in Nginx:";
     "location /api/ {";
     "  if ($request_method = 'OPTIONS') {";
     "    add_header 'Access-Control-Allow-Origin' 'https://example.com';";
     "    add_header 'Access-Control-Allow-Methods' 'GET, POST, OPTIONS';";
     "    add_header 'Access-Control-Allow-Headers' 'DNT,User-Agent,X-Requested-With,If-Modified-Since,Cache-Control,Content-Type,Range,Authorization';";
     "    add_header 'Access-Control-Max-Age' '600';";
     "    add_header 'Content-Type' 'text/plain; charset=utf-8';";
     "    add_header 'Content-Length' '0';";
     "    return 204;";
     "  }";
     "  ";
     "  add_header 'Access-Control-Allow-Origin' 'https://example.com';";
     "  add_header 'Access-Control-Allow-Methods' 'GET, POST, OPTIONS';";
     "  add_header 'Access-Control-Allow-Headers' 'DNT,User-Agent,X-Requested-With,If-Modified-Since,Cache-Control,Content-Type,Range,Authorization';";
     "  add_header 'Access-Control-Expose-Headers' 'Content-Length,Content-Range';";
     "  ";
     "  # Pass to backend";
     "  proxy_pass http://backend;";
     "}";
     "                "].

Definition rec_cors : pyval :=
  template
    "Configure proper Cross-Origin Resource Sharing (CORS) policies to prevent unauthorized access"
    ["Specify the exact origins that should be allowed access";
     "Limit the HTTP methods allowed for cross-origin requests";
     "Restrict which HTTP headers can be used";
     "Control whether credentials can be included in cross-origin requests";
     "Set appropriate caching directives for preflight responses"]
    code_example_cors
    ["OWASP CORS Guide: https://cheatsheetseries.owasp.org/cheatsheets/Cross-Origin_Resource_Sharing_Cheat_Sheet.html";
     "MDN CORS: https://developer.mozilla.org/en-US/docs/Web/HTTP/CORS"].

Definition code_example_default : string :=
  PyStr.unlines
    [EmptyString;
     "# General security best practices:";
     "1. Apply input validation";
     "2. Use parameterized queries";
     "3. Implement output encoding";
     "4. Follow the principle of least privilege";
     "5. Keep all software updated";
     "            "].

Definition default_recommendation : pyval :=
  template
    "Review and fix this vulnerability based on security best practices"
    ["Identify the root cause of the vulnerability";
     "Research OWASP guidelines for this type of issue";
     "Apply security patches or updates if available";
     "Implement appropriate input validation and output encoding";
     "Consider adding additional security controls"]
    code_example_default
    ["OWASP Top 10: https://owasp.org/www-project-top-ten/";
     "SANS CWE Top 25: https://www.sans.org/top25-software-errors/"].

(** [remediation_db], in the order of the dict literal. *)
Definition remediation_db : dict :=
  [("sql injection", rec_sql_injection);
   ("xss", rec_xss);
   ("open redirect", rec_open_redirect);
   ("csrf", rec_csrf);
   ("ssrf", rec_ssrf);
   ("lfi", rec_lfi);
   ("rfi", rec_rfi);
   ("cve", rec_cve);
   ("outdated", rec_outdated);
   ("missing header", rec_missing_header);
   ("information disclosure", rec_information_disclosure);
   ("directory listing", rec_directory_listing);
   ("default credentials", rec_default_credentials);
   ("sensitive file", rec_sensitive_file);
   ("ssl tls", rec_ssl_tls);
   ("cors", rec_cors)].

(* ===================================================================== *)
(** ** [_get_recommendation_for_vulnerability_type] *)
(* ===================================================================== *)

(** First loop: [if vuln_type in vuln_name_lower or vuln_type in
    matcher_name_lower: return recommendation]. *)
Fixpoint exact_pass (db : dict) (vuln_name_lower matcher_name_lower : string)
  : option pyval :=
  match db with
  | [] => None
  | (vuln_type, recommendation) :: db' =>
      if PyStr.contains vuln_type vuln_name_lower
         || PyStr.contains vuln_type matcher_name_lower
      then Some recommendation
      else exact_pass db' vuln_name_lower matcher_name_lower
  end.

(** [vuln_type.split()[0]] *)
Definition first_word (vuln_type : string) : res string :=
  match PyStr.split vuln_type with
  | w :: _ => Ok w
  | [] => Raise IndexError
  end.

(** Second loop: the pattern is built from the first word of the key. *)
Fixpoint partial_pass (db : dict) (vuln_name_lower matcher_name_lower : string)
  : res (option pyval) :=
  match db with
  | [] => Ok None
  | (vuln_type, recommendation) :: db' =>
      let* w := first_word vuln_type in
      if PyStr.word_search w vuln_name_lower
         || PyStr.word_search w matcher_name_lower
      then Ok (Some recommendation)
      else partial_pass db' vuln_name_lower matcher_name_lower
  end.

Definition _get_recommendation_for_vulnerability_type
    (vuln_name matcher_name : pyval) : res pyval :=
  let* vuln_name_lower := Py.lower vuln_name in
  let* matcher_name_lower := Py.lower matcher_name in
  match exact_pass remediation_db vuln_name_lower matcher_name_lower with
  | Some recommendation => Ok recommendation
  | None =>
      let* found :=
        partial_pass remediation_db vuln_name_lower matcher_name_lower in
      match found with
      | Some recommendation => Ok recommendation
      | None => Ok default_recommendation
      end
  end.

(* ===================================================================== *)
(** ** The keyword classifiers and the port flattening *)
(* ===================================================================== *)

Definition subdomain_keywords : list string :=
  ["admin"; "dev"; "staging"; "test"; "beta"; "api"; "internal";
   "vpn"; "mail"; "remote"; "portal"; "intranet"; "secure"; "login";
   "db"; "database"; "auth"; "jenkins"; "git"; "svn"; "jira"; "confluence"].

Definition directory_keywords : list string :=
  [".git"; ".env"; "wp-admin"; "admin"; "backup"; "db"; "config";
   "dashboard"; "login"; "api"; "test"; "dev"; "staging"; "beta";
   "phpinfo"; "phpmyadmin"; "jenkins"; "jira"; "confluence";
   "password"; "credentials"; "sql"; "database"].

(** The inner loop [for keyword in ..: if keyword in text: ..; break]
    appends at most once, when some keyword occurs in [text]. *)
Definition any_keyword (keywords : list string) (text : string) : bool :=
  existsb (fun keyword => PyStr.contains keyword text) keywords.

Definition _find_interesting_subdomains (subdomains : pyval)
  : res (list pyval) :=
  let* xs := Py.iter subdomains in
  for_each
    (fun interesting subdomain =>
       let* lowered := Py.lower subdomain in
       Ok (if any_keyword subdomain_keywords lowered
           then (interesting ++ [subdomain])%list else interesting))
    xs [].

Definition _analyze_ports (port_data : pyval) : res (list pyval) :=
  let* scan_results := Py.get port_data "scan_results" (PList []) in
  let* hosts := Py.iter scan_results in
  for_each
    (fun interesting_ports host =>
       let* ports := Py.get host "ports" (PList []) in
       let* port_infos := Py.iter ports in
       for_each
         (fun interesting_ports port_info =>
            let* h := Py.get host "host" (PStr "unknown") in
            let* p := Py.get port_info "port" (PInt 0) in
            let* s := Py.get port_info "service" (PStr "unknown") in
            let* v := Py.get port_info "version" (PStr "unknown") in
            Ok (interesting_ports ++
                [PDict [("host", h); ("port", p);
                        ("service", s); ("version", v)]])%list)
         port_infos interesting_ports)
    hosts [].

Definition _find_interesting_directories (directories : pyval)
  : res (list pyval) :=
  let* xs := Py.iter directories in
  for_each
    (fun interesting directory =>
       let* url := Py.get directory "url" (PStr "") in
       let* lowered := Py.lower url in
       Ok (if any_keyword directory_keywords lowered
           then (interesting ++ [directory])%list else interesting))
    xs [].

(* ===================================================================== *)
(** ** [_analyze_vulnerabilities]: the finding normalizer *)
(* ===================================================================== *)

(** [result.get('info', {}).get(key, dflt)] *)
Definition info_field (result : pyval) (key : string) (dflt : pyval)
  : res pyval :=
  let* info := Py.get result "info" (PDict []) in
  Py.get info key dflt.

(** The finding built from one entry of a bundle's ['results']. *)
Definition nuclei_finding (result : pyval) : res pyval :=
  let* title := info_field result "name" (PStr "Unknown Vulnerability") in
  let* severity := info_field result "severity" (PStr "info") in
  let* description := info_field result "description" (PStr "") in
  let* url := Py.get result "host" (PStr "") in
  let* name := info_field result "name" (PStr "") in
  let* matcher := Py.get result "matcher-name" (PStr "") in
  let* recommendation :=
    _get_recommendation_for_vulnerability_type name matcher in
  Ok (PDict [("title", title); ("severity", severity);
             ("description", description); ("url", url);
             ("recommendation", recommendation)]).

(** The severity read off the title of a manual check. *)
Definition manual_severity (title : pyval) : res string :=
  let* critical := Py.contains "CRITICAL" title in
  if critical then Ok "critical"
  else
    let* warning := Py.contains "WARNING" title in
    if warning then Ok "medium" else Ok "info".

(** The finding built from one entry of a bundle's ['manual_checks']. *)
Definition manual_finding (check : pyval) : res pyval :=
  let* title := Py.get check "title" (PStr "") in
  let* severity := manual_severity title in
  let* description := Py.get check "content" (PStr "") in
  let* recommendation :=
    _get_recommendation_for_vulnerability_type title (PStr "") in
  Ok (PDict [("title", title); ("severity", PStr severity);
             ("description", description);
             ("recommendation", recommendation)]).

(** [for x in container[key]: analyzed_vulns.append(build(x))] *)
Definition append_findings (build : pyval -> res pyval) (vuln_data : pyval)
    (key : string) (analyzed_vulns : list pyval) : res (list pyval) :=
  let* entries := Py.getitem vuln_data key in
  let* xs := Py.iter entries in
  for_each
    (fun analyzed_vulns x =>
       let* finding := build x in Ok (analyzed_vulns ++ [finding])%list)
    xs analyzed_vulns.

(** The body of the loop over the bundles. *)
Definition analyze_bundle (analyzed_vulns : list pyval) (vuln_data : pyval)
  : res (list pyval) :=
  let* nuclei := Py.contains "results" vuln_data in
  if nuclei then
    append_findings nuclei_finding vuln_data "results" analyzed_vulns
  else
    let* manual := Py.contains "manual_checks" vuln_data in
    if manual then
      append_findings manual_finding vuln_data "manual_checks" analyzed_vulns
    else Ok analyzed_vulns.

Definition _analyze_vulnerabilities (vulnerabilities : pyval)
  : res (list pyval) :=
  let* bundles := Py.iter vulnerabilities in
  for_each analyze_bundle bundles [].

(* ===================================================================== *)
(** ** [_get_recommendation_for_vulnerability] *)
(* ===================================================================== *)

(** [step.replace('{{URL}}', affected_url)] *)
Definition replace_url (affected_url step : pyval) : res pyval :=
  match step with
  | PStr text =>
      match affected_url with
      | PStr u => Ok (PStr (PyStr.replace "{{URL}}" u text))
      | _ => Raise TypeError
      end
  | _ => Raise AttributeError
  end.

(** [[f(x) for x in xs]] *)
Fixpoint comprehension (f : pyval -> res pyval) (xs : list pyval)
  : res (list pyval) :=
  match xs with
  | [] => Ok []
  | x :: xs' =>
      let* y := f x in
      let* ys := comprehension f xs' in
      Ok (y :: ys)
  end.

Definition timeframe_of (severity : string) : string :=
  if Py.in_strs severity ["critical"; "high"]
  then "Immediate (within 24-48 hours)"
  else if String.eqb severity "medium"
  then "Short-term (within 1-2 weeks)"
  else "Medium-term (within 1 month)".

Definition _get_recommendation_for_vulnerability (vuln : pyval) : res pyval :=
  let* title := Py.get vuln "title" (PStr "") in
  let* vuln_type := Py.lower title in
  let* sev := Py.get vuln "severity" (PStr "medium") in
  let* severity := Py.lower sev in
  let* recommendation :=
    _get_recommendation_for_vulnerability_type (PStr vuln_type) (PStr "") in
  let* details := Py.get vuln "details" (PDict []) in
  let* own_url := Py.get vuln "url" (PStr "") in
  let* affected_url := Py.get details "url" own_url in
  let* summary := Py.getitem recommendation "summary" in
  let* steps := Py.getitem recommendation "steps" in
  let* code_example := Py.getitem recommendation "code_example" in
  let* references := Py.getitem recommendation "references" in
  let formatted_recommendation :=
    [("summary", summary); ("steps", steps);
     ("code_example", code_example); ("references", references)] in
  let* formatted_recommendation :=
    if Py.truthy affected_url then
      let with_url :=
        Py.store "affected_url" affected_url formatted_recommendation in
      let* old_steps := Py.getitem (PDict with_url) "steps" in
      let* xs := Py.iter old_steps in
      let* new_steps := comprehension (replace_url affected_url) xs in
      Ok (Py.store "steps" (PList new_steps) with_url)
    else Ok formatted_recommendation in
  Ok (PDict (Py.store "timeframe" (PStr (timeframe_of severity))
               formatted_recommendation)).

(* ===================================================================== *)
(** ** [analyze_results] *)
(* ===================================================================== *)

(** [d[k] += 1] *)
Definition increment (k : string) (d : dict) : res dict :=
  match Py.lookup k d with
  | Some (PInt n) => Ok (Py.store k (PInt (n + 1)) d)
  | Some (PBool b) => Ok (Py.store k (PInt ((if b then 1 else 0) + 1)) d)
  | Some _ => Raise TypeError
  | None => Raise KeyError
  end.

Definition empty_vuln_count : dict :=
  [("critical", PInt 0); ("high", PInt 0); ("medium", PInt 0);
   ("low", PInt 0); ("info", PInt 0)].

(** The loop that counts the findings by severity. *)
Definition count_vulnerability (vuln_count : dict) (vuln : pyval) : res dict :=
  let* sev := Py.get vuln "severity" (PStr "info") in
  let* severity := Py.lower sev in
  if Py.has_key severity vuln_count
  then increment severity vuln_count
  else increment "info" vuln_count.

(** The state of the method: the ['summary'] and ['details'] dicts of
    [self.analysis]. *)
Record analysis_state : Type := mk_analysis {
  summary : dict;
  details : dict
}.

Definition analyze_subdomains (results : pyval) (a : analysis_state)
  : res analysis_state :=
  let* present := Py.contains "subdomains" results in
  if present then
    let* section := Py.getitem results "subdomains" in
    let* subdomains := Py.get section "subdomains" (PList []) in
    let* n := Py.len subdomains in
    let summary' := Py.store "subdomain_count" (PInt n) (summary a) in
    let* interesting := _find_interesting_subdomains subdomains in
    Ok (mk_analysis summary'
          (Py.store "interesting_subdomains" (PList interesting) (details a)))
  else Ok a.

Definition analyze_open_ports (results : pyval) (a : analysis_state)
  : res analysis_state :=
  let* present := Py.contains "ports" results in
  if present then
    let* section := Py.getitem results "ports" in
    let* open_ports := _analyze_ports section in
    let details' := Py.store "open_ports" (PList open_ports) (details a) in
    let* section := Py.getitem results "ports" in
    let* scan_results := Py.get section "scan_results" (PList []) in
    let* hosts := Py.iter scan_results in
    let* open_port_count :=
      for_each
        (fun count host =>
           let* ports := Py.get host "ports" (PList []) in
           let* n := Py.len ports in
           Ok (count + n)%Z)
        hosts 0%Z in
    Ok (mk_analysis
          (Py.store "open_port_count" (PInt open_port_count) (summary a))
          details')
  else Ok a.

Definition analyze_directories (results : pyval) (a : analysis_state)
  : res analysis_state :=
  let* present := Py.contains "directories" results in
  if present then
    let* section := Py.getitem results "directories" in
    let* dir_scan := Py.get section "directory_scan" (PList []) in
    let* n := Py.len dir_scan in
    let summary' := Py.store "directory_count" (PInt n) (summary a) in
    let* interesting := _find_interesting_directories dir_scan in
    Ok (mk_analysis summary'
          (Py.store "interesting_directories" (PList interesting)
             (details a)))
  else Ok a.

Definition analyze_live_hosts (results : pyval) (a : analysis_state)
  : res analysis_state :=
  let* present := Py.contains "livehosts" results in
  if present then
    let* section := Py.getitem results "livehosts" in
    let* live_hosts := Py.get section "live_hosts" (PList []) in
    let* n := Py.len live_hosts in
    Ok (mk_analysis (Py.store "live_host_count" (PInt n) (summary a))
          (details a))
  else Ok a.

Definition analyze_vulnerability_section (results : pyval)
    (a : analysis_state) : res analysis_state :=
  let* present := Py.contains "vulnerabilities" results in
  if present then
    let* section := Py.getitem results "vulnerabilities" in
    let* analyzed := _analyze_vulnerabilities section in
    let details' := Py.store "vulnerabilities" (PList analyzed) (details a) in
    let* stored := Py.getitem (PDict details') "vulnerabilities" in
    let* vulns := Py.iter stored in
    let* vuln_count := for_each count_vulnerability vulns empty_vuln_count in
    Ok (mk_analysis
          (Py.store "vulnerability_count" (PDict vuln_count) (summary a))
          details')
  else Ok a.

(** [analyze_results], on [self.results]; the result is [self.analysis]
    without its ['timestamp']. *)
Definition analyze_results (results : pyval) : res analysis_state :=
  let a := mk_analysis [] [] in
  let* a := analyze_subdomains results a in
  let* a := analyze_open_ports results a in
  let* a := analyze_directories results a in
  let* a := analyze_live_hosts results a in
  analyze_vulnerability_section results a.

(* ===================================================================== *)
(** ** [generate_recommendations] *)
(* ===================================================================== *)

(** [self.recommendations]: the three priority lists. *)
Record recommendations : Type := mk_recommendations {
  high_priority : list pyval;
  medium_priority : list pyval;
  low_priority : list pyval
}.

Definition append_high (e : pyval) (r : recommendations) : recommendations :=
  mk_recommendations (high_priority r ++ [e]) (medium_priority r)
    (low_priority r).

Definition append_medium (e : pyval) (r : recommendations) : recommendations :=
  mk_recommendations (high_priority r) (medium_priority r ++ [e])
    (low_priority r).

Definition append_low (e : pyval) (r : recommendations) : recommendations :=
  mk_recommendations (high_priority r) (medium_priority r)
    (low_priority r ++ [e]).

(** An entry [{'title': .., 'description': .., 'recommendation': ..}]. *)
Definition entry (title description recommendation : pyval) : pyval :=
  PDict [("title", title); ("description", description);
         ("recommendation", recommendation)].

(** Body of the loop over [details['vulnerabilities']]. *)
Definition recommend_vulnerability (r : recommendations) (vuln : pyval)
  : res recommendations :=
  let* sev := Py.get vuln "severity" (PStr "info") in
  let* severity := Py.lower sev in
  let* title := Py.get vuln "title" (PStr "Unnamed vulnerability") in
  let* description := Py.get vuln "description" (PStr "") in
  let* detailed := _get_recommendation_for_vulnerability vuln in
  let recommendation := entry title description detailed in
  if Py.in_strs severity ["critical"; "high"]
  then Ok (append_high recommendation r)
  else if String.eqb severity "medium"
  then Ok (append_medium recommendation r)
  else Ok (append_low recommendation r).

(** Body of the loop over [details['open_ports']]. *)
Definition recommend_port (r : recommendations) (port_info : pyval)
  : res recommendations :=
  let* port := Py.getitem port_info "port" in
  if Py.in_ints port [22; 23; 3389; 5900]%Z then
    let* port := Py.getitem port_info "port" in
    let* service := Py.getitem port_info "service" in
    let* port2 := Py.getitem port_info "port" in
    let* port3 := Py.getitem port_info "port" in
    Ok (append_medium
          (entry
             (PStr ("Remote Access Service on Port " ++ Py.str port))
             (PStr ("Found " ++ Py.str service ++ " running on port "
                    ++ Py.str port2))
             (PStr ("Restrict access to port " ++ Py.str port3 ++
                    " to trusted IPs only and ensure strong authentication is in place.")))
          r)
  else
    let* port := Py.getitem port_info "port" in
    if Py.in_ints port [80; 443]%Z then
      let* port := Py.getitem port_info "port" in
      let* service := Py.getitem port_info "service" in
      let* port2 := Py.getitem port_info "port" in
      Ok (append_low
            (entry
               (PStr ("Web Service on Port " ++ Py.str port))
               (PStr ("Found " ++ Py.str service ++ " running on port "
                      ++ Py.str port2))
               (PStr "Ensure the web server is properly configured with secure headers and up-to-date."))
            r)
    else
      let* port := Py.getitem port_info "port" in
      if Py.in_ints port [21; 20]%Z then
        let* port := Py.getitem port_info "port" in
        let* service := Py.getitem port_info "service" in
        let* port2 := Py.getitem port_info "port" in
        Ok (append_medium
              (entry
                 (PStr ("FTP Service on Port " ++ Py.str port))
                 (PStr ("Found " ++ Py.str service ++ " running on port "
                        ++ Py.str port2))
                 (PStr "Consider replacing FTP with SFTP or FTPS for secure file transfers."))
              r)
      else Ok r.

(** [a in url or b in url], each [url] being [dir_info['url']]. *)
Definition url_has_either (dir_info : pyval) (a b : string) : res bool :=
  let* url := Py.getitem dir_info "url" in
  let* first := Py.contains a url in
  if first then Ok true
  else
    let* url := Py.getitem dir_info "url" in
    Py.contains b url.

(** Body of the loop over [details['interesting_directories']]. *)
Definition recommend_directory (r : recommendations) (dir_info : pyval)
  : res recommendations :=
  let* sensitive := url_has_either dir_info ".git" ".env" in
  if sensitive then
    let* url := Py.getitem dir_info "url" in
    let* url2 := Py.getitem dir_info "url" in
    Ok (append_high
          (entry
             (PStr "Sensitive Information Exposure")
             (PStr ("Found " ++ Py.str url ++
                    " which may expose sensitive information"))
             (PStr ("Remove or restrict access to " ++ Py.str url2 ++
                    " immediately.")))
          r)
  else
    let* admin := url_has_either dir_info "wp-admin" "admin" in
    if admin then
      let* url := Py.getitem dir_info "url" in
      Ok (append_medium
            (entry
               (PStr "Admin Interface Exposed")
               (PStr ("Found potential admin interface at " ++ Py.str url))
               (PStr "Restrict access to admin interfaces and use strong passwords and 2FA."))
            r)
    else Ok r.

(** [if key in details: for x in details[key]: body] *)
Definition for_section (key : string) (details : pyval)
    (body : recommendations -> pyval -> res recommendations)
    (r : recommendations) : res recommendations :=
  let* present := Py.contains key details in
  if present then
    let* section := Py.getitem details key in
    let* xs := Py.iter section in
    for_each body xs r
  else Ok r.

(** [generate_recommendations], on [self.analysis['details']]; the result
    is [self.recommendations]. *)
Definition generate_recommendations (details : pyval) : res recommendations :=
  let r := mk_recommendations [] [] [] in
  let* r := for_section "vulnerabilities" details recommend_vulnerability r in
  let* r := for_section "open_ports" details recommend_port r in
  for_section "interesting_directories" details recommend_directory r.


(* ===================================================================== *)
(** ** [prioritize_findings] *)
(* ===================================================================== *)

(** [self.recommendations] as [generate_recommendations] leaves it: the
    dict with the three lists. *)
Definition recommendations_dict (r : recommendations) : pyval :=
  PDict [("high_priority", PList (high_priority r));
         ("medium_priority", PList (medium_priority r));
         ("low_priority", PList (low_priority r))].

(** The action built from an entry [rec], with the timeframe of its tier. *)
Definition timed_action (timeframe : string) (rec : pyval) : res pyval :=
  let* title := Py.getitem rec "title" in
  let* description := Py.getitem rec "description" in
  let* recommendation := Py.getitem rec "recommendation" in
  Ok (PDict [("title", title); ("description", description);
             ("recommendation", recommendation);
             ("timeframe", PStr timeframe)]).

(** [d[key].append(x)] *)
Definition append_to (key : string) (x : pyval) (d : dict) : res dict :=
  match Py.lookup key d with
  | Some (PList l) => Ok (Py.store key (PList (l ++ [x])) d)
  | Some _ => Raise AttributeError
  | None => Raise KeyError
  end.

(** [if source in self.recommendations: for rec in
    self.recommendations[source]: self.priorities[target].append({..})] *)
Definition prioritize_tier (recs : pyval) (source target timeframe : string)
    (priorities : dict) : res dict :=
  let* present := Py.contains source recs in
  if present then
    let* section := Py.getitem recs source in
    let* xs := Py.iter section in
    for_each
      (fun priorities rec =>
         let* action := timed_action timeframe rec in
         append_to target action priorities)
      xs priorities
  else Ok priorities.

(** [prioritize_findings], on [self.recommendations]; the result is
    [self.priorities]. *)
Definition prioritize_findings (recs : pyval) : res dict :=
  let priorities :=
    [("immediate_action", PList []); ("short_term", PList []);
     ("long_term", PList [])] in
  let* priorities :=
    prioritize_tier recs "high_priority" "immediate_action"
      "As soon as possible (24-48 hours)" priorities in
  let* priorities :=
    prioritize_tier recs "medium_priority" "short_term"
      "Within 1-2 weeks" priorities in
  prioritize_tier recs "low_priority" "long_term"
    "Within 1-3 months" priorities.

(* ===================================================================== *)
(** ** [load_results] *)
(* ===================================================================== *)

(** What happens when the method opens a file that [glob] has listed and
    hands it to [json.load]: [open] raises, or [json.load] raises, or a
    value is read.  Either exception is caught and logged. *)
Inductive file : Type :=
| Unreadable
| Malformed
| Json (v : pyval).

(** The five listings of [glob.glob], each in the order [glob] gives. *)
Record scan_tree : Type := mk_scan_tree {
  subdomain_files : list file;
  port_files : list file;
  dir_files : list file;
  host_files : list file;
  vuln_files : list file
}.

(** [if files: try: with open(files[0]) as f: self.results[key] =
    json.load(f) except Exception: ..]: only the first file is tried. *)
Definition load_first (key : string) (files : list file) (results : dict)
  : dict :=
  match files with
  | Json v :: _ => Py.store key v results
  | _ => results
  end.

(** The body of the loop over the vulnerability files: once the file is
    open the list is created if need be, and only then is the file read. *)
Definition load_vulnerability (results : dict) (f : file) : dict :=
  match f with
  | Unreadable => results
  | Malformed =>
      if Py.has_key "vulnerabilities" results then results
      else Py.store "vulnerabilities" (PList []) results
  | Json v =>
      let results :=
        if Py.has_key "vulnerabilities" results then results
        else Py.store "vulnerabilities" (PList []) results in
      match append_to "vulnerabilities" v results with
      | Ok results' => results'
      | Raise _ => results
      end
  end.

(** [load_results]: [self.results] afterwards, and the value returned. *)
Definition load_results (tree : scan_tree) : dict * bool :=
  let results := load_first "subdomains" (subdomain_files tree) [] in
  let results := load_first "ports" (port_files tree) results in
  let results := load_first "directories" (dir_files tree) results in
  let results := load_first "livehosts" (host_files tree) results in
  let results := fold_left load_vulnerability (vuln_files tree) results in
  (results, Py.truthy (PDict results)).

(* ===================================================================== *)
(** ** [_prepare_ai_prompt] and [_prepare_transformers_text] *)
(* ===================================================================== *)

(** [self.analysis] as [analyze_results] leaves it. *)
Definition analysis_dict (timestamp : string) (a : analysis_state) : pyval :=
  PDict [("timestamp", PStr timestamp); ("summary", PDict (summary a));
         ("details", PDict (details a))].

Definition prompt_preamble : string :=
  PyStr.unlines
    ["You are a senior cybersecurity expert analyzing bug bounty scan results. ";
     "Based on the following findings, provide a comprehensive analysis with detailed remediation steps.";
     "Focus on actionable recommendations with code examples where appropriate.";
     EmptyString;
     "Your response should include:";
     "1. A concise summary of the most critical findings";
     "2. Detailed remediation steps for each vulnerability, prioritized by severity";
     "3. Code examples to fix the most critical issues";
     "4. References to security best practices and standards";
     "5. A recommended timeline for addressing each category of findings";
     EmptyString;
     EmptyString].

(** [if key in summary: text += f"{before}{summary[key]}{after}"] *)
Definition count_line (summary : pyval) (key before after : string)
    (text : string) : res string :=
  let* present := Py.contains key summary in
  if present then
    let* n := Py.getitem summary key in
    Ok (text ++ before ++ Py.str n ++ after)
  else Ok text.

(** [if 'vulnerability_count' in summary: text += f"{before}Vulnerabilities:
    {vuln_count.get('critical', 0)} critical, .. info{after}"] *)
Definition vulnerability_line (summary : pyval) (before after : string)
    (text : string) : res string :=
  let* present := Py.contains "vulnerability_count" summary in
  if present then
    let* vuln_count := Py.getitem summary "vulnerability_count" in
    let* critical := Py.get vuln_count "critical" (PInt 0) in
    let* high := Py.get vuln_count "high" (PInt 0) in
    let* medium := Py.get vuln_count "medium" (PInt 0) in
    let* low := Py.get vuln_count "low" (PInt 0) in
    let* info := Py.get vuln_count "info" (PInt 0) in
    Ok (text ++ before ++ "Vulnerabilities: " ++
        Py.str critical ++ " critical, " ++ Py.str high ++ " high, " ++
        Py.str medium ++ " medium, " ++ Py.str low ++ " low, " ++
        Py.str info ++ " info" ++ after)
  else Ok text.

(** The four counters and the vulnerability counts, one item each. *)
Definition summary_lines (summary : pyval) (before after : string)
    (text : string) : res string :=
  let* text :=
    count_line summary "subdomain_count" before
      (" subdomains discovered" ++ after) text in
  let* text :=
    count_line summary "live_host_count" before
      (" live hosts found" ++ after) text in
  let* text :=
    count_line summary "open_port_count" before
      (" open ports detected" ++ after) text in
  let* text :=
    count_line summary "directory_count" before
      (" directories enumerated" ++ after) text in
  vulnerability_line summary before after text.

(** [f"- {vuln.get('title', 'Unknown')} ({vuln.get('severity',
    'unknown').upper()}): {vuln.get('description', 'No description')}\n"] *)
Definition prompt_vulnerability_line (vuln : pyval) : res string :=
  let* title := Py.get vuln "title" (PStr "Unknown") in
  let* sev := Py.get vuln "severity" (PStr "unknown") in
  let* severity := Py.upper sev in
  let* description := Py.get vuln "description" (PStr "No description") in
  Ok ("- " ++ Py.str title ++ " (" ++ severity ++ "): " ++
      Py.str description ++ PyStr.newline).

(** [f"- Port {port['port']}: {port['service']} ({port.get('version',
    'unknown')})\n"] *)
Definition prompt_port_line (port : pyval) : res string :=
  let* number := Py.getitem port "port" in
  let* service := Py.getitem port "service" in
  let* version := Py.get port "version" (PStr "unknown") in
  Ok ("- Port " ++ Py.str number ++ ": " ++ Py.str service ++ " (" ++
      Py.str version ++ ")" ++ PyStr.newline).

(** [f"- {directory['url']} [Status: {directory.get('status',
    'unknown')}]\n"] *)
Definition prompt_directory_line (directory : pyval) : res string :=
  let* url := Py.getitem directory "url" in
  let* status := Py.get directory "status" (PStr "unknown") in
  Ok ("- " ++ Py.str url ++ " [Status: " ++ Py.str status ++ "]" ++
      PyStr.newline).

(** [if key in self.analysis.get('details', {}): prompt += heading; for x
    in self.analysis['details'][key]: prompt += line(x); prompt += "\n"] *)
Definition prompt_section (analysis : pyval) (key heading : string)
    (line : pyval -> res string) (prompt : string) : res string :=
  let* details := Py.get analysis "details" (PDict []) in
  let* present := Py.contains key details in
  if present then
    let prompt := prompt ++ heading in
    let* details := Py.getitem analysis "details" in
    let* section := Py.getitem details key in
    let* xs := Py.iter section in
    let* prompt :=
      for_each
        (fun prompt x => let* l := line x in Ok (prompt ++ l))
        xs prompt in
    Ok (prompt ++ PyStr.newline)
  else Ok prompt.

Definition prompt_request : string :=
  "Based on these findings, please provide:" ++ PyStr.newline ++
  "1. A concise analysis of the security posture" ++ PyStr.newline ++
  "2. Prioritized recommendations (immediate, short-term, and long-term)"
  ++ PyStr.newline ++
  "3. Any patterns or notable security concerns" ++ PyStr.newline.

(** [_prepare_ai_prompt], on [self.analysis]. *)
Definition _prepare_ai_prompt (analysis : pyval) : res string :=
  let prompt := prompt_preamble in
  let* has_summary := Py.contains "summary" analysis in
  let* prompt :=
    if has_summary then
      let prompt :=
        prompt ++ PyStr.newline ++ "## SCAN SUMMARY:" ++ PyStr.newline in
      let* summary := Py.getitem analysis "summary" in
      let* prompt := summary_lines summary "- " PyStr.newline prompt in
      Ok (prompt ++ PyStr.newline)
    else Ok prompt in
  let* prompt :=
    prompt_section analysis "vulnerabilities"
      ("Vulnerabilities:" ++ PyStr.newline) prompt_vulnerability_line
      prompt in
  let* prompt :=
    prompt_section analysis "open_ports"
      ("Open Ports:" ++ PyStr.newline) prompt_port_line prompt in
  let* prompt :=
    prompt_section analysis "interesting_directories"
      ("Interesting Directories:" ++ PyStr.newline) prompt_directory_line
      prompt in
  Ok (prompt ++ prompt_request).

(** [[v for v in xs if keep(v)]] *)
Fixpoint filter_by (keep : pyval -> res bool) (xs : list pyval)
  : res (list pyval) :=
  match xs with
  | [] => Ok []
  | x :: xs' =>
      let* k := keep x in
      let* rest := filter_by keep xs' in
      Ok (if k then x :: rest else rest)
  end.

(** [v.get('severity', '').lower() in ['critical', 'high']] *)
Definition is_high_severity (v : pyval) : res bool :=
  let* sev := Py.get v "severity" (PStr "") in
  let* severity := Py.lower sev in
  Ok (Py.in_strs severity ["critical"; "high"]).

(** [f"{vuln.get('title', 'Unknown')} ({vuln.get('severity',
    '').upper()})"] *)
Definition top_vulnerability (vuln : pyval) : res string :=
  let* title := Py.get vuln "title" (PStr "Unknown") in
  let* sev := Py.get vuln "severity" (PStr "") in
  let* severity := Py.upper sev in
  Ok (Py.str title ++ " (" ++ severity ++ ")").

(** [enumerate(l)] *)
Definition enumerate (l : list pyval) : list (nat * pyval) :=
  combine (seq 0 (List.length l)) l.

(** The part on the most severe findings: at most three of them. *)
Definition top_vulnerabilities (analysis : pyval) (text : string)
  : res string :=
  let* details := Py.get analysis "details" (PDict []) in
  let* present := Py.contains "vulnerabilities" details in
  if present then
    let text := text ++ "Most critical vulnerabilities include: " in
    let* details := Py.getitem analysis "details" in
    let* section := Py.getitem details "vulnerabilities" in
    let* vulns := Py.iter section in
    let* high_severity_vulns := filter_by is_high_severity vulns in
    for_each
      (fun text (item : nat * pyval) =>
         let (i, vuln) := item in
         let text := if (0 <? i)%nat then text ++ ", " else text in
         let* shown := top_vulnerability vuln in
         Ok (text ++ shown))
      (enumerate (firstn 3 high_severity_vulns)) text
  else Ok text.

(** [key in self.analysis.get('details', {}) and
    self.analysis['details'][key]], as a truth value. *)
Definition section_nonempty (analysis : pyval) (key : string) : res bool :=
  let* details := Py.get analysis "details" (PDict []) in
  let* present := Py.contains key details in
  if present then
    let* details := Py.getitem analysis "details" in
    let* section := Py.getitem details key in
    Ok (Py.truthy section)
  else Ok false.

(** The loop that collects the services, each once, in order of first
    appearance. *)
Definition collect_service (common_services : list pyval) (port : pyval)
  : res (list pyval) :=
  let* service := Py.getitem port "service" in
  if negb (Py.in_list service common_services) then
    let* service := Py.getitem port "service" in
    Ok (common_services ++ [service])%list
  else Ok common_services.

Definition notable_findings (analysis : pyval) (text : string) : res string :=
  let* directories := section_nonempty analysis "interesting_directories" in
  let* text :=
    if directories then
      let* details := Py.getitem analysis "details" in
      let* section := Py.getitem details "interesting_directories" in
      let* n := Py.len section in
      Ok (text ++ "sensitive directories (" ++ PyStr.of_Z n ++ " found), ")
    else Ok text in
  let* ports := section_nonempty analysis "open_ports" in
  if ports then
    let* details := Py.getitem analysis "details" in
    let* section := Py.getitem details "open_ports" in
    let* xs := Py.iter section in
    let* common_services := for_each collect_service xs [] in
    let* joined := Py.join ", " (firstn 3 common_services) in
    Ok (text ++ "open services (" ++ joined ++ "), ")
  else Ok text.

(** [_prepare_transformers_text], on [self.analysis]; [None] when the text
    is shorter than 100 characters. *)
Definition _prepare_transformers_text (analysis : pyval)
  : res (option string) :=
  let text := "Bug bounty scan results summary: " in
  let* has_summary := Py.contains "summary" analysis in
  let* text :=
    if has_summary then
      let* summary := Py.getitem analysis "summary" in
      summary_lines summary "" ". " text
    else Ok text in
  let* text := top_vulnerabilities analysis text in
  let text := text ++ " Notable findings include " in
  let* text := notable_findings analysis text in
  let text := PyStr.rstrip ", " text ++ "." in
  if (String.length text <? 100)%nat then Ok None else Ok (Some text).

(* ===================================================================== *)
(** ** Vocabulary of the statements *)
(* ===================================================================== *)

(** [needle] occurs in [hay]: some text before it and some text after it
    make up [hay]. *)
Definition occurs_in (needle hay : string) : Prop :=
  exists before after, hay = before ++ needle ++ after.

(** The key occurs in one of the two lower-cased names (first pass). *)
Definition exact_match (key vuln_name_lower matcher_name_lower : string)
  : Prop :=
  occurs_in key vuln_name_lower \/ occurs_in key matcher_name_lower.

(** The first word of the key is found between word boundaries in one of
    the two lower-cased names (second pass). *)
Definition word_match (key vuln_name_lower matcher_name_lower : string)
  : Prop :=
  exists w, first_word key = Ok w /\
            (PyStr.word_search w vuln_name_lower = true \/
             PyStr.word_search w matcher_name_lower = true).

(** The key of a catalog entry has a first word. *)
Definition has_first_word (kv : string * pyval) : bool :=
  match first_word (fst kv) with Ok _ => true | Raise _ => false end.

(** The value of a field that may be missing, with its default. *)
Definition or_default (field : option pyval) (dflt : pyval) : pyval :=
  match field with Some x => x | None => dflt end.

(** A field that is a string when it is there. *)
Definition str_or_missing (field : option pyval) : Prop :=
  match field with
  | Some (PStr _) | None => True
  | Some _ => False
  end.


(** A value has the shape of a catalog entry. *)
Definition is_template (v : pyval) : Prop :=
  exists summary steps code_example references,
    v = template summary steps code_example references.

(** The templates the lookup can answer with. *)
Definition known_template (v : pyval) : Prop :=
  In v (map snd remediation_db) \/ v = default_recommendation.





(** The input the per-finding builder is made for: a dict whose title,
    when there is one, is a string, whose ['details'], when there are any,
    are a dict, and whose affected URL (the one of the details, else its
    own, else [""]) is a string or counts as false. *)
Definition affected_url_of (vuln details : dict) : pyval :=
  or_default (Py.lookup "url" details)
    (or_default (Py.lookup "url" vuln) (PStr "")).

Definition url_usable (u : pyval) : Prop :=
  Py.truthy u = false \/ exists s, u = PStr s.

Definition well_formed_vuln (vuln : dict) : Prop :=
  str_or_missing (Py.lookup "title" vuln) /\
  exists details,
    or_default (Py.lookup "details" vuln) (PDict []) = PDict details /\
    url_usable (affected_url_of vuln details).

(** The three priority lists, by name. *)
Inductive priority : Type := High | Medium | Low.

Definition bucket (p : priority) (r : recommendations) : list pyval :=
  match p with
  | High => high_priority r
  | Medium => medium_priority r
  | Low => low_priority r
  end.

(** Between [before] and [after] exactly one entry was added: it has the
    given title, it went to the end of the list [p], and the two other
    lists are as they were. *)
Definition adds_exactly_one (p : priority) (title : string)
    (before after : recommendations) : Prop :=
  (exists description advice,
      bucket p after =
      (bucket p before ++ [entry (PStr title) description advice])%list) /\
  (forall q, q <> p -> bucket q after = bucket q before).

(** The shape of the records [_analyze_ports] builds. *)
Definition port_record (v : pyval) : Prop :=
  exists host port service version,
    v = PDict [("host", host); ("port", port);
               ("service", service); ("version", version)].

(** The bundle is a container without [key]: a dict that lacks the key, a
    list that lacks the element, a string that lacks the substring.  On
    [None], a boolean or a number the test [key in bundle] is not
    defined. *)
Definition lacks (key : string) (bundle : pyval) : Prop :=
  match bundle with
  | PDict d => Py.lookup key d = None
  | PList l => ~ In (PStr key) l
  | PStr s => ~ occurs_in key s
  | _ => False
  end.

(** A bundle of neither shape. *)
Definition unrecognized_bundle (bundle : pyval) : Prop :=
  lacks "results" bundle /\ lacks "manual_checks" bundle.

(** [None], a boolean or a number: not a container. *)
Definition scalar (v : pyval) : Prop :=
  v = PNone \/ (exists b, v = PBool b) \/ (exists n, v = PInt n).

(** The table of timeframes: what goes with which (lower-case) severity. *)
Definition documented_timeframe (severity timeframe : string) : Prop :=
  (severity = "critical" \/ severity = "high" ->
   timeframe = "Immediate (within 24-48 hours)") /\
  (severity = "medium" -> timeframe = "Short-term (within 1-2 weeks)") /\
  (severity <> "critical" -> severity <> "high" -> severity <> "medium" ->
   timeframe = "Medium-term (within 1 month)").

(* ===================================================================== *)
(** ** Vocabulary of the further statements *)
(* ===================================================================== *)

(** Some keyword of the list occurs in the lower-cased text. *)
Definition mentions (keywords : list string) (text : string) : Prop :=
  exists keyword,
    In keyword keywords /\ occurs_in keyword (PyStr.lower text).

(** A finding as the normalizer builds it: the title is a string, there
    are a severity and a description, and no ['details']. *)
Definition titled_finding (f : pyval) : Prop :=
  exists d title severity description,
    f = PDict d /\
    Py.lookup "title" d = Some (PStr title) /\
    Py.lookup "severity" d = Some severity /\
    Py.lookup "description" d = Some description /\
    Py.lookup "details" d = None.

(** The severity the counting loop reads is a string. *)
Definition severity_is_text (f : pyval) : Prop :=
  exists sev, Py.get f "severity" (PStr "info") = Ok (PStr sev).

(** A finding as the analysis holds it once [analyze_results] is through:
    title and severity are strings and there are no ['details']. *)
Definition analyzed_finding (f : pyval) : Prop :=
  exists d title severity,
    f = PDict d /\
    Py.lookup "title" d = Some (PStr title) /\
    Py.lookup "severity" d = Some (PStr severity) /\
    Py.lookup "details" d = None.

(** A directory record that has a url, which is a string. *)
Definition has_url (v : pyval) : Prop :=
  exists d url, v = PDict d /\ Py.lookup "url" d = Some (PStr url).

(** The five counters of the summary, adding up to [total]. *)
Definition counts_total (vuln_count : dict) (total : Z) : Prop :=
  exists critical high medium low info,
    vuln_count =
      [("critical", PInt critical); ("high", PInt high);
       ("medium", PInt medium); ("low", PInt low); ("info", PInt info)] /\
    (0 <= critical /\ 0 <= high /\ 0 <= medium /\ 0 <= low /\ 0 <= info)%Z /\
    (critical + high + medium + low + info = total)%Z.

(** The shape [analyze_results] gives the analysis: what each section of
    the details holds, when it is there. *)
Definition analyzed (a : analysis_state) : Prop :=
  (forall v, Py.lookup "vulnerabilities" (details a) = Some v ->
             exists l, v = PList l /\ Forall analyzed_finding l) /\
  (forall v, Py.lookup "open_ports" (details a) = Some v ->
             exists l, v = PList l /\ Forall port_record l) /\
  (forall v, Py.lookup "interesting_directories" (details a) = Some v ->
             exists l, v = PList l /\ Forall has_url l) /\
  (forall v, Py.lookup "vulnerability_count" (summary a) = Some v ->
             exists d, v = PDict d).

(** The table of priorities: which list a (lower-case) severity goes to. *)
Definition documented_priority (severity : string) (p : priority) : Prop :=
  (severity = "critical" \/ severity = "high" -> p = High) /\
  (severity = "medium" -> p = Medium) /\
  (severity <> "critical" -> severity <> "high" -> severity <> "medium" ->
   p = Low).

(** The url of a finding is a string or counts as false. *)
Definition usable_url (f : pyval) : Prop :=
  forall d, f = PDict d ->
            url_usable (or_default (Py.lookup "url" d) (PStr "")).

(** The number of entries in the three lists together. *)
Definition entries (r : recommendations) : nat :=
  (List.length (high_priority r) + List.length (medium_priority r)
   + List.length (low_priority r))%nat.

(** The number of items of a section of the details, 0 when it is not
    there. *)
Definition section_size (details : dict) (key : string) : nat :=
  match Py.lookup key details with
  | Some (PList l) => List.length l
  | _ => 0%nat
  end.

(** A finding without the fields the bucketing reads, and with them. *)
Definition bare_finding : dict := [("description", PStr "no title given")].

Definition loud_finding : dict :=
  [("title", PStr "SQL Injection in /login"); ("severity", PStr "CRITICAL");
   ("url", PStr "http://a.example/login")].

(** The catalog keys of more than one word. *)
Definition multi_word_keys : list string :=
  ["sql injection"; "open redirect"; "missing header";
   "information disclosure"; "directory listing"; "default credentials";
   "sensitive file"; "ssl tls"].

(** The four fields a recommendation takes over from its template. *)
Definition template_fields : list string :=
  ["summary"; "steps"; "code_example"; "references"].

(** A manual check on a broken access control, with no catalog key in its
    title. *)
Definition idor_check : pyval :=
  PDict [("title", PStr "WARNING: IDOR on /api/orders");
         ("content", PStr "order ids are guessable")].

(** A value is an entry of the priority lists. *)
Definition is_entry (v : pyval) : Prop :=
  exists title description recommendation,
    v = entry title description recommendation.

(** The action an entry becomes: the same three fields and a timeframe. *)
Definition timed (timeframe : string) (e : pyval) : pyval :=
  match e with
  | PDict d =>
      PDict [("title", or_default (Py.lookup "title" d) PNone);
             ("description", or_default (Py.lookup "description" d) PNone);
             ("recommendation",
              or_default (Py.lookup "recommendation" d) PNone);
             ("timeframe", PStr timeframe)]
  | _ => PNone
  end.

(** The value read from the first file of a listing, when that file is
    read without an exception. *)
Definition first_json (files : list file) : option pyval :=
  match files with
  | Json v :: _ => Some v
  | _ => None
  end.

(** The file could be opened. *)
Definition opened (f : file) : bool :=
  match f with Unreadable => false | _ => true end.

(** The values read from the files of a listing, in its order. *)
Definition parsed (files : list file) : list pyval :=
  flat_map (fun f => match f with Json v => [v] | _ => [] end) files.

Definition is_some (o : option pyval) : bool :=
  match o with Some _ => true | None => false end.

(** A tree in which the first subdomain file is broken and the
    vulnerability files are a mixed lot. *)
Definition mixed_tree : scan_tree :=
  mk_scan_tree
    [Malformed; Json (PDict [("subdomains", PList [PStr "a.example"])])]
    [] [] []
    [Unreadable; Malformed; Json (PDict [("results", PList [])]);
     Json (PDict [("manual_checks", PList [])])].

(** A tree whose only file is a vulnerability file that cannot be parsed. *)
Definition broken_tree : scan_tree :=
  mk_scan_tree [] [] [] [] [Malformed].

(** The texts of a list, one after the other. *)
Definition join_all (ls : list string) : string :=
  fold_right append EmptyString ls.

(** [ls] are the lines that [line] makes of the items of the section
    [key], none when the section is not there. *)
Definition lines_of (line : pyval -> res string) (details : dict)
    (key : string) (ls : list string) : Prop :=
  match Py.lookup key details with
  | Some (PList xs) => Forall2 (fun x l => line x = Ok l) xs ls
  | _ => ls = []
  end.

(** The part of the prompt on a section: heading, lines, empty line; or
    nothing when the section is not there. *)
Definition section_text (details : dict) (key heading : string)
    (ls : list string) : string :=
  match Py.lookup key details with
  | Some _ => heading ++ join_all ls ++ PyStr.newline
  | None => EmptyString
  end.

(** The service of a port record is a string. *)
Definition text_service (v : pyval) : Prop :=
  exists d service, v = PDict d /\ Py.lookup "service" d = Some (PStr service).

(** The text ends with a full stop that follows neither a comma nor a
    space. *)
Definition ends_cleanly (text : string) : Prop :=
  exists body,
    text = body ++ "." /\
    (body = "" \/
     exists before c,
       body = before ++ String c "" /\ c <> ","%char /\ c <> " "%char).

(** The port numbers that have a rule. *)
Definition listed_ports : list Z := [22; 23; 3389; 5900; 80; 443; 21; 20]%Z.

(** The test the subdomain filter applies to a name, and the one the
    directory filter applies to a record. *)
Definition keeps_subdomain (s : string) : bool :=
  any_keyword subdomain_keywords (PyStr.lower s).

Definition keeps_directory (d : dict) : bool :=
  match Py.lookup "url" d with
  | Some (PStr url) => any_keyword directory_keywords (PyStr.lower url)
  | _ => false
  end.

(* ===================================================================== *)
(** ** Sample inputs *)
(* ===================================================================== *)

(** One scanner bundle whose only record has a severity outside the scale. *)
Definition odd_severity_results : pyval :=
  PDict [("vulnerabilities",
          PList [PDict [("results",
                         PList [PDict [("info",
                                        PDict [("name", PStr "Test");
                                               ("severity", PStr "bogus")])]])]])].

Definition odd_severity_finding : pyval :=
  PDict [("title", PStr "Test"); ("severity", PStr "bogus");
         ("description", PStr ""); ("url", PStr "");
         ("recommendation", default_recommendation)].

(** A port scan of one host with an SSH port, and one with an HTTPS
    port. *)
Definition ssh_results : pyval :=
  PDict [("ports",
          PDict [("scan_results",
                  PList [PDict [("host", PStr "10.0.0.5");
                                ("ports",
                                 PList [PDict [("port", PInt 22);
                                               ("service", PStr "ssh")]])]])])].


(** A listing whose first vulnerability file cannot be opened and whose
    second holds the bundle of [odd_severity_results]. *)
Definition odd_severity_tree : scan_tree :=
  mk_scan_tree [] [] [] []
    [Unreadable;
     Json (PDict [("results",
                   PList [PDict [("info",
                                  PDict [("name", PStr "Test");
                                         ("severity", PStr "bogus")])]])])].

(** A bundle in both formats at once, and the same bundle without its
    manual checks. *)
Definition scanner_bundle : dict :=
  [("results",
    PList [PDict [("info",
                   PDict [("name", PStr "Test");
                          ("severity", PStr "bogus")])]])].

Definition two_format_bundle : dict :=
  [("results",
    PList [PDict [("info",
                   PDict [("name", PStr "Test");
                          ("severity", PStr "bogus")])]]);
   ("manual_checks",
    PList [PDict [("title", PStr "CRITICAL: exposed backup");
                  ("content", PStr "backup.zip is world readable")]])].

(** A listing whose only vulnerability file holds the JSON value
    [null]. *)
Definition null_tree : scan_tree := mk_scan_tree [] [] [] [] [Json PNone].


(** What [analyze_results] makes of [ssh_results] and of
    [odd_severity_results]. *)
Definition ssh_port_record : pyval :=
  PDict [("host", PStr "10.0.0.5"); ("port", PInt 22);
         ("service", PStr "ssh"); ("version", PStr "unknown")].

Definition ssh_analysis : analysis_state :=
  mk_analysis [("open_port_count", PInt 1)]
    [("open_ports", PList [ssh_port_record])].

Definition odd_severity_analysis : analysis_state :=
  mk_analysis
    [("vulnerability_count",
      PDict [("critical", PInt 0); ("high", PInt 0); ("medium", PInt 0);
             ("low", PInt 0); ("info", PInt 1)])]
    [("vulnerabilities", PList [odd_severity_finding])].





(** A directory scan with a single hit. *)
Definition directory_results (url : string) : pyval :=
  PDict [("directories",
          PDict [("directory_scan",
                  PList [PDict [("url", PStr url); ("status", PInt 200)]])])].

(* ===================================================================== *)
(** ** Facts about the string operations *)
(* ===================================================================== *)

Section StringFacts.

Lemma prefix_app (n h : string) :
  prefix n h = true <-> exists rest, h = n ++ rest.
Proof.
  revert h; induction n as [|a n IH]; intros h; simpl.
  - destruct h; simpl; split; eauto.
  - destruct h as [|b h]; simpl.
    + split; [discriminate | intros [rest H]; discriminate].
    + destruct (ascii_dec a b) as [->|Hne].
      * rewrite IH. split; intros [rest H]; exists rest.
        -- now subst.
        -- now inversion H.
      * split; [discriminate | intros [rest H]; inversion H; congruence].
Qed.

Lemma contains_occurs (n h : string) :
  PyStr.contains n h = true <-> occurs_in n h.
Proof.
  unfold occurs_in. induction h as [|c h IH]; cbn [PyStr.contains].
  - rewrite orb_false_r, prefix_app. split.
    + intros [rest H]. exists "", rest. exact H.
    + intros [[|b before] [after H]]; cbn [append] in H.
      * now exists after.
      * discriminate.
  - rewrite orb_true_iff, prefix_app, IH. split.
    + intros [[rest H]|[before [after H]]].
      * exists "", rest. exact H.
      * exists (String c before), after. cbn [append]. now rewrite H.
    + intros [[|b before] [after H]]; cbn [append] in H.
      * left. now exists after.
      * right. inversion H. now exists before, after.
Qed.

Lemma contains_false_occurs (n h : string) :
  PyStr.contains n h = false <-> ~ occurs_in n h.
Proof.
  rewrite <- contains_occurs.
  destruct (PyStr.contains n h); split; intros H;
    try reflexivity; try discriminate.
  exfalso. now apply H.
Qed.

Lemma lower_app (a b : string) :
  PyStr.lower (a ++ b) = PyStr.lower a ++ PyStr.lower b.
Proof. induction a as [|c a IH]; simpl; [reflexivity | now rewrite IH]. Qed.

(** Lower-casing keeps occurrences: what occurs in the raw text occurs,
    lower-cased, in the lower-cased text. *)
Lemma contains_lower (n h : string) :
  PyStr.contains n h = true ->
  PyStr.contains (PyStr.lower n) (PyStr.lower h) = true.
Proof.
  rewrite !contains_occurs. intros [before [after ->]].
  exists (PyStr.lower before), (PyStr.lower after).
  now rewrite !lower_app.
Qed.

End StringFacts.

(* ===================================================================== *)
(** ** Facts about the catalog and its lookup *)
(* ===================================================================== *)

Section LookupFacts.

Lemma ok_inj {A : Type} (a b : A) : Ok a = Ok b -> a = b.
Proof. intros H; now inversion H. Qed.

Lemma catalog_first_words : forallb has_first_word remediation_db = true.
Proof. reflexivity. Qed.

Lemma exact_pass_in (db : dict) (v m : string) (t : pyval) :
  exact_pass db v m = Some t -> In t (map snd db).
Proof.
  induction db as [|[k r] db IH]; simpl; [discriminate|].
  destruct (PyStr.contains k v || PyStr.contains k m).
  - intros H; inversion H; now left.
  - intros H; right; now apply IH.
Qed.

Lemma partial_pass_in (db : dict) (v m : string) (t : pyval) :
  partial_pass db v m = Ok (Some t) -> In t (map snd db).
Proof.
  induction db as [|[k r] db IH]; simpl; [discriminate|].
  destruct (first_word k) as [w|e]; simpl; [|discriminate].
  destruct (PyStr.word_search w v || PyStr.word_search w m).
  - intros H; inversion H; now left.
  - intros H; right; now apply IH.
Qed.

Lemma partial_pass_total (db : dict) (v m : string) :
  forallb has_first_word db = true ->
  exists found, partial_pass db v m = Ok found.
Proof.
  induction db as [|[k r] db IH]; simpl; [eauto|].
  unfold has_first_word at 1; simpl.
  destruct (first_word k) as [w|e]; simpl; [|discriminate].
  intros H. destruct (PyStr.word_search w v || PyStr.word_search w m); eauto.
Qed.

(** The first pass answers with the first key, in catalog order, that
    occurs in one of the names. *)
Lemma exact_pass_first (pre post : dict) (key : string) (tpl : pyval)
    (v m : string) :
  (forall k t, In (k, t) pre -> ~ exact_match k v m) ->
  exact_match key v m ->
  exact_pass (pre ++ (key, tpl) :: post)%list v m = Some tpl.
Proof.
  intros Hpre Hkey. induction pre as [|[k r] pre IH]; simpl.
  - destruct Hkey as [H|H]; apply contains_occurs in H; rewrite H;
      [reflexivity | now rewrite orb_true_r].
  - assert (Hk : ~ exact_match k v m) by (apply (Hpre k r); now left).
    assert (Hv : PyStr.contains k v = false)
      by (apply contains_false_occurs; intros H; apply Hk; now left).
    assert (Hm : PyStr.contains k m = false)
      by (apply contains_false_occurs; intros H; apply Hk; now right).
    rewrite Hv, Hm; simpl. apply IH.
    intros k' t' Hin. apply (Hpre k' t'). now right.
Qed.

Lemma exact_pass_none (db : dict) (v m : string) :
  (forall k t, In (k, t) db -> ~ exact_match k v m) ->
  exact_pass db v m = None.
Proof.
  induction db as [|[k r] db IH]; intros Hno; simpl; [reflexivity|].
  assert (Hk : ~ exact_match k v m) by (apply (Hno k r); now left).
  assert (Hv : PyStr.contains k v = false)
    by (apply contains_false_occurs; intros H; apply Hk; now left).
  assert (Hm : PyStr.contains k m = false)
    by (apply contains_false_occurs; intros H; apply Hk; now right).
  rewrite Hv, Hm; simpl. apply IH.
  intros k' t' Hin. apply (Hno k' t'). now right.
Qed.

Lemma partial_pass_none (db : dict) (v m : string) :
  forallb has_first_word db = true ->
  (forall k t, In (k, t) db -> ~ word_match k v m) ->
  partial_pass db v m = Ok None.
Proof.
  induction db as [|[k r] db IH]; simpl; [reflexivity|].
  unfold has_first_word at 1; simpl. intros Hfw Hno.
  assert (Hk : ~ word_match k v m) by (apply (Hno k r); now left).
  destruct (first_word k) as [w|e] eqn:Ew; simpl; [|discriminate].
  destruct (PyStr.word_search w v) eqn:Ev.
  { exfalso; apply Hk; exists w; split; [exact Ew | now left]. }
  destruct (PyStr.word_search w m) eqn:Em.
  { exfalso; apply Hk; exists w; split; [exact Ew | now right]. }
  simpl. apply IH; [exact Hfw|].
  intros k' t' Hin. apply (Hno k' t'). now right.
Qed.

(** On two strings the lookup always answers, with a catalog entry or
    with the default. *)
Lemma lookup_total (v m : string) :
  exists t,
    _get_recommendation_for_vulnerability_type (PStr v) (PStr m) = Ok t /\
    known_template t.
Proof.
  unfold _get_recommendation_for_vulnerability_type, known_template.
  cbn [Py.lower bind].
  destruct (exact_pass remediation_db (PyStr.lower v) (PyStr.lower m))
    as [t|] eqn:E1.
  - exists t. split; [reflexivity|]. left. eapply exact_pass_in, E1.
  - destruct (partial_pass_total remediation_db (PyStr.lower v)
                (PyStr.lower m) catalog_first_words) as [[t|] E2];
      rewrite E2; cbn [bind].
    + exists t. split; [reflexivity|]. left. eapply partial_pass_in, E2.
    + exists default_recommendation. split; [reflexivity | now right].
Qed.

Lemma known_template_is_template (t : pyval) :
  known_template t -> is_template t.
Proof.
  unfold known_template, is_template. intros [H| ->].
  - cbn [map snd remediation_db] in H.
    repeat (destruct H as [<-|H];
            [unfold template; do 4 eexists; reflexivity|]).
    destruct H.
  - unfold template; do 4 eexists; reflexivity.
Qed.

Lemma match_literal_prefix (w s : string) :
  forall prev last rest,
    PyStr.match_literal prev w s = Some (last, rest) -> prefix w s = true.
Proof.
  revert s. induction w as [|a w IH]; intros s prev last rest.
  - destruct s; reflexivity.
  - destruct s as [|c s]; cbn [PyStr.match_literal prefix]; [discriminate|].
    destruct (Ascii.eqb_spec a c) as [->|Hne]; [|discriminate].
    destruct (ascii_dec c c) as [_|Hcc]; [|now elim Hcc].
    apply IH.
Qed.

(** A match between word boundaries is in particular an occurrence. *)
Lemma word_search_contains (w s : string) :
  PyStr.word_search w s = true -> PyStr.contains w s = true.
Proof.
  unfold PyStr.word_search. generalize (@None ascii) as prev.
  induction s as [|c s IH]; intros prev;
    cbn [PyStr.word_search_from PyStr.contains];
    rewrite !orb_true_iff; intros [H|H].
  - left. unfold PyStr.word_here in H. apply andb_true_iff in H as [_ H].
    destruct (PyStr.match_literal prev w "") as [[last rest]|] eqn:E;
      [|discriminate].
    eapply match_literal_prefix, E.
  - discriminate.
  - left. unfold PyStr.word_here in H. apply andb_true_iff in H as [_ H].
    destruct (PyStr.match_literal prev w (String c s)) as [[last rest]|] eqn:E;
      [|discriminate].
    eapply match_literal_prefix, E.
  - right. eapply IH, H.
Qed.

Lemma exact_pass_some (db : dict) (v m key : string) (tpl : pyval) :
  In (key, tpl) db ->
  PyStr.contains key v || PyStr.contains key m = true ->
  exists t, exact_pass db v m = Some t.
Proof.
  induction db as [|[k r] db IH]; intros Hin Hc; [contradiction|].
  cbn [exact_pass].
  destruct (PyStr.contains k v || PyStr.contains k m) eqn:E; [eauto|].
  destruct Hin as [Heq|Hin]; [|now apply IH].
  inversion Heq; subst. congruence.
Qed.

(** A key made of one word is never what the second pass finds first:
    when its pattern matches, the key occurs in the name and the first
    pass has answered already. *)
Lemma single_word_key_settled_by_first_pass (key : string) (tpl : pyval)
    (v m : string) :
  In (key, tpl) remediation_db ->
  first_word key = Ok key ->
  word_match key v m ->
  exists t, exact_pass remediation_db v m = Some t.
Proof.
  intros Hin Hfw [w [Hw Hmatch]].
  rewrite Hfw in Hw. apply ok_inj in Hw. subst w.
  apply (exact_pass_some _ v m key tpl Hin).
  apply orb_true_iff.
  destruct Hmatch as [H|H]; [left|right]; now apply word_search_contains.
Qed.

End LookupFacts.

(* ===================================================================== *)
(** ** The remediation lookup (claims C1 and C4) *)
(* ===================================================================== *)

Section LookupClaims.

Local Ltac decide_catalog_case H :=
  simpl in H;
  repeat (destruct H as [H|H]; [inversion H; subst; clear H|]);
  try contradiction.

Local Ltac no_exact :=
  let H := fresh in
  intros [H|H]; apply contains_occurs in H; vm_compute in H; discriminate.

Local Ltac no_word :=
  let w := fresh "w" in
  let Hw := fresh in
  let H := fresh in
  intros [w [Hw H]]; vm_compute in Hw; inversion Hw; subst w;
  destruct H as [H|H]; vm_compute in H; discriminate.

(** C1. The lookup lower-cases both names and answers with the template of
    the first key, in catalog order, that occurs in the lower-cased
    vulnerability name or matcher name; "Reflected XSS on /search" gets the
    'xss' template; a pair of names that no key matches in either pass gets
    the generic default, as "Unknown Weird Bug" does. *)
Theorem lookup_first_substring_match :
  (forall (vuln_name matcher_name : string) (pre post : dict)
          (key : string) (tpl : pyval),
      remediation_db = (pre ++ (key, tpl) :: post)%list ->
      (forall k t, In (k, t) pre ->
         ~ exact_match k (PyStr.lower vuln_name) (PyStr.lower matcher_name)) ->
      exact_match key (PyStr.lower vuln_name) (PyStr.lower matcher_name) ->
      _get_recommendation_for_vulnerability_type
        (PStr vuln_name) (PStr matcher_name) = Ok tpl) /\
  _get_recommendation_for_vulnerability_type
    (PStr "Reflected XSS on /search") (PStr "") = Ok rec_xss /\
  (forall (vuln_name matcher_name : string),
      (forall k t, In (k, t) remediation_db ->
         ~ exact_match k (PyStr.lower vuln_name) (PyStr.lower matcher_name) /\
         ~ word_match k (PyStr.lower vuln_name) (PyStr.lower matcher_name)) ->
      _get_recommendation_for_vulnerability_type
        (PStr vuln_name) (PStr matcher_name) = Ok default_recommendation) /\
  _get_recommendation_for_vulnerability_type
    (PStr "Unknown Weird Bug") (PStr "") = Ok default_recommendation.
Proof.
  split; [|split; [|split]].
  - intros vuln_name matcher_name pre post key tpl Hdb Hpre Hkey.
    unfold _get_recommendation_for_vulnerability_type.
    cbn [Py.lower bind]. rewrite Hdb.
    now rewrite (exact_pass_first pre post key tpl _ _ Hpre Hkey).
  - reflexivity.
  - intros vuln_name matcher_name Hno.
    unfold _get_recommendation_for_vulnerability_type.
    cbn [Py.lower bind].
    rewrite exact_pass_none by (intros k t Hin; now apply (Hno k t)).
    rewrite partial_pass_none;
      [reflexivity | exact catalog_first_words
       | intros k t Hin; now apply (Hno k t)].
  - reflexivity.
Qed.

Lemma lookup_first_substring_match_witness :
  exact_match "xss" (PyStr.lower "Reflected XSS on /search") (PyStr.lower "")
  /\ _get_recommendation_for_vulnerability_type
       (PStr "Reflected XSS on /search") (PStr "") = Ok rec_xss
  /\ _get_recommendation_for_vulnerability_type
       (PStr "Unknown Weird Bug") (PStr "") = Ok default_recommendation.
Proof.
  assert (Hxss : exact_match "xss" (PyStr.lower "Reflected XSS on /search")
                   (PyStr.lower "")).
  { left. apply contains_occurs. vm_compute. reflexivity. }
  split; [exact Hxss|]. split.
  - apply (proj1 lookup_first_substring_match
             "Reflected XSS on /search" ""
             [("sql injection", rec_sql_injection)]
             (tl (tl remediation_db)) "xss" rec_xss).
    + reflexivity.
    + intros k t Hin. decide_catalog_case Hin. no_exact.
    + exact Hxss.
  - apply (proj1 (proj2 (proj2 lookup_first_substring_match))
             "Unknown Weird Bug" "").
    intros k t Hin. decide_catalog_case Hin; (split; [no_exact | no_word]).
Defined.

(** C4, as amended.  For "CVE-2023-1234 RCE" with an empty matcher name the
    first pass already matches: 'cve' is the first catalog key that occurs
    in the lower-cased name, so the lookup answers with the 'cve' template
    and the word-boundary pass is not reached. *)
Theorem lookup_cve_matches_in_first_pass :
  exact_pass remediation_db (PyStr.lower "CVE-2023-1234 RCE") (PyStr.lower "")
    = Some rec_cve /\
  _get_recommendation_for_vulnerability_type
    (PStr "CVE-2023-1234 RCE") (PStr "") = Ok rec_cve.
Proof. split; reflexivity. Qed.

(** C4 as stated fails: on "CVE-2023-1234 RCE" the first pass does find a
    key, namely 'cve'. *)
Lemma lookup_cve_first_pass_counterexample :
  ~ (exact_pass remediation_db
       (PyStr.lower "CVE-2023-1234 RCE") (PyStr.lower "") = None) /\
  PyStr.contains "cve" (PyStr.lower "CVE-2023-1234 RCE") = true.
Proof. split; [vm_compute; discriminate | reflexivity]. Qed.

End LookupClaims.

(* ===================================================================== *)
(** ** Facts about the error monad, loops and dicts *)
(* ===================================================================== *)

Section MonadFacts.

Lemma bind_ok_inv {A B : Type} (m : res A) (k : A -> res B) (b : B) :
  bind m k = Ok b -> exists a, m = Ok a /\ k a = Ok b.
Proof. destruct m as [a|e]; simpl; [eauto | discriminate]. Qed.

Lemma for_each_app {S X : Type} (body : S -> X -> res S)
    (xs ys : list X) (s : S) :
  for_each body (xs ++ ys)%list s =
  (let* s' := for_each body xs s in for_each body ys s').
Proof.
  revert s; induction xs as [|x xs IH]; intros s; simpl; [reflexivity|].
  destruct (body s x) as [s'|e]; simpl; [apply IH | reflexivity].
Qed.

(** A property of the loop state that every iteration keeps holds when
    the loop ends. *)
Lemma for_each_invariant {S X : Type} (I : S -> Prop)
    (body : S -> X -> res S) (xs : list X) :
  (forall s x s', I s -> body s x = Ok s' -> I s') ->
  forall s s', I s -> for_each body xs s = Ok s' -> I s'.
Proof.
  intros Hstep. induction xs as [|x xs IH]; intros s s' Hs; simpl.
  - intros H; inversion H; now subst.
  - intros H. apply bind_ok_inv in H as [s1 [H1 H2]].
    eapply IH; [eapply Hstep; eauto | exact H2].
Qed.

(** A loop whose body skips [x] can be run without [x]. *)
Lemma for_each_skip {S X : Type} (body : S -> X -> res S)
    (xs ys : list X) (x : X) (s : S) :
  (forall s0, body s0 x = Ok s0) ->
  for_each body (xs ++ x :: ys)%list s = for_each body (xs ++ ys)%list s.
Proof.
  intros Hskip. rewrite !for_each_app.
  destruct (for_each body xs s) as [s'|e]; simpl; [|reflexivity].
  now rewrite Hskip.
Qed.


End MonadFacts.

(** Inversion of a successful run of monadic code, one bind at a time. *)
Ltac monad_inv H :=
  match type of H with
  | bind _ _ = Ok _ =>
      let x := fresh "x" in
      let E := fresh "E" in
      apply bind_ok_inv in H as [x [E H]]; monad_inv H
  | (if ?c then _ else _) = Ok _ =>
      let C := fresh "C" in destruct c eqn:C; monad_inv H
  | Ok _ = Ok _ => apply ok_inj in H; try subst
  | Raise _ = Ok _ => discriminate H
  | _ => idtac
  end.

(* ===================================================================== *)
(** ** The finding normalizer (claims C2, C3 and C8) *)
(* ===================================================================== *)

Section NormalizerClaims.





Lemma manual_severity_cases (title : pyval) (severity : string) :
  manual_severity title = Ok severity ->
  In (PStr severity) [PStr "critical"; PStr "medium"; PStr "info"].
Proof.
  unfold manual_severity. intros H. monad_inv H; simpl; auto.
Qed.




End NormalizerClaims.

Section AnalysisFacts.

Lemma lookup_store (k k' : string) (v : pyval) (d : dict) :
  Py.lookup k (Py.store k' v d) =
  if String.eqb k' k then Some v else Py.lookup k d.
Proof.
  induction d as [|[k0 v0] d IH]; simpl.
  - reflexivity.
  - destruct (String.eqb_spec k0 k') as [->|Hne]; simpl.
    + destruct (String.eqb k' k); reflexivity.
    + rewrite IH. destruct (String.eqb_spec k0 k) as [->|Hne'].
      * destruct (String.eqb_spec k' k) as [->|_]; [contradiction|reflexivity].
      * reflexivity.
Qed.



End AnalysisFacts.

Section NormalizerTheorems.






End NormalizerTheorems.

Section ShapeClaims.

Lemma element_test (key : string) (l : list pyval) :
  existsb (Py.is_str key) l = true <-> In (PStr key) l.
Proof.
  rewrite existsb_exists. split.
  - intros [v [Hin Hv]]. destruct v as [| | |s| |]; try discriminate.
    cbn [Py.is_str] in Hv. apply String.eqb_eq in Hv. now subst.
  - intros Hin. exists (PStr key). split; [exact Hin|].
    cbn [Py.is_str]. apply String.eqb_refl.
Qed.

Lemma lacks_contains (key : string) (bundle : pyval) :
  lacks key bundle <-> Py.contains key bundle = Ok false.
Proof.
  destruct bundle as [|b|n|s|l|d]; cbn [lacks Py.contains];
    try (split; [contradiction | discriminate]).
  - rewrite <- contains_false_occurs.
    split; [now intros -> | intros H; now apply ok_inj in H].
  - rewrite <- element_test.
    destruct (existsb (Py.is_str key) l); split; intros H;
      try reflexivity; try discriminate; congruence.
  - unfold Py.has_key. destruct (Py.lookup key d); split; intros H;
      try reflexivity; discriminate.
Qed.

Lemma unrecognized_bundle_skipped (bundle : pyval) (acc : list pyval) :
  unrecognized_bundle bundle -> analyze_bundle acc bundle = Ok acc.
Proof.
  intros [Hr Hm]. apply lacks_contains in Hr, Hm.
  unfold analyze_bundle. rewrite Hr. cbn [bind]. now rewrite Hm.
Qed.

Lemma scalar_bundle_raises (bundle : pyval) (acc : list pyval) :
  scalar bundle -> analyze_bundle acc bundle = Raise TypeError.
Proof. intros [->|[[b ->]|[n ->]]]; reflexivity. Qed.

Lemma get_or_default (d : dict) (k : string) (dflt : pyval) :
  Py.get (PDict d) k dflt = Ok (or_default (Py.lookup k d) dflt).
Proof. reflexivity. Qed.

(** C8, as amended.  A bundle that is a container with neither
    ['results'] nor ['manual_checks'] (a dict without the keys, a list
    without the elements, a string without the substrings) is passed over:
    it adds no finding and raises nothing, so the analysis is the one of
    the other bundles.  A bundle that is [None], a boolean or a number is
    not passed over: the normalizer raises [TypeError] when it reaches it.
    A scanner record with missing fields is normalized with the defaults,
    title "Unknown Vulnerability", severity "info", description "" and url
    "", and raises nothing; a manual check with no field at all is
    normalized too, with an empty title and description and severity
    "info". *)
Theorem unrecognized_shapes_skipped_and_fields_defaulted :
  (forall (bundle : pyval) (acc : list pyval),
      unrecognized_bundle bundle -> analyze_bundle acc bundle = Ok acc) /\
  (forall (before after : list pyval) (bundle : pyval),
      unrecognized_bundle bundle ->
      _analyze_vulnerabilities (PList (before ++ bundle :: after)%list) =
      _analyze_vulnerabilities (PList (before ++ after)%list)) /\
  (forall (before after : list pyval) (bundle : pyval),
      scalar bundle ->
      _analyze_vulnerabilities (PList (before ++ bundle :: after)%list) =
      let* _ := _analyze_vulnerabilities (PList before) in
      Raise TypeError) /\
  (forall (result info : dict),
      Py.get (PDict result) "info" (PDict []) = Ok (PDict info) ->
      str_or_missing (Py.lookup "name" info) ->
      str_or_missing (Py.lookup "matcher-name" result) ->
      exists recommendation,
        known_template recommendation /\
        nuclei_finding (PDict result) =
        Ok (PDict
              [("title",
                or_default (Py.lookup "name" info)
                  (PStr "Unknown Vulnerability"));
               ("severity",
                or_default (Py.lookup "severity" info) (PStr "info"));
               ("description",
                or_default (Py.lookup "description" info) (PStr ""));
               ("url", or_default (Py.lookup "host" result) (PStr ""));
               ("recommendation", recommendation)])) /\
  nuclei_finding (PDict []) =
    Ok (PDict [("title", PStr "Unknown Vulnerability");
               ("severity", PStr "info"); ("description", PStr "");
               ("url", PStr ""); ("recommendation", default_recommendation)])
  /\
  manual_finding (PDict []) =
    Ok (PDict [("title", PStr ""); ("severity", PStr "info");
               ("description", PStr "");
               ("recommendation", default_recommendation)]).
Proof.
  split; [exact unrecognized_bundle_skipped|].
  split; [|split; [|split; [|split; reflexivity]]].
  - intros before after bundle Hb. unfold _analyze_vulnerabilities.
    cbn [Py.iter bind]. apply for_each_skip.
    intros acc. now apply unrecognized_bundle_skipped.
  - intros before after bundle Hb. unfold _analyze_vulnerabilities.
    cbn [Py.iter bind]. rewrite for_each_app.
    destruct (for_each analyze_bundle before []) as [acc|e]; cbn [bind];
      [|reflexivity].
    cbn [for_each]. now rewrite scalar_bundle_raises.
  - intros result info Hinfo Hname Hmatcher.
    unfold nuclei_finding, info_field. rewrite Hinfo. cbn [bind].
    rewrite !get_or_default. cbn [bind].
    destruct (Py.lookup "name" info) as [[| | |name| |]|];
      try contradiction;
      destruct (Py.lookup "matcher-name" result) as [[| | |matcher| |]|];
      try contradiction; cbn [or_default].
    + destruct (lookup_total name matcher) as [t [E K]].
      exists t. split; [exact K|]. now rewrite E.
    + destruct (lookup_total name "") as [t [E K]].
      exists t. split; [exact K|]. now rewrite E.
    + destruct (lookup_total "" matcher) as [t [E K]].
      exists t. split; [exact K|]. now rewrite E.
    + destruct (lookup_total "" "") as [t [E K]].
      exists t. split; [exact K|]. now rewrite E.
Qed.

Lemma unrecognized_shapes_skipped_and_fields_defaulted_witness :
  unrecognized_bundle (PDict [("scan", PStr "custom")]) /\
  _analyze_vulnerabilities
    (PList [PDict [("scan", PStr "custom")];
            PDict [("manual_checks", PList [PDict []])]]) =
  Ok [PDict [("title", PStr ""); ("severity", PStr "info");
             ("description", PStr "");
             ("recommendation", default_recommendation)]] /\
  scalar (PInt 42) /\
  _analyze_vulnerabilities
    (PList [PDict [("manual_checks", PList [PDict []])]; PInt 42]) =
  Raise TypeError /\
  exists recommendation,
    nuclei_finding (PDict [("host", PStr "http://a.example")]) =
    Ok (PDict [("title", PStr "Unknown Vulnerability");
               ("severity", PStr "info"); ("description", PStr "");
               ("url", PStr "http://a.example");
               ("recommendation", recommendation)]).
Proof.
  assert (Hu : unrecognized_bundle (PDict [("scan", PStr "custom")]))
    by (split; reflexivity).
  assert (Hs : scalar (PInt 42)) by (right; right; now exists 42%Z).
  split; [exact Hu|]. split; [|split; [exact Hs|split]].
  - etransitivity.
    + exact (proj1 (proj2 unrecognized_shapes_skipped_and_fields_defaulted)
               [] [PDict [("manual_checks", PList [PDict []])]]
               (PDict [("scan", PStr "custom")]) Hu).
    + vm_compute. reflexivity.
  - etransitivity.
    + exact (proj1 (proj2 (proj2
               unrecognized_shapes_skipped_and_fields_defaulted))
               [PDict [("manual_checks", PList [PDict []])]] []
               (PInt 42) Hs).
    + vm_compute. reflexivity.
  - destruct (proj1 (proj2 (proj2 (proj2
                unrecognized_shapes_skipped_and_fields_defaulted)))
                [("host", PStr "http://a.example")] [] eq_refl I I)
      as [t [_ E]].
    exists t. exact E.
Defined.

(** C8 as stated fails: a vulnerability file that holds [null] is loaded as
    a bundle that has neither a ['results'] nor a ['manual_checks'] key,
    and the normalizer does not skip it: it raises [TypeError], and so does
    [analyze_results] on the loaded results. *)
Lemma null_bundle_counterexample :
  fst (load_results null_tree) = [("vulnerabilities", PList [PNone])] /\
  (forall key value, Py.getitem PNone key <> Ok value) /\
  _analyze_vulnerabilities (PList [PNone]) = Raise TypeError /\
  analyze_results (PDict (fst (load_results null_tree))) = Raise TypeError.
Proof.
  split; [reflexivity|]. split; [intros key value; discriminate|].
  split; reflexivity.
Qed.

End ShapeClaims.

(* ===================================================================== *)
(** ** The per-finding recommendation (claims C5 and C9) *)
(* ===================================================================== *)

Section TimeframeClaims.

Lemma timeframe_documented (severity : string) :
  documented_timeframe severity (timeframe_of severity).
Proof.
  unfold documented_timeframe, timeframe_of, Py.in_strs. cbn [existsb].
  destruct (String.eqb_spec severity "critical") as [->|Hc];
    [cbn [orb]; intuition congruence|].
  destruct (String.eqb_spec severity "high") as [->|Hh];
    [cbn [orb]; intuition congruence|].
  cbn [orb].
  destruct (String.eqb_spec severity "medium") as [->|Hm];
    intuition congruence.
Qed.

Lemma comprehension_replace_url (u : string) (steps : list string) :
  comprehension (replace_url (PStr u)) (map PStr steps) =
  Ok (map PStr (map (PyStr.replace "{{URL}}" u) steps)).
Proof.
  induction steps as [|s steps IH]; [reflexivity|].
  cbn [map comprehension replace_url bind]. rewrite IH. reflexivity.
Qed.

(** On a well-formed finding the builder answers, and the timeframe it
    attaches is the one of the lower-cased severity, ['medium'] standing in
    for a severity that is missing. *)
Lemma recommendation_timeframe (vuln : dict) (sev : string) :
  well_formed_vuln vuln ->
  or_default (Py.lookup "severity" vuln) (PStr "medium") = PStr sev ->
  exists r,
    _get_recommendation_for_vulnerability (PDict vuln) = Ok (PDict r) /\
    Py.lookup "timeframe" r = Some (PStr (timeframe_of (PyStr.lower sev))).
Proof.
  intros [Htitle [details [Hdetails Hurl]]] Hsev.
  unfold _get_recommendation_for_vulnerability.
  rewrite !get_or_default. rewrite Hsev, Hdetails. cbn [bind].
  rewrite get_or_default. fold (affected_url_of vuln details).
  assert (Hlow : exists title,
             Py.lower (or_default (Py.lookup "title" vuln) (PStr ""))
             = Ok title).
  { destruct (Py.lookup "title" vuln) as [[| | |t| |]|];
      try contradiction; cbn [or_default Py.lower]; eauto. }
  destruct Hlow as [title ->]. cbn [bind Py.lower].
  destruct (lookup_total title "") as [t [El Kt]]. rewrite El. cbn [bind].
  apply known_template_is_template in Kt.
  destruct Kt as [summary [steps [code [refs ->]]]].
  unfold template. cbn [Py.getitem Py.lookup String.eqb Ascii.eqb Bool.eqb bind].
  destruct Hurl as [Hfalse | [u Hu]].
  - rewrite Hfalse. cbn [bind]. eexists. split; reflexivity.
  - rewrite Hu. destruct (Py.truthy (PStr u)); cbn [bind].
    + cbn [Py.store Py.getitem Py.lookup String.eqb Ascii.eqb Bool.eqb
           bind Py.iter].
      rewrite comprehension_replace_url. cbn [bind].
      eexists. split; reflexivity.
    + eexists. split; reflexivity.
Qed.

(** C5. The recommendation built for a finding always carries a timeframe,
    fixed by the finding's severity: "Immediate (within 24-48 hours)" for
    critical and high, "Short-term (within 1-2 weeks)" for medium,
    "Medium-term (within 1 month)" for anything else.  The severity is read
    in lower case. *)
Theorem recommendation_timeframe_by_severity :
  forall (vuln : dict) (sev : string),
    well_formed_vuln vuln ->
    Py.lookup "severity" vuln = Some (PStr sev) ->
    exists r timeframe,
      _get_recommendation_for_vulnerability (PDict vuln) = Ok (PDict r) /\
      Py.lookup "timeframe" r = Some (PStr timeframe) /\
      documented_timeframe (PyStr.lower sev) timeframe.
Proof.
  intros vuln sev Hwf Hsev.
  destruct (recommendation_timeframe vuln sev Hwf) as [r [Hr Ht]].
  { now rewrite Hsev. }
  exists r, (timeframe_of (PyStr.lower sev)).
  split; [exact Hr|]. split; [exact Ht|]. apply timeframe_documented.
Qed.

Lemma recommendation_timeframe_by_severity_witness :
  well_formed_vuln
    [("title", PStr "Reflected XSS on /search"); ("severity", PStr "High");
     ("url", PStr "http://a.example")] /\
  exists r,
    _get_recommendation_for_vulnerability
      (PDict [("title", PStr "Reflected XSS on /search");
              ("severity", PStr "High");
              ("url", PStr "http://a.example")]) = Ok (PDict r) /\
    Py.lookup "timeframe" r = Some (PStr "Immediate (within 24-48 hours)").
Proof.
  assert (Hwf : well_formed_vuln
                  [("title", PStr "Reflected XSS on /search");
                   ("severity", PStr "High");
                   ("url", PStr "http://a.example")]).
  { split; [exact I|]. exists []. split; [reflexivity|].
    right. now exists "http://a.example". }
  split; [exact Hwf|].
  destruct (recommendation_timeframe_by_severity _ "High" Hwf eq_refl)
    as [r [timeframe [Hr [Ht [Himmediate _]]]]].
  exists r. split; [exact Hr|]. rewrite Ht. do 2 f_equal.
  apply Himmediate. right. reflexivity.
Defined.

(** C9. A finding dict without a severity field is treated by the builder
    as one of severity ['medium']: its recommendation gets the timeframe
    "Short-term (within 1-2 weeks)".  The rest of the pipeline reads the
    same missing field as ['info']: the summary counts the finding under
    ['info'] and the bucketing files it under low priority. *)
Theorem missing_severity_reads_as_medium :
  forall (vuln : dict),
    well_formed_vuln vuln ->
    Py.lookup "severity" vuln = None ->
    (exists r,
        _get_recommendation_for_vulnerability (PDict vuln) = Ok (PDict r) /\
        Py.lookup "timeframe" r =
          Some (PStr "Short-term (within 1-2 weeks)")) /\
    count_vulnerability empty_vuln_count (PDict vuln) =
      increment "info" empty_vuln_count /\
    (forall recs, exists e,
        recommend_vulnerability recs (PDict vuln) = Ok (append_low e recs)).
Proof.
  intros vuln Hwf Hsev.
  destruct (recommendation_timeframe vuln "medium" Hwf) as [r [Hr Ht]].
  { now rewrite Hsev. }
  split; [exists r; split; [exact Hr | exact Ht]|].
  split.
  - unfold count_vulnerability. rewrite get_or_default, Hsev. reflexivity.
  - intros recs. unfold recommend_vulnerability.
    rewrite !get_or_default, Hsev, Hr. cbn [or_default bind Py.lower].
    eexists. reflexivity.
Qed.

Lemma missing_severity_reads_as_medium_witness :
  well_formed_vuln [("title", PStr "Open redirect in /out")] /\
  Py.lookup "severity" [("title", PStr "Open redirect in /out")] = None /\
  exists r,
    _get_recommendation_for_vulnerability
      (PDict [("title", PStr "Open redirect in /out")]) = Ok (PDict r) /\
    Py.lookup "timeframe" r = Some (PStr "Short-term (within 1-2 weeks)").
Proof.
  assert (Hwf : well_formed_vuln [("title", PStr "Open redirect in /out")]).
  { split; [exact I|]. exists []. split; [reflexivity|].
    left. reflexivity. }
  split; [exact Hwf|]. split; [reflexivity|].
  exact (proj1 (missing_severity_reads_as_medium _ Hwf eq_refl)).
Defined.

End TimeframeClaims.

(* ===================================================================== *)
(** ** The port and directory rules (claims C6, C7 and C10) *)
(* ===================================================================== *)

Section BucketFacts.

Lemma analyze_ports_records (port_data : pyval) (open_ports : list pyval) :
  _analyze_ports port_data = Ok open_ports -> Forall port_record open_ports.
Proof.
  unfold _analyze_ports. intros H. monad_inv H.
  revert H. apply for_each_invariant; [|constructor].
  intros acc host acc' Hacc Hhost. monad_inv Hhost.
  revert Hhost. apply for_each_invariant; [|exact Hacc].
  intros acc1 port_info acc2 Hacc1 Hport. monad_inv Hport.
  apply Forall_app. split; [exact Hacc1|].
  constructor; [|constructor]. unfold port_record. eauto 6.
Qed.

Lemma no_keyword_in_empty : any_keyword directory_keywords "" = false.
Proof. reflexivity. Qed.

(** What the filter keeps has a ['url'] that is a string. *)
Lemma interesting_directories_have_url (directories : pyval)
    (interesting : list pyval) :
  _find_interesting_directories directories = Ok interesting ->
  Forall (fun dir_info =>
            exists d url,
              dir_info = PDict d /\ Py.lookup "url" d = Some (PStr url))
         interesting.
Proof.
  unfold _find_interesting_directories. intros H. monad_inv H.
  revert H. apply for_each_invariant; [|constructor].
  intros acc directory acc' Hacc Hdir. monad_inv Hdir.
  rename E0 into Eget, E1 into Elow, x0 into raw, x1 into lowered.
  destruct (any_keyword directory_keywords lowered) eqn:Ekw; [|exact Hacc].
  apply Forall_app. split; [exact Hacc|]. constructor; [|constructor].
  destruct directory as [| | | | |d]; try discriminate.
  rewrite get_or_default in Eget. inversion Eget; subst raw; clear Eget.
  destruct (Py.lookup "url" d) as [u|] eqn:Eu; cbn [or_default] in Elow.
  - destruct u as [| | |url| |]; try discriminate. now exists d, url.
  - inversion Elow; subst lowered. cbn [PyStr.lower] in Ekw.
    rewrite no_keyword_in_empty in Ekw. discriminate.
Qed.

Lemma url_has_either_spec (dir_info : dict) (url a b : string) :
  Py.lookup "url" dir_info = Some (PStr url) ->
  url_has_either (PDict dir_info) a b =
  Ok (PyStr.contains a url || PyStr.contains b url).
Proof.
  intros Hurl. unfold url_has_either. cbn [Py.getitem].
  rewrite Hurl. cbn [bind Py.contains].
  destruct (PyStr.contains a url); reflexivity.
Qed.

Lemma append_medium_adds (e_title : string) (description advice : pyval)
    (recs : recommendations) :
  adds_exactly_one Medium e_title recs
    (append_medium (entry (PStr e_title) description advice) recs).
Proof.
  split; [now exists description, advice|].
  intros [| |] Hq; try reflexivity. now elim Hq.
Qed.

Lemma append_low_adds (e_title : string) (description advice : pyval)
    (recs : recommendations) :
  adds_exactly_one Low e_title recs
    (append_low (entry (PStr e_title) description advice) recs).
Proof.
  split; [now exists description, advice|].
  intros [| |] Hq; try reflexivity. now elim Hq.
Qed.

Lemma append_high_adds (e_title : string) (description advice : pyval)
    (recs : recommendations) :
  adds_exactly_one High e_title recs
    (append_high (entry (PStr e_title) description advice) recs).
Proof.
  split; [now exists description, advice|].
  intros [| |] Hq; try reflexivity. now elim Hq.
Qed.

End BucketFacts.

Section BucketClaims.






(** C10. The bucket rules read the raw URL while the interest filter reads
    it in lower case: a directory whose URL has '.GIT' in upper case, and
    none of '.git', '.env', 'wp-admin', 'admin' in lower case, is kept as
    interesting and yet adds neither a "Sensitive Information Exposure" nor
    an "Admin Interface Exposed" entry: it adds no entry at all. *)
Theorem upper_case_git_interesting_but_unreported :
  forall (recs : recommendations) (dir_info : dict) (url : string),
    Py.lookup "url" dir_info = Some (PStr url) ->
    occurs_in ".GIT" url ->
    ~ occurs_in ".git" url -> ~ occurs_in ".env" url ->
    ~ occurs_in "wp-admin" url -> ~ occurs_in "admin" url ->
    _find_interesting_directories (PList [PDict dir_info]) =
      Ok [PDict dir_info] /\
    recommend_directory recs (PDict dir_info) = Ok recs.
Proof.
  intros recs dir_info url Hurl Hup Hg He Hw Ha. split.
  - unfold _find_interesting_directories.
    cbn [Py.iter bind for_each]. rewrite get_or_default, Hurl.
    cbn [or_default bind Py.lower].
    assert (E : any_keyword directory_keywords (PyStr.lower url) = true).
    { apply contains_occurs, contains_lower in Hup.
      unfold any_keyword, directory_keywords. cbn [existsb].
      change (PyStr.lower ".GIT") with ".git" in Hup. now rewrite Hup. }
    rewrite E. reflexivity.
  - unfold recommend_directory.
    rewrite !(url_has_either_spec _ url) by exact Hurl.
    apply contains_false_occurs in Hg, He, Hw, Ha.
    rewrite Hg, He, Hw, Ha. reflexivity.
Qed.

Lemma upper_case_git_interesting_but_unreported_witness :
  occurs_in ".GIT" "/.GIT/config" /\
  (exists a,
      analyze_results (directory_results "/.GIT/config") = Ok a /\
      Py.lookup "interesting_directories" (details a) =
        Some (PList [PDict [("url", PStr "/.GIT/config");
                            ("status", PInt 200)]])) /\
  _find_interesting_directories
    (PList [PDict [("url", PStr "/.GIT/config"); ("status", PInt 200)]]) =
    Ok [PDict [("url", PStr "/.GIT/config"); ("status", PInt 200)]] /\
  recommend_directory (mk_recommendations [] [] [])
    (PDict [("url", PStr "/.GIT/config"); ("status", PInt 200)]) =
    Ok (mk_recommendations [] [] []).
Proof.
  assert (Hup : occurs_in ".GIT" "/.GIT/config")
    by (apply contains_occurs; vm_compute; reflexivity).
  split; [exact Hup|].
  split; [eexists; split; vm_compute; reflexivity|].
  apply (upper_case_git_interesting_but_unreported
           (mk_recommendations [] [] [])
           [("url", PStr "/.GIT/config"); ("status", PInt 200)]
           "/.GIT/config" eq_refl Hup);
    apply contains_false_occurs; vm_compute; reflexivity.
Defined.

End BucketClaims.

(* ===================================================================== *)
(** ** The keyword filters *)
(* ===================================================================== *)

Section FilterFacts.

Lemma any_keyword_mentions (keywords : list string) (text : string) :
  any_keyword keywords (PyStr.lower text) = true <-> mentions keywords text.
Proof.
  unfold any_keyword, mentions. rewrite existsb_exists.
  split; intros [kw [Hin H]]; exists kw; (split; [exact Hin|]);
    now apply contains_occurs.
Qed.

Lemma subdomain_loop (subs : list string) (acc : list pyval) :
  for_each
    (fun interesting subdomain =>
       let* lowered := Py.lower subdomain in
       Ok (if any_keyword subdomain_keywords lowered
           then (interesting ++ [subdomain])%list else interesting))
    (map PStr subs) acc =
  Ok (acc ++ map PStr (filter keeps_subdomain subs))%list.
Proof.
  revert acc. induction subs as [|s subs IH]; intros acc;
    cbn [map for_each filter bind Py.lower].
  - now rewrite app_nil_r.
  - unfold keeps_subdomain at 1.
    destruct (any_keyword subdomain_keywords (PyStr.lower s));
      rewrite IH; [|reflexivity].
    cbn [map]. now rewrite <- app_assoc.
Qed.

Lemma directory_loop (dirs : list dict) (acc : list pyval) :
  (forall d, In d dirs -> str_or_missing (Py.lookup "url" d)) ->
  for_each
    (fun interesting directory =>
       let* url := Py.get directory "url" (PStr "") in
       let* lowered := Py.lower url in
       Ok (if any_keyword directory_keywords lowered
           then (interesting ++ [directory])%list else interesting))
    (map PDict dirs) acc =
  Ok (acc ++ map PDict (filter keeps_directory dirs))%list.
Proof.
  revert acc. induction dirs as [|d dirs IH]; intros acc Hurl;
    cbn [map for_each filter].
  - now rewrite app_nil_r.
  - assert (Hd : str_or_missing (Py.lookup "url" d))
      by (apply Hurl; now left).
    assert (Hrest : forall d0, In d0 dirs ->
                               str_or_missing (Py.lookup "url" d0))
      by (intros d0 H0; apply Hurl; now right).
    cbn [Py.get bind]. unfold keeps_directory at 1.
    destruct (Py.lookup "url" d) as [[| | |url| |]|];
      try contradiction; cbn [Py.lower bind].
    + destruct (any_keyword directory_keywords (PyStr.lower url));
        rewrite (IH _ Hrest); [|reflexivity].
      cbn [map]. now rewrite <- app_assoc.
    + cbn [PyStr.lower]. rewrite no_keyword_in_empty. apply (IH _ Hrest).
Qed.

End FilterFacts.

Section FilterTheorems.

(** X1. On a list of strings [_find_interesting_subdomains] never raises:
    it is a filter that keeps, in input order, exactly the subdomains in
    whose lower-cased text one of the twenty-two keywords occurs.  When the
    strings are followed by an element that is not a string, it raises
    [AttributeError]. *)
Theorem interesting_subdomains_mention_a_keyword :
  (forall s,
      keeps_subdomain s = true <->
      mentions
        ["admin"; "dev"; "staging"; "test"; "beta"; "api"; "internal";
         "vpn"; "mail"; "remote"; "portal"; "intranet"; "secure"; "login";
         "db"; "database"; "auth"; "jenkins"; "git"; "svn"; "jira";
         "confluence"] s) /\
  (forall subs : list string,
      _find_interesting_subdomains (PList (map PStr subs)) =
      Ok (map PStr (filter keeps_subdomain subs))) /\
  (forall (before : list string) (x : pyval) (after : list pyval),
      (forall s, x <> PStr s) ->
      _find_interesting_subdomains (PList (map PStr before ++ x :: after)%list)
      = Raise AttributeError).
Proof.
  split; [|split].
  - intros s. apply (any_keyword_mentions subdomain_keywords).
  - intros subs. unfold _find_interesting_subdomains. cbn [Py.iter bind].
    now rewrite subdomain_loop.
  - intros before x after Hx.
    unfold _find_interesting_subdomains. cbn [Py.iter bind].
    rewrite for_each_app, subdomain_loop. cbn [bind for_each].
    destruct x as [| | |s| |]; try reflexivity. now elim (Hx s).
Qed.

Lemma interesting_subdomains_mention_a_keyword_witness :
  (forall s, PInt 7 <> PStr s) /\
  _find_interesting_subdomains
    (PList [PStr "www.example.com"; PInt 7; PStr "admin.example.com"])
  = Raise AttributeError /\
  _find_interesting_subdomains
    (PList [PStr "www.example.com"; PStr "Beta.example.com";
            PStr "svn.example.com"])
  = Ok [PStr "Beta.example.com"; PStr "svn.example.com"].
Proof.
  assert (H : forall s, PInt 7 <> PStr s) by (intros s; discriminate).
  split; [exact H|]. split.
  - exact (proj2 (proj2 interesting_subdomains_mention_a_keyword)
             ["www.example.com"] (PInt 7) [PStr "admin.example.com"] H).
  - exact (proj1 (proj2 interesting_subdomains_mention_a_keyword)
             ["www.example.com"; "Beta.example.com"; "svn.example.com"]).
Defined.

(** X2. On a list of dicts whose ['url'], when there is one, is a string,
    [_find_interesting_directories] never raises: it keeps, in input order,
    exactly the directories that have a url in whose lower-cased text one
    of the keywords occurs.  A directory without a url is never kept. *)
Theorem interesting_directories_mention_a_keyword :
  (forall d, keeps_directory d = true <->
             exists url, Py.lookup "url" d = Some (PStr url) /\
                         mentions directory_keywords url) /\
  (forall dirs : list dict,
      (forall d, In d dirs -> str_or_missing (Py.lookup "url" d)) ->
      _find_interesting_directories (PList (map PDict dirs)) =
      Ok (map PDict (filter keeps_directory dirs))).
Proof.
  split.
  - intros d. unfold keeps_directory.
    destruct (Py.lookup "url" d) as [[| | |url| |]|].
    1-3, 5-7: split; [discriminate | intros [u [H _]]; discriminate].
    rewrite any_keyword_mentions. split.
    + intros H. now exists url.
    + intros [u [Hu H]]. inversion Hu. now subst.
  - intros dirs Hurl.
    unfold _find_interesting_directories. cbn [Py.iter bind].
    now rewrite directory_loop.
Qed.

Lemma interesting_directories_mention_a_keyword_witness :
  (forall d, In d [[("url", PStr "/Backup.zip")]; [("status", PInt 404)];
                   [("url", PStr "/img")]] ->
             str_or_missing (Py.lookup "url" d)) /\
  _find_interesting_directories
    (PList [PDict [("url", PStr "/Backup.zip")];
            PDict [("status", PInt 404)];
            PDict [("url", PStr "/img")]]) =
  Ok [PDict [("url", PStr "/Backup.zip")]].
Proof.
  assert (H : forall d, In d [[("url", PStr "/Backup.zip")];
                              [("status", PInt 404)];
                              [("url", PStr "/img")]] ->
                        str_or_missing (Py.lookup "url" d)).
  { intros d [<-|[<-|[<-|[]]]]; exact I. }
  split; [exact H|].
  etransitivity;
    [exact (proj2 interesting_directories_mention_a_keyword _ H)|].
  reflexivity.
Defined.

End FilterTheorems.

(* ===================================================================== *)
(** ** The analysis as a whole *)
(* ===================================================================== *)

Section SectionEffects.

Lemma iter_len (v : pyval) (l : list pyval) :
  Py.iter v = Ok l -> Py.len v = Ok (Z.of_nat (List.length l)).
Proof.
  destruct v as [| | |s|l0|d]; cbn [Py.iter Py.len]; try discriminate;
    intros H; apply ok_inj in H; subst l.
  - f_equal. f_equal. induction s as [|c s IH]; cbn; [reflexivity|].
    now rewrite IH.
  - reflexivity.
  - now rewrite length_map.
Qed.

Lemma ports_of_host_length (host : pyval) (port_infos : list pyval)
    (acc acc' : list pyval) :
  for_each
    (fun interesting_ports port_info =>
       let* h := Py.get host "host" (PStr "unknown") in
       let* p := Py.get port_info "port" (PInt 0) in
       let* s := Py.get port_info "service" (PStr "unknown") in
       let* v := Py.get port_info "version" (PStr "unknown") in
       Ok (interesting_ports ++
           [PDict [("host", h); ("port", p);
                   ("service", s); ("version", v)]])%list)
    port_infos acc = Ok acc' ->
  List.length acc' = (List.length acc + List.length port_infos)%nat.
Proof.
  revert acc. induction port_infos as [|x xs IH]; intros acc H;
    cbn [for_each] in H.
  - apply ok_inj in H. subst. cbn. lia.
  - apply bind_ok_inv in H as [acc1 [H1 H]]. monad_inv H1.
    apply IH in H. rewrite H, length_app. cbn. lia.
Qed.

(** The two loops over the hosts agree: the ports counted are the records
    built. *)
Lemma port_loops_agree (hosts : list pyval) :
  forall (acc ports : list pyval) (c n : Z),
    for_each
      (fun interesting_ports host =>
         let* ports := Py.get host "ports" (PList []) in
         let* port_infos := Py.iter ports in
         for_each
           (fun interesting_ports port_info =>
              let* h := Py.get host "host" (PStr "unknown") in
              let* p := Py.get port_info "port" (PInt 0) in
              let* s := Py.get port_info "service" (PStr "unknown") in
              let* v := Py.get port_info "version" (PStr "unknown") in
              Ok (interesting_ports ++
                  [PDict [("host", h); ("port", p);
                          ("service", s); ("version", v)]])%list)
           port_infos interesting_ports)
      hosts acc = Ok ports ->
    for_each
      (fun count host =>
         let* ports := Py.get host "ports" (PList []) in
         let* n := Py.len ports in
         Ok (count + n)%Z)
      hosts c = Ok n ->
    (n - c = Z.of_nat (List.length ports) - Z.of_nat (List.length acc))%Z.
Proof.
  induction hosts as [|host hosts IH]; intros acc ports c n Hf Hc;
    cbn [for_each] in Hf, Hc.
  - apply ok_inj in Hf. apply ok_inj in Hc. subst. lia.
  - apply bind_ok_inv in Hf as [acc1 [Hf1 Hf]].
    apply bind_ok_inv in Hc as [c1 [Hc1 Hc]].
    apply bind_ok_inv in Hf1 as [ps [Hps Hf1]].
    apply bind_ok_inv in Hf1 as [infos [Hinfos Hf1]].
    rewrite Hps in Hc1. cbn [bind] in Hc1.
    rewrite (iter_len _ _ Hinfos) in Hc1. cbn [bind] in Hc1.
    apply ok_inj in Hc1. apply ports_of_host_length in Hf1.
    specialize (IH _ _ _ _ Hf Hc). lia.
Qed.

Lemma analyze_subdomains_effect (results : pyval) (a a' : analysis_state) :
  analyze_subdomains results a = Ok a' ->
  (Py.contains "subdomains" results = Ok false /\ a' = a) \/
  (Py.contains "subdomains" results = Ok true /\
   exists n interesting,
     a' = mk_analysis
            (Py.store "subdomain_count" (PInt n) (summary a))
            (Py.store "interesting_subdomains" (PList interesting)
               (details a))).
Proof.
  unfold analyze_subdomains. intros H. monad_inv H; [right|left]; eauto.
Qed.

Lemma analyze_open_ports_effect (results : pyval) (a a' : analysis_state) :
  analyze_open_ports results a = Ok a' ->
  (Py.contains "ports" results = Ok false /\ a' = a) \/
  (Py.contains "ports" results = Ok true /\
   exists section open_ports,
     Py.getitem results "ports" = Ok section /\
     _analyze_ports section = Ok open_ports /\
     a' = mk_analysis
            (Py.store "open_port_count"
               (PInt (Z.of_nat (List.length open_ports))) (summary a))
            (Py.store "open_ports" (PList open_ports) (details a))).
Proof.
  unfold analyze_open_ports. intros H. monad_inv H; [right|left; eauto].
  split; [assumption|]. exists x0, x1. split; [exact E0|].
  split; [exact E1|].
  rewrite E0 in E2. apply ok_inj in E2. subst x2.
  unfold _analyze_ports in E1. rewrite E3 in E1. cbn [bind] in E1.
  rewrite E4 in E1. cbn [bind] in E1.
  pose proof (port_loops_agree _ _ _ _ _ E1 E5) as Hn. cbn in Hn.
  do 3 f_equal. lia.
Qed.

Lemma analyze_directories_effect (results : pyval) (a a' : analysis_state) :
  analyze_directories results a = Ok a' ->
  (Py.contains "directories" results = Ok false /\ a' = a) \/
  (Py.contains "directories" results = Ok true /\
   exists dir_scan n interesting,
     _find_interesting_directories dir_scan = Ok interesting /\
     a' = mk_analysis
            (Py.store "directory_count" (PInt n) (summary a))
            (Py.store "interesting_directories" (PList interesting)
               (details a))).
Proof.
  unfold analyze_directories. intros H. monad_inv H; [right|left; eauto].
  split; [assumption|]. eauto 6.
Qed.

Lemma analyze_live_hosts_effect (results : pyval) (a a' : analysis_state) :
  analyze_live_hosts results a = Ok a' ->
  (Py.contains "livehosts" results = Ok false /\ a' = a) \/
  (Py.contains "livehosts" results = Ok true /\
   exists n,
     a' = mk_analysis (Py.store "live_host_count" (PInt n) (summary a))
            (details a)).
Proof.
  unfold analyze_live_hosts. intros H. monad_inv H; [right|left]; eauto.
Qed.

Lemma analyze_vulnerability_section_effect (results : pyval)
    (a a' : analysis_state) :
  analyze_vulnerability_section results a = Ok a' ->
  (Py.contains "vulnerabilities" results = Ok false /\ a' = a) \/
  (Py.contains "vulnerabilities" results = Ok true /\
   exists section findings vuln_count,
     Py.getitem results "vulnerabilities" = Ok section /\
     _analyze_vulnerabilities section = Ok findings /\
     for_each count_vulnerability findings empty_vuln_count
       = Ok vuln_count /\
     a' = mk_analysis
            (Py.store "vulnerability_count" (PDict vuln_count) (summary a))
            (Py.store "vulnerabilities" (PList findings) (details a))).
Proof.
  unfold analyze_vulnerability_section. intros H.
  monad_inv H; [right|left; eauto].
  split; [assumption|]. exists x0, x1, x4.
  split; [exact E0|]. split; [exact E1|]. split; [|reflexivity].
  cbn [Py.getitem] in E2. rewrite lookup_store in E2.
  rewrite String.eqb_refl in E2. apply ok_inj in E2. subst x2.
  cbn [Py.iter] in E3. apply ok_inj in E3. now subst x3.
Qed.

(** The five sections, one after the other. *)
Lemma analysis_decomposition (results : pyval) (a : analysis_state) :
  analyze_results results = Ok a ->
  exists a1 a2 a3 a4,
    analyze_subdomains results (mk_analysis [] []) = Ok a1 /\
    analyze_open_ports results a1 = Ok a2 /\
    analyze_directories results a2 = Ok a3 /\
    analyze_live_hosts results a3 = Ok a4 /\
    analyze_vulnerability_section results a4 = Ok a.
Proof.
  unfold analyze_results. intros H.
  apply bind_ok_inv in H as [a1 [H1 H]].
  apply bind_ok_inv in H as [a2 [H2 H]].
  apply bind_ok_inv in H as [a3 [H3 H]].
  apply bind_ok_inv in H as [a4 [H4 H]].
  exists a1, a2, a3, a4. auto.
Qed.

End SectionEffects.

Section AnalysisInvariants.

Lemma normalizer_forall (P : pyval -> Prop) :
  (forall r f, nuclei_finding r = Ok f -> P f) ->
  (forall c f, manual_finding c = Ok f -> P f) ->
  forall vulnerabilities findings,
    _analyze_vulnerabilities vulnerabilities = Ok findings ->
    Forall P findings.
Proof.
  intros Hn Hm vulnerabilities findings H.
  unfold _analyze_vulnerabilities in H. monad_inv H.
  revert H. apply for_each_invariant; [|constructor].
  intros acc vuln_data acc' Hacc Hb.
  assert (Happend : forall build key,
             (forall y f, build y = Ok f -> P f) ->
             append_findings build vuln_data key acc = Ok acc' ->
             Forall P acc').
  { intros build key Hbuild Ha. unfold append_findings in Ha. monad_inv Ha.
    revert Ha. apply for_each_invariant; [|exact Hacc].
    intros s y s' Hs Hy. monad_inv Hy.
    apply Forall_app. split; [exact Hs|]. constructor; [|constructor].
    eapply Hbuild; eassumption. }
  unfold analyze_bundle in Hb. monad_inv Hb.
  - eapply Happend; [exact Hn | exact Hb].
  - eapply Happend; [exact Hm | exact Hb].
  - exact Hacc.
Qed.

Lemma nuclei_finding_titled (result f : pyval) :
  nuclei_finding result = Ok f -> titled_finding f.
Proof.
  unfold nuclei_finding, info_field. intros H.
  destruct (Py.get result "info" (PDict [])) as [info|] eqn:Einfo;
    cbn [bind] in H; [|discriminate].
  monad_inv H.
  rename x into title, x3 into name.
  destruct info as [| | | | |info]; try discriminate.
  rewrite get_or_default in E, E3.
  apply ok_inj in E. apply ok_inj in E3.
  assert (Hname : exists s, name = PStr s).
  { destruct name as [| | |s| |]; try discriminate. now exists s. }
  destruct Hname as [s Hs].
  assert (Htitle : exists t, title = PStr t).
  { subst title name. destruct (Py.lookup "name" info) as [v|];
      cbn [or_default] in *; [now exists s | now eexists]. }
  destruct Htitle as [t ->].
  do 4 eexists. repeat split; reflexivity.
Qed.

Lemma manual_finding_titled (check f : pyval) :
  manual_finding check = Ok f -> titled_finding f.
Proof.
  unfold manual_finding. intros H. monad_inv H.
  destruct x as [| | |title| |]; try discriminate.
  do 4 eexists. repeat split; reflexivity.
Qed.

Lemma count_loop_reads_text (findings : list pyval) :
  forall vuln_count vuln_count',
    for_each count_vulnerability findings vuln_count = Ok vuln_count' ->
    Forall severity_is_text findings.
Proof.
  induction findings as [|f fs IH]; intros vc vc' H; [constructor|].
  cbn [for_each] in H. apply bind_ok_inv in H as [vc1 [H1 H]].
  constructor; [|eapply IH, H].
  unfold count_vulnerability in H1.
  apply bind_ok_inv in H1 as [sev [Hsev H1]].
  apply bind_ok_inv in H1 as [low [Hlow _]].
  destruct sev as [| | |text| |]; try discriminate. now exists text.
Qed.

Lemma count_step_total (vuln_count vuln_count' : dict) (vuln : pyval)
    (total : Z) :
  counts_total vuln_count total ->
  count_vulnerability vuln_count vuln = Ok vuln_count' ->
  counts_total vuln_count' (total + 1).
Proof.
  intros (c & h & m & l & i & -> & Hpos & Hsum) H.
  unfold count_vulnerability in H.
  apply bind_ok_inv in H as [sev [_ H]].
  apply bind_ok_inv in H as [severity [_ H]].
  unfold Py.has_key, increment in H. cbn [Py.lookup] in H.
  destruct ("critical" =? severity) eqn:Ec.
  { apply String.eqb_eq in Ec. subst severity.
    cbn in H. apply ok_inj in H. subst.
    exists (c + 1)%Z, h, m, l, i. repeat split; try reflexivity; lia. }
  destruct ("high" =? severity) eqn:Eh.
  { apply String.eqb_eq in Eh. subst severity.
    cbn in H. apply ok_inj in H. subst.
    exists c, (h + 1)%Z, m, l, i. repeat split; try reflexivity; lia. }
  destruct ("medium" =? severity) eqn:Em.
  { apply String.eqb_eq in Em. subst severity.
    cbn in H. apply ok_inj in H. subst.
    exists c, h, (m + 1)%Z, l, i. repeat split; try reflexivity; lia. }
  destruct ("low" =? severity) eqn:El.
  { apply String.eqb_eq in El. subst severity.
    cbn in H. apply ok_inj in H. subst.
    exists c, h, m, (l + 1)%Z, i. repeat split; try reflexivity; lia. }
  destruct ("info" =? severity) eqn:Ei.
  { apply String.eqb_eq in Ei. subst severity.
    cbn in H. apply ok_inj in H. subst.
    exists c, h, m, l, (i + 1)%Z. repeat split; try reflexivity; lia. }
  cbn in H. apply ok_inj in H. subst.
  exists c, h, m, l, (i + 1)%Z. repeat split; try reflexivity; lia.
Qed.

Lemma count_loop_total (findings : list pyval) :
  forall vuln_count vuln_count' total,
    counts_total vuln_count total ->
    for_each count_vulnerability findings vuln_count = Ok vuln_count' ->
    counts_total vuln_count' (total + Z.of_nat (List.length findings)).
Proof.
  induction findings as [|f fs IH]; intros vc vc' total Hvc H;
    cbn [for_each] in H.
  - apply ok_inj in H. subst. cbn. now rewrite Z.add_0_r.
  - apply bind_ok_inv in H as [vc1 [H1 H]].
    pose proof (count_step_total _ _ _ _ Hvc H1) as Hvc1.
    specialize (IH _ _ _ Hvc1 H).
    replace (total + Z.of_nat (List.length (f :: fs)))%Z
      with (total + 1 + Z.of_nat (List.length fs))%Z
      by (cbn [List.length]; lia).
    exact IH.
Qed.

Lemma counts_total_empty : counts_total empty_vuln_count 0.
Proof.
  exists 0%Z, 0%Z, 0%Z, 0%Z, 0%Z. repeat split; try reflexivity; lia.
Qed.

End AnalysisInvariants.

(** The analysis after the five sections, by cases on which sections the
    results have. *)
Ltac analysis_cases H :=
  let a1 := fresh "a1" in
  let a2 := fresh "a2" in
  let a3 := fresh "a3" in
  let a4 := fresh "a4" in
  let H1 := fresh "Hsub" in
  let H2 := fresh "Hports" in
  let H3 := fresh "Hdirs" in
  let H4 := fresh "Hhosts" in
  let H5 := fresh "Hvulns" in
  apply analysis_decomposition in H
    as (a1 & a2 & a3 & a4 & H1 & H2 & H3 & H4 & H5);
  apply analyze_subdomains_effect in H1
    as [[H1 ->]|[H1 (? & ? & ->)]];
  apply analyze_open_ports_effect in H2
    as [[H2 ->]|[H2 (? & ? & ? & ? & ->)]];
  apply analyze_directories_effect in H3
    as [[H3 ->]|[H3 (? & ? & ? & ? & ->)]];
  apply analyze_live_hosts_effect in H4
    as [[H4 ->]|[H4 (? & ->)]];
  apply analyze_vulnerability_section_effect in H5
    as [[H5 ->]|[H5 (? & ? & ? & ? & ? & ? & ->)]].

Section AnalysisTheorems.

(** X3. After [analyze_results], the ['open_port_count'] of the summary is
    the number of records in the ['open_ports'] of the details: the loop
    that counts and the loop that flattens agree. *)
Theorem open_port_count_is_number_of_records :
  forall (results : pyval) (a : analysis_state) (open_ports : list pyval),
    analyze_results results = Ok a ->
    Py.lookup "open_ports" (details a) = Some (PList open_ports) ->
    Py.lookup "open_port_count" (summary a) =
    Some (PInt (Z.of_nat (List.length open_ports))).
Proof.
  intros results a open_ports H Hl.
  analysis_cases H; cbn in Hl |- *; try discriminate;
    apply (f_equal (fun o => match o with
                             | Some (PList l) => l
                             | _ => []
                             end)) in Hl; cbn in Hl; subst; reflexivity.
Qed.

Lemma open_port_count_is_number_of_records_witness :
  analyze_results ssh_results = Ok ssh_analysis /\
  Py.lookup "open_port_count" (summary ssh_analysis) = Some (PInt 1).
Proof.
  split; [reflexivity|].
  exact (open_port_count_is_number_of_records ssh_results ssh_analysis
           [ssh_port_record] eq_refl eq_refl).
Defined.

(** X4. After [analyze_results], the five severity counters of the summary
    are non-negative and add up to the number of findings in the details:
    every finding is counted exactly once. *)
Theorem severity_counters_add_up :
  forall (results : pyval) (a : analysis_state) (findings : list pyval),
    analyze_results results = Ok a ->
    Py.lookup "vulnerabilities" (details a) = Some (PList findings) ->
    exists vuln_count,
      Py.lookup "vulnerability_count" (summary a) = Some (PDict vuln_count) /\
      counts_total vuln_count (Z.of_nat (List.length findings)).
Proof.
  intros results a findings H Hl.
  analysis_cases H; cbn in Hl |- *; try discriminate;
    apply (f_equal (fun o => match o with
                             | Some (PList l) => l
                             | _ => []
                             end)) in Hl; cbn in Hl; subst;
    (eexists; split; [reflexivity|]);
    match goal with
    | Hc : for_each count_vulnerability _ empty_vuln_count = Ok _ |- _ =>
        apply (count_loop_total _ _ _ 0%Z counts_total_empty Hc)
    end.
Qed.

Lemma severity_counters_add_up_witness :
  analyze_results odd_severity_results = Ok odd_severity_analysis /\
  exists vuln_count,
    Py.lookup "vulnerability_count" (summary odd_severity_analysis)
      = Some (PDict vuln_count) /\
    counts_total vuln_count 1.
Proof.
  split; [reflexivity|].
  exact (severity_counters_add_up odd_severity_results odd_severity_analysis
           [odd_severity_finding] eq_refl eq_refl).
Defined.

Lemma findings_analyzed (section : pyval) (findings : list pyval)
    (vuln_count vuln_count' : dict) :
  _analyze_vulnerabilities section = Ok findings ->
  for_each count_vulnerability findings vuln_count = Ok vuln_count' ->
  Forall analyzed_finding findings.
Proof.
  intros Hn Hc.
  pose proof (normalizer_forall titled_finding nuclei_finding_titled
                manual_finding_titled _ _ Hn) as Ht.
  pose proof (count_loop_reads_text _ _ _ Hc) as Hs.
  rewrite Forall_forall in *. intros f Hin.
  destruct (Ht f Hin) as (d & title & sev & desc & -> & Htitle & Hsev & _ & Hd).
  destruct (Hs _ Hin) as [text Htext].
  rewrite get_or_default, Hsev in Htext. cbn [or_default] in Htext.
  apply ok_inj in Htext. subst sev. now exists d, title, text.
Qed.

(** X5. [analyze_results] fills in a section of the summary and of the
    details exactly when the results have the matching key: nothing is made
    up for a scan that was not loaded, and the details never hold anything
    but the four sections, the summary anything but the five counters. *)
Theorem sections_follow_the_results :
  forall (results : dict) (a : analysis_state),
    analyze_results (PDict results) = Ok a ->
    (Py.has_key "interesting_subdomains" (details a)
       = Py.has_key "subdomains" results /\
     Py.has_key "subdomain_count" (summary a)
       = Py.has_key "subdomains" results /\
     Py.has_key "open_ports" (details a) = Py.has_key "ports" results /\
     Py.has_key "open_port_count" (summary a) = Py.has_key "ports" results /\
     Py.has_key "interesting_directories" (details a)
       = Py.has_key "directories" results /\
     Py.has_key "directory_count" (summary a)
       = Py.has_key "directories" results /\
     Py.has_key "live_host_count" (summary a)
       = Py.has_key "livehosts" results /\
     Py.has_key "vulnerabilities" (details a)
       = Py.has_key "vulnerabilities" results /\
     Py.has_key "vulnerability_count" (summary a)
       = Py.has_key "vulnerabilities" results) /\
    incl (map fst (details a))
      ["interesting_subdomains"; "open_ports"; "interesting_directories";
       "vulnerabilities"] /\
    incl (map fst (summary a))
      ["subdomain_count"; "open_port_count"; "directory_count";
       "live_host_count"; "vulnerability_count"].
Proof.
  intros results a H.
  analysis_cases H;
    cbn [Py.contains] in Hsub, Hports, Hdirs, Hhosts, Hvulns;
    apply ok_inj in Hsub, Hports, Hdirs, Hhosts, Hvulns;
    rewrite Hsub, Hports, Hdirs, Hhosts, Hvulns;
    (split; [repeat split; reflexivity|]);
    (split; intros k Hk; cbn in Hk |- *; tauto).
Qed.

Lemma sections_follow_the_results_witness :
  analyze_results ssh_results = Ok ssh_analysis /\
  Py.has_key "open_ports" (details ssh_analysis) = true /\
  Py.has_key "vulnerabilities" (details ssh_analysis) = false /\
  Py.has_key "vulnerability_count" (summary ssh_analysis) = false.
Proof.
  split; [reflexivity|].
  destruct (sections_follow_the_results
              [("ports",
                PDict [("scan_results",
                        PList [PDict [("host", PStr "10.0.0.5");
                                      ("ports",
                                       PList [PDict [("port", PInt 22);
                                                     ("service", PStr "ssh")]])]])])]
              ssh_analysis eq_refl)
    as [(_ & _ & Hp & _ & _ & _ & _ & Hv & Hc) _].
  rewrite Hp, Hv, Hc. repeat split; reflexivity.
Defined.

Lemma analyze_results_analyzed (results : pyval) (a : analysis_state) :
  analyze_results results = Ok a -> analyzed a.
Proof.
  intros H. unfold analyzed.
  analysis_cases H; cbn [details summary];
    rewrite ?lookup_store; cbn [Py.lookup String.eqb Ascii.eqb Bool.eqb];
    repeat split; intros v Hv; try discriminate;
    apply (f_equal (fun o => match o with Some x => x | None => PNone end))
      in Hv; cbn in Hv; subst v;
    eauto using analyze_ports_records, findings_analyzed;
    (eexists; split; [reflexivity|]);
    eauto using analyze_ports_records, findings_analyzed;
    match goal with
    | Hd : _find_interesting_directories _ = Ok _ |- _ =>
        apply interesting_directories_have_url in Hd; exact Hd
    end.
Qed.

(** X6. Whatever the results, an analysis that [analyze_results] completes
    is well formed: every finding is a dict with a string title, a string
    severity and no ['details']; every open-port record has the four
    fields host, port, service, version; every interesting directory has
    a url that is a string; the vulnerability counters are a dict. *)
Theorem analysis_is_well_formed :
  forall (results : pyval) (a : analysis_state),
    analyze_results results = Ok a ->
    (forall findings,
        Py.lookup "vulnerabilities" (details a) = Some (PList findings) ->
        Forall analyzed_finding findings) /\
    (forall open_ports,
        Py.lookup "open_ports" (details a) = Some (PList open_ports) ->
        Forall port_record open_ports) /\
    (forall directories,
        Py.lookup "interesting_directories" (details a)
          = Some (PList directories) ->
        Forall has_url directories) /\
    analyzed a.
Proof.
  intros results a H.
  pose proof (analyze_results_analyzed results a H) as Ha.
  destruct Ha as (Hv & Hp & Hd & Hc).
  split; [|split; [|split]].
  - intros findings Hl. destruct (Hv _ Hl) as [l [Heq Hall]].
    inversion Heq. now subst.
  - intros open_ports Hl. destruct (Hp _ Hl) as [l [Heq Hall]].
    inversion Heq. now subst.
  - intros directories Hl. destruct (Hd _ Hl) as [l [Heq Hall]].
    inversion Heq. now subst.
  - repeat split; assumption.
Qed.

Lemma analysis_is_well_formed_witness :
  analyze_results odd_severity_results = Ok odd_severity_analysis /\
  Forall analyzed_finding [odd_severity_finding].
Proof.
  split; [reflexivity|].
  exact (proj1 (analysis_is_well_formed odd_severity_results
                  odd_severity_analysis eq_refl)
           [odd_severity_finding] eq_refl).
Defined.

End AnalysisTheorems.

(* ===================================================================== *)
(** ** The bucketing as a whole *)
(* ===================================================================== *)

Section BucketingFacts.

Lemma for_each_total {S X : Type} (body : S -> X -> res S) (xs : list X) :
  Forall (fun x => forall s, exists s', body s x = Ok s') xs ->
  forall s, exists s', for_each body xs s = Ok s'.
Proof.
  induction 1 as [|x xs Hx _ IH]; intros s; cbn [for_each]; [eauto|].
  destruct (Hx s) as [s1 ->]. cbn [bind]. apply IH.
Qed.

(** A loop whose every step changes a measure by at least [lo] and at
    most [hi] changes it by between [lo] and [hi] times its length. *)
Lemma for_each_measure {S X : Type} (m : S -> nat) (lo hi : nat)
    (body : S -> X -> res S) (xs : list X) :
  (forall s x s', body s x = Ok s' ->
                  (m s + lo <= m s' /\ m s' <= m s + hi)%nat) ->
  forall s s', for_each body xs s = Ok s' ->
               (m s + lo * List.length xs <= m s' /\
                m s' <= m s + hi * List.length xs)%nat.
Proof.
  intros Hstep. induction xs as [|x xs IH]; intros s s' H;
    cbn [for_each] in H.
  - apply ok_inj in H. subst. cbn. lia.
  - apply bind_ok_inv in H as [s1 [H1 H]].
    apply Hstep in H1. apply IH in H. cbn [List.length]. nia.
Qed.

Lemma severity_tier (severity : string) :
  exists p,
    documented_priority severity p /\
    forall (e : pyval) (recs : recommendations),
      (if Py.in_strs severity ["critical"; "high"]
       then Ok (append_high e recs)
       else if String.eqb severity "medium"
            then Ok (append_medium e recs)
            else Ok (append_low e recs)) =
      Ok (match p with
          | High => append_high e recs
          | Medium => append_medium e recs
          | Low => append_low e recs
          end).
Proof.
  unfold documented_priority, Py.in_strs. cbn [existsb].
  destruct (String.eqb_spec severity "critical") as [->|Hc];
    [exists High; cbn [orb]; intuition congruence|].
  destruct (String.eqb_spec severity "high") as [->|Hh];
    [exists High; cbn [orb]; intuition congruence|].
  cbn [orb].
  destruct (String.eqb_spec severity "medium") as [->|Hm];
    [exists Medium | exists Low]; intuition congruence.
Qed.

Lemma append_adds (p : priority) (title : string)
    (description advice : pyval) (recs : recommendations) :
  adds_exactly_one p title recs
    (match p with
     | High => append_high (entry (PStr title) description advice) recs
     | Medium => append_medium (entry (PStr title) description advice) recs
     | Low => append_low (entry (PStr title) description advice) recs
     end).
Proof.
  destruct p; [apply append_high_adds | apply append_medium_adds
               | apply append_low_adds].
Qed.

Lemma occurs_in_admin (url : string) :
  occurs_in "wp-admin" url -> occurs_in "admin" url.
Proof.
  intros [before [after ->]]. exists (before ++ "wp-"), after.
  induction before as [|c before IH]; cbn; [reflexivity|].
  cbn in IH. now rewrite IH.
Qed.

Lemma recommend_port_total (port_info : pyval) (recs : recommendations) :
  port_record port_info ->
  exists recs',
    recommend_port recs port_info = Ok recs' /\
    (entries recs <= entries recs' <= entries recs + 1)%nat.
Proof.
  intros (host & port & service & version & ->).
  unfold recommend_port.
  cbn [Py.getitem Py.lookup String.eqb Ascii.eqb Bool.eqb bind].
  destruct (Py.in_ints port [22; 23; 3389; 5900]%Z); cbn [bind].
  { eexists. split; [reflexivity|]. unfold entries, append_medium.
    cbn [high_priority medium_priority low_priority].
    rewrite length_app. cbn. lia. }
  destruct (Py.in_ints port [80; 443]%Z); cbn [bind].
  { eexists. split; [reflexivity|]. unfold entries, append_low.
    cbn [high_priority medium_priority low_priority].
    rewrite length_app. cbn. lia. }
  destruct (Py.in_ints port [21; 20]%Z); cbn [bind].
  { eexists. split; [reflexivity|]. unfold entries, append_medium.
    cbn [high_priority medium_priority low_priority].
    rewrite length_app. cbn. lia. }
  eexists. split; [reflexivity|]. lia.
Qed.

Lemma recommend_directory_total (dir_info : pyval) (recs : recommendations) :
  has_url dir_info ->
  exists recs',
    recommend_directory recs dir_info = Ok recs' /\
    (entries recs <= entries recs' <= entries recs + 1)%nat.
Proof.
  intros (d & url & -> & Hurl). unfold recommend_directory.
  rewrite !(url_has_either_spec _ url) by exact Hurl.
  destruct (PyStr.contains ".git" url || PyStr.contains ".env" url);
    cbn [bind Py.getitem]; rewrite ?Hurl; cbn [bind].
  { eexists. split; [reflexivity|]. unfold entries, append_high.
    cbn [high_priority medium_priority low_priority].
    rewrite length_app. cbn. lia. }
  destruct (PyStr.contains "wp-admin" url || PyStr.contains "admin" url);
    cbn [bind Py.getitem]; rewrite ?Hurl; cbn [bind].
  { eexists. split; [reflexivity|]. unfold entries, append_medium.
    cbn [high_priority medium_priority low_priority].
    rewrite length_app. cbn. lia. }
  eexists. split; [reflexivity|]. lia.
Qed.

Lemma analyzed_finding_well_formed (d : dict) :
  analyzed_finding (PDict d) -> usable_url (PDict d) -> well_formed_vuln d.
Proof.
  intros (d' & title & sev & Heq & Ht & Hs & Hd) Hu.
  inversion Heq; subst d'. split.
  - now rewrite Ht.
  - exists []. rewrite Hd. split; [reflexivity|].
    unfold affected_url_of. cbn [Py.lookup or_default]. now apply Hu.
Qed.

(** A well-formed finding goes to exactly one list, the one of its
    lower-cased severity, ['info'] standing in for a missing one. *)
Lemma recommend_vulnerability_files (vuln : dict) (sev : string)
    (recs : recommendations) :
  well_formed_vuln vuln ->
  or_default (Py.lookup "severity" vuln) (PStr "info") = PStr sev ->
  exists recs' p title,
    recommend_vulnerability recs (PDict vuln) = Ok recs' /\
    or_default (Py.lookup "title" vuln) (PStr "Unnamed vulnerability")
      = PStr title /\
    documented_priority (PyStr.lower sev) p /\
    adds_exactly_one p title recs recs'.
Proof.
  intros Hwf Hsev.
  assert (Hmed : exists sev',
             or_default (Py.lookup "severity" vuln) (PStr "medium")
             = PStr sev').
  { destruct (Py.lookup "severity" vuln) as [v|]; cbn [or_default] in *;
      eauto. }
  destruct Hmed as [sev' Hmed].
  destruct (recommendation_timeframe vuln sev' Hwf Hmed) as [r [Hr _]].
  assert (Htitle : exists title,
             or_default (Py.lookup "title" vuln)
               (PStr "Unnamed vulnerability") = PStr title).
  { destruct Hwf as [Ht _].
    destruct (Py.lookup "title" vuln) as [[| | |t| |]|];
      try contradiction; cbn [or_default]; eauto. }
  destruct Htitle as [title Htitle].
  destruct (severity_tier (PyStr.lower sev)) as [p [Hp Hif]].
  unfold recommend_vulnerability.
  rewrite !get_or_default, Hsev, Htitle, Hr. cbn [bind Py.lower].
  rewrite Hif. eexists _, p, title.
  split; [reflexivity|]. split; [reflexivity|]. split; [exact Hp|].
  apply append_adds.
Qed.

Lemma adds_exactly_one_entries (p : priority) (title : string)
    (recs recs' : recommendations) :
  adds_exactly_one p title recs recs' -> entries recs' = S (entries recs).
Proof.
  intros [(description & advice & Hp) Hother]. unfold entries.
  destruct p; cbn [bucket] in Hp.
  - pose proof (Hother Medium ltac:(discriminate)) as Hm.
    pose proof (Hother Low ltac:(discriminate)) as Hl.
    cbn [bucket] in Hm, Hl. rewrite Hp, Hm, Hl, length_app. cbn. lia.
  - pose proof (Hother High ltac:(discriminate)) as Hh.
    pose proof (Hother Low ltac:(discriminate)) as Hl.
    cbn [bucket] in Hh, Hl. rewrite Hp, Hh, Hl, length_app. cbn. lia.
  - pose proof (Hother High ltac:(discriminate)) as Hh.
    pose proof (Hother Medium ltac:(discriminate)) as Hm.
    cbn [bucket] in Hh, Hm. rewrite Hp, Hh, Hm, length_app. cbn. lia.
Qed.

End BucketingFacts.

Section BucketingTheorems.

(** X7. [generate_recommendations] files a well-formed finding in exactly
    one list, chosen by its lower-cased severity: critical and high go to
    high priority, medium to medium priority, anything else, a missing
    severity included, to low priority.  The entry carries the finding's
    title, "Unnamed vulnerability" when it has none. *)
Theorem finding_filed_once_by_severity :
  forall (vuln : dict) (sev : string) (recs : recommendations),
    well_formed_vuln vuln ->
    or_default (Py.lookup "severity" vuln) (PStr "info") = PStr sev ->
    exists recs' p title,
      recommend_vulnerability recs (PDict vuln) = Ok recs' /\
      or_default (Py.lookup "title" vuln) (PStr "Unnamed vulnerability")
        = PStr title /\
      documented_priority (PyStr.lower sev) p /\
      adds_exactly_one p title recs recs'.
Proof.
  intros vuln sev recs Hwf Hsev.
  destruct (recommend_vulnerability_files vuln sev recs Hwf Hsev)
    as (recs' & p & title & H).
  exists recs', p, title. exact H.
Qed.

Lemma finding_filed_once_by_severity_witness :
  well_formed_vuln bare_finding /\
  exists recs',
    recommend_vulnerability (mk_recommendations [] [] []) (PDict bare_finding)
      = Ok recs' /\
    adds_exactly_one Low "Unnamed vulnerability"
      (mk_recommendations [] [] []) recs'.
Proof.
  assert (Hwf : well_formed_vuln bare_finding).
  { split; [exact I|]. exists []. split; [reflexivity|]. now left. }
  split; [exact Hwf|].
  destruct (finding_filed_once_by_severity bare_finding "info"
              (mk_recommendations [] [] []) Hwf eq_refl)
    as (recs' & p & title & Hr & Ht & (_ & _ & Hlow) & Hadd).
  exists recs'. split; [exact Hr|].
  apply ok_inj in Hr. cbn in Ht. inversion Ht; subst title.
  rewrite (Hlow ltac:(discriminate) ltac:(discriminate) ltac:(discriminate))
    in Hadd.
  exact Hadd.
Defined.

(** X8. A port record whose port is none of 22, 23, 3389, 5900, 80, 443,
    21, 20 adds no entry, and an interesting directory whose URL contains
    none of '.git', '.env', 'admin' adds none either: the other keywords
    of the directory filter never lead to a recommendation. *)
Theorem unlisted_ports_and_paths_add_nothing :
  (forall (port_data : pyval) (open_ports : list pyval) (port_info : pyval)
          (recs : recommendations),
      _analyze_ports port_data = Ok open_ports ->
      In port_info open_ports ->
      (forall n, In n listed_ports ->
                 Py.getitem port_info "port" <> Ok (PInt n)) ->
      recommend_port recs port_info = Ok recs) /\
  (forall (directories : pyval) (interesting : list pyval)
          (dir_info : pyval) (url : string) (recs : recommendations),
      _find_interesting_directories directories = Ok interesting ->
      In dir_info interesting ->
      Py.getitem dir_info "url" = Ok (PStr url) ->
      ~ occurs_in ".git" url -> ~ occurs_in ".env" url ->
      ~ occurs_in "admin" url ->
      recommend_directory recs dir_info = Ok recs).
Proof.
  split.
  - intros port_data open_ports port_info recs Hports Hin Hn.
    apply analyze_ports_records in Hports. rewrite Forall_forall in Hports.
    destruct (Hports _ Hin) as (host & port & service & version & ->).
    cbn [Py.getitem Py.lookup String.eqb Ascii.eqb Bool.eqb] in Hn.
    assert (Hno : forall n, In n listed_ports -> Py.eq_int port n = false).
    { intros n Hl. destruct port as [|b|m| | |]; try reflexivity.
      - unfold listed_ports in Hl. cbn in Hl.
        destruct b;
          repeat (destruct Hl as [<-|Hl]; [reflexivity|]); contradiction.
      - cbn [Py.eq_int]. apply Z.eqb_neq. intros ->. now elim (Hn n Hl). }
    unfold recommend_port.
    cbn [Py.getitem Py.lookup String.eqb Ascii.eqb Bool.eqb bind
         Py.in_ints existsb].
    rewrite !Hno by (unfold listed_ports; cbn; tauto). reflexivity.
  - intros directories interesting dir_info url recs Hfilter Hin Hurl
      Hg He Ha.
    apply interesting_directories_have_url in Hfilter.
    rewrite Forall_forall in Hfilter.
    destruct (Hfilter _ Hin) as (d & u & -> & Hu).
    cbn [Py.getitem] in Hurl. rewrite Hu in Hurl.
    apply ok_inj in Hurl. inversion Hurl; subst u.
    assert (Hw : ~ occurs_in "wp-admin" url)
      by (intros H; apply Ha; now apply occurs_in_admin).
    unfold recommend_directory.
    rewrite !(url_has_either_spec _ url) by exact Hu.
    apply contains_false_occurs in Hg, He, Hw, Ha.
    rewrite Hg, He, Hw, Ha. reflexivity.
Qed.

Lemma unlisted_ports_and_paths_add_nothing_witness :
  (_analyze_ports
     (PDict [("scan_results",
              PList [PDict [("ports", PList [PDict [("service",
                                                      PStr "http-alt")]])]])])
   = Ok [PDict [("host", PStr "unknown"); ("port", PInt 0);
                ("service", PStr "http-alt"); ("version", PStr "unknown")]] /\
   recommend_port (mk_recommendations [] [] [])
     (PDict [("host", PStr "unknown"); ("port", PInt 0);
             ("service", PStr "http-alt"); ("version", PStr "unknown")])
   = Ok (mk_recommendations [] [] [])) /\
  (_find_interesting_directories
     (PList [PDict [("url", PStr "/backup/db.sql")]]) =
     Ok [PDict [("url", PStr "/backup/db.sql")]] /\
   recommend_directory (mk_recommendations [] [] [])
     (PDict [("url", PStr "/backup/db.sql")]) =
     Ok (mk_recommendations [] [] [])).
Proof.
  split; (split; [reflexivity|]).
  - apply (proj1 unlisted_ports_and_paths_add_nothing
             (PDict [("scan_results",
                      PList [PDict [("ports",
                                     PList [PDict [("service",
                                                    PStr "http-alt")]])]])])
             [PDict [("host", PStr "unknown"); ("port", PInt 0);
                     ("service", PStr "http-alt");
                     ("version", PStr "unknown")]]
             _ (mk_recommendations [] [] []) eq_refl (or_introl eq_refl)).
    intros n Hn H. apply ok_inj in H. inversion H; subst n.
    unfold listed_ports in Hn. cbn in Hn. intuition discriminate.
  - apply (proj2 unlisted_ports_and_paths_add_nothing
             (PList [PDict [("url", PStr "/backup/db.sql")]])
             [PDict [("url", PStr "/backup/db.sql")]]
             (PDict [("url", PStr "/backup/db.sql")]) "/backup/db.sql"
             (mk_recommendations [] [] []) eq_refl (or_introl eq_refl)
             eq_refl);
      apply contains_false_occurs; vm_compute; reflexivity.
Defined.

Lemma for_section_present (d : dict) (key : string) (xs : list pyval)
    (body : recommendations -> pyval -> res recommendations)
    (r : recommendations) :
  Py.lookup key d = Some (PList xs) ->
  for_section key (PDict d) body r = for_each body xs r.
Proof.
  intros H. unfold for_section. cbn [Py.contains Py.getitem bind].
  unfold Py.has_key. rewrite H. reflexivity.
Qed.

Lemma for_section_absent (d : dict) (key : string)
    (body : recommendations -> pyval -> res recommendations)
    (r : recommendations) :
  Py.lookup key d = None -> for_section key (PDict d) body r = Ok r.
Proof.
  intros H. unfold for_section. cbn [Py.contains bind].
  unfold Py.has_key. rewrite H. reflexivity.
Qed.

(** A section of well-behaved items is gone through without an exception,
    and the number of entries grows by between [lo] and 1 per item. *)
Lemma for_section_bounds (d : dict) (key : string) (P : pyval -> Prop)
    (lo : nat)
    (body : recommendations -> pyval -> res recommendations)
    (r : recommendations) :
  (forall v, Py.lookup key d = Some v ->
             exists l, v = PList l /\ Forall P l) ->
  (forall x s, P x ->
               exists s', body s x = Ok s' /\
                          (entries s + lo <= entries s' /\
                           entries s' <= entries s + 1)%nat) ->
  exists r',
    for_section key (PDict d) body r = Ok r' /\
    (entries r + lo * section_size d key <= entries r' /\
     entries r' <= entries r + section_size d key)%nat.
Proof.
  intros Hshape Hstep. unfold section_size.
  destruct (Py.lookup key d) as [v|] eqn:El.
  - destruct (Hshape v eq_refl) as [l [-> Hall]].
    rewrite (for_section_present _ _ l _ _ El).
    destruct (for_each_total body l) with (s := r) as [r' Hr'].
    { rewrite Forall_forall in *. intros x Hx s.
      destruct (Hstep x s (Hall x Hx)) as [s' [Hs' _]]. eauto. }
    exists r'. split; [exact Hr'|].
    assert (Hm : forall s x s', (In x l /\ body s x = Ok s') ->
                 (entries s + lo <= entries s' /\
                  entries s' <= entries s + 1)%nat).
    { intros s x s' [Hx Hb]. rewrite Forall_forall in Hall.
      destruct (Hstep x s (Hall x Hx)) as [s2 [Hs2 Hbound]].
      rewrite Hb in Hs2. apply ok_inj in Hs2. now subst. }
    clear Hshape El Hstep.
    revert r r' Hr'. induction l as [|x l IH]; intros r r' Hr';
      cbn [for_each] in Hr'.
    + apply ok_inj in Hr'. subst. cbn. lia.
    + apply bind_ok_inv in Hr' as [r1 [H1 Hr']].
      assert (Hb := Hm r x r1 (conj (or_introl eq_refl) H1)).
      inversion Hall; subst.
      assert (IHl := IH H3 (fun s y s' Hy =>
                              Hm s y s' (conj (or_intror (proj1 Hy))
                                              (proj2 Hy))) r1 r' Hr').
      cbn [List.length]. nia.
  - rewrite (for_section_absent _ _ _ _ El). exists r. split; [reflexivity|].
    lia.
Qed.

(** X9. On the details of a completed analysis whose findings have a url
    that is a string or counts as false, [generate_recommendations] raises
    nothing.  It makes one entry per finding and at most one per open port
    and per interesting directory: no finding is dropped. *)
Theorem recommendations_cover_every_finding :
  forall (results : pyval) (a : analysis_state),
    analyze_results results = Ok a ->
    (forall findings,
        Py.lookup "vulnerabilities" (details a) = Some (PList findings) ->
        Forall usable_url findings) ->
    exists r,
      generate_recommendations (PDict (details a)) = Ok r /\
      (section_size (details a) "vulnerabilities" <= entries r)%nat /\
      (entries r <=
       section_size (details a) "vulnerabilities"
       + section_size (details a) "open_ports"
       + section_size (details a) "interesting_directories")%nat.
Proof.
  intros results a Ha Hurls.
  destruct (analyze_results_analyzed results a Ha) as (Hv & Hp & Hd & _).
  unfold generate_recommendations.
  destruct (for_section_bounds (details a) "vulnerabilities"
              (fun f => analyzed_finding f /\ usable_url f) 1
              recommend_vulnerability (mk_recommendations [] [] []))
    as [r1 [-> B1]].
  { intros v Hl. destruct (Hv v Hl) as [l [-> Hall]].
    exists l. split; [reflexivity|].
    specialize (Hurls l Hl). rewrite Forall_forall in *.
    intros f Hf. split; auto. }
  { intros f s [Hf Hu].
    destruct Hf as (d & title & sev & -> & Ht & Hs & Hdet).
    assert (Hwf : well_formed_vuln d).
    { apply analyzed_finding_well_formed; [|exact Hu].
      now exists d, title, sev. }
    destruct (recommend_vulnerability_files d sev s Hwf)
      as (s' & p & t & Hr & _ & _ & Hadd).
    { now rewrite Hs. }
    exists s'. split; [exact Hr|].
    apply adds_exactly_one_entries in Hadd. lia. }
  cbn [bind].
  destruct (for_section_bounds (details a) "open_ports" port_record 0
              recommend_port r1) as [r2 [-> B2]].
  { exact Hp. }
  { intros x s Hx. destruct (recommend_port_total x s Hx) as [s' [Hr Hb]].
    exists s'. split; [exact Hr|]. lia. }
  cbn [bind].
  destruct (for_section_bounds (details a) "interesting_directories"
              has_url 0 recommend_directory r2) as [r3 [-> B3]].
  { exact Hd. }
  { intros x s Hx.
    destruct (recommend_directory_total x s Hx) as [s' [Hr Hb]].
    exists s'. split; [exact Hr|]. lia. }
  exists r3. split; [reflexivity|]. unfold entries in *. cbn in B1. lia.
Qed.

Lemma recommendations_cover_every_finding_witness :
  analyze_results odd_severity_results = Ok odd_severity_analysis /\
  exists r,
    generate_recommendations (PDict (details odd_severity_analysis)) = Ok r /\
    (1 <= entries r <= 1)%nat.
Proof.
  split; [reflexivity|].
  destruct (recommendations_cover_every_finding odd_severity_results
              odd_severity_analysis eq_refl) as [r [Hr [Hlo Hhi]]].
  { intros findings Hl. cbn in Hl. inversion Hl; subst findings.
    constructor; [|constructor].
    intros d Hd. inversion Hd; subst d. left. reflexivity. }
  exists r. split; [exact Hr|]. cbn in Hlo, Hhi. split; assumption.
Defined.

End BucketingTheorems.

(* ===================================================================== *)
(** ** More on the lookup and on the per-finding recommendation *)
(* ===================================================================== *)

Section RecommendationFacts.

Lemma partial_pass_match (db : dict) (v m : string) (t : pyval) :
  partial_pass db v m = Ok (Some t) ->
  exists key, In (key, t) db /\ word_match key v m.
Proof.
  induction db as [|[k r] db IH]; cbn [partial_pass]; [discriminate|].
  destruct (first_word k) as [w|e] eqn:Ew; cbn [bind]; [|discriminate].
  destruct (PyStr.word_search w v || PyStr.word_search w m) eqn:E.
  - intros H. apply ok_inj in H. inversion H; subst r.
    exists k. split; [now left|]. exists w. split; [exact Ew|].
    now apply orb_true_iff.
  - intros H. destruct (IH H) as [key [Hin Hm]].
    exists key. split; [now right | exact Hm].
Qed.

Lemma lower_ascii_idempotent (c : ascii) :
  PyStr.lower_ascii (PyStr.lower_ascii c) = PyStr.lower_ascii c.
Proof. destruct c as [[] [] [] [] [] [] [] []]; reflexivity. Qed.

Lemma lower_idempotent (s : string) :
  PyStr.lower (PyStr.lower s) = PyStr.lower s.
Proof.
  induction s as [|c s IH]; cbn [PyStr.lower]; [reflexivity|].
  now rewrite lower_ascii_idempotent, IH.
Qed.

(** Lower-casing the name beforehand does not change what is looked up. *)
Lemma lookup_lower (v m : string) :
  _get_recommendation_for_vulnerability_type (PStr (PyStr.lower v)) (PStr m)
  = _get_recommendation_for_vulnerability_type (PStr v) (PStr m).
Proof.
  unfold _get_recommendation_for_vulnerability_type.
  cbn [Py.lower bind]. now rewrite lower_idempotent.
Qed.

Lemma replace_absent (old new s : string) :
  PyStr.contains old s = false -> PyStr.replace old new s = s.
Proof.
  unfold PyStr.replace. induction s as [|c s IH];
    cbn [PyStr.contains PyStr.replace_aux]; [reflexivity|].
  intros H. apply orb_false_iff in H as [Hp Hc].
  rewrite Hp. now rewrite IH.
Qed.

Lemma replace_absent_all (u : string) (steps : list string) :
  forallb (fun step => negb (PyStr.contains "{{URL}}" step)) steps = true ->
  map (PyStr.replace "{{URL}}" u) steps = steps.
Proof.
  induction steps as [|s steps IH]; cbn [forallb map]; [reflexivity|].
  intros H. apply andb_true_iff in H as [Hs Hrest].
  apply negb_true_iff in Hs. now rewrite replace_absent, IH.
Qed.

(** No step of the catalog, nor of the default, holds the placeholder. *)
Lemma catalog_without_placeholder (t : pyval) :
  known_template t ->
  exists summary steps code_example references,
    t = template summary steps code_example references /\
    forallb (fun step => negb (PyStr.contains "{{URL}}" step)) steps = true.
Proof.
  unfold known_template. intros [H| ->].
  - cbn [map snd remediation_db] in H.
    repeat (destruct H as [<-|H];
            [unfold template; do 4 eexists; split; reflexivity|]).
    destruct H.
  - unfold template; do 4 eexists; split; reflexivity.
Qed.

(** What the builder returns on a well-formed finding: the template of the
    lower-cased title, field by field, then the affected URL if there is
    one, then the timeframe. *)
Lemma recommendation_contents (vuln : dict) (sev : string) :
  well_formed_vuln vuln ->
  or_default (Py.lookup "severity" vuln) (PStr "medium") = PStr sev ->
  exists title details tpl,
    or_default (Py.lookup "title" vuln) (PStr "") = PStr title /\
    or_default (Py.lookup "details" vuln) (PDict []) = PDict details /\
    _get_recommendation_for_vulnerability_type
      (PStr (PyStr.lower title)) (PStr "") = Ok (PDict tpl) /\
    map fst tpl = template_fields /\
    _get_recommendation_for_vulnerability (PDict vuln) =
    Ok (PDict
          (tpl ++
           (if Py.truthy (affected_url_of vuln details)
            then [("affected_url", affected_url_of vuln details)]
            else []) ++
           [("timeframe", PStr (timeframe_of (PyStr.lower sev)))])%list).
Proof.
  intros [Htitle [details [Hdetails Hurl]]] Hsev.
  assert (Ht : exists title,
             or_default (Py.lookup "title" vuln) (PStr "") = PStr title).
  { destruct (Py.lookup "title" vuln) as [[| | |t| |]|];
      try contradiction; cbn [or_default]; eauto. }
  destruct Ht as [title Ht].
  destruct (lookup_total (PyStr.lower title) "") as [t [El Kt]].
  destruct (catalog_without_placeholder t Kt)
    as (summary & steps & code & refs & -> & Hfree).
  exists title, details, 
    [("summary", PStr summary); ("steps", PList (map PStr steps));
     ("code_example", PStr code); ("references", PList (map PStr refs))].
  split; [exact Ht|]. split; [exact Hdetails|].
  split; [exact El|]. split; [reflexivity|].
  unfold _get_recommendation_for_vulnerability.
  rewrite !get_or_default. rewrite Hsev, Hdetails, Ht. cbn [bind Py.lower].
  rewrite get_or_default. fold (affected_url_of vuln details).
  rewrite El. cbn [bind]. unfold template.
  cbn [Py.getitem Py.lookup String.eqb Ascii.eqb Bool.eqb bind].
  destruct Hurl as [Hfalse | [u Hu]].
  - rewrite Hfalse. reflexivity.
  - rewrite Hu. destruct (Py.truthy (PStr u)); cbn [bind]; [|reflexivity].
    cbn [Py.store Py.getitem Py.lookup String.eqb Ascii.eqb Bool.eqb
         bind Py.iter].
    rewrite comprehension_replace_url. cbn [bind].
    rewrite (replace_absent_all u steps Hfree). reflexivity.
Qed.

End RecommendationFacts.

Section RecommendationTheorems.

Local Ltac catalog_case H :=
  simpl in H;
  repeat (destruct H as [H|H]; [inversion H; subst; clear H|]);
  try contradiction.

Local Ltac absent :=
  let H := fresh in
  intros [H|H]; apply contains_occurs in H; vm_compute in H; discriminate.

(** X10. The word-boundary pass only ever answers for a key of several
    words.  When no key occurs in either lower-cased name, the lookup
    returns the default or the template of one of 'sql injection', 'open
    redirect', 'missing header', 'information disclosure', 'directory
    listing', 'default credentials', 'sensitive file', 'ssl tls', the first
    word of that key standing between word boundaries in one of the
    names. *)
Theorem fallback_answers_for_multi_word_keys :
  forall (vuln_name matcher_name : string) (t : pyval),
    (forall k t', In (k, t') remediation_db ->
       ~ exact_match k (PyStr.lower vuln_name) (PyStr.lower matcher_name)) ->
    _get_recommendation_for_vulnerability_type
      (PStr vuln_name) (PStr matcher_name) = Ok t ->
    t = default_recommendation \/
    exists key,
      In key multi_word_keys /\ In (key, t) remediation_db /\
      word_match key (PyStr.lower vuln_name) (PyStr.lower matcher_name).
Proof.
  intros vuln_name matcher_name t Hno H.
  unfold _get_recommendation_for_vulnerability_type in H.
  cbn [Py.lower bind] in H.
  pose proof (exact_pass_none _ _ _ Hno) as Hnone. rewrite Hnone in H.
  apply bind_ok_inv in H as [[found|] [Hp H]]; apply ok_inj in H; subst t;
    [|now left].
  right. destruct (partial_pass_match _ _ _ _ Hp) as [key [Hin Hm]].
  exists key. split; [|split; assumption].
  assert (Hsingle : first_word key = Ok key -> False).
  { intros Hfw.
    destruct (single_word_key_settled_by_first_pass key found _ _ Hin Hfw Hm)
      as [t' Ht'].
    rewrite Hnone in Ht'. discriminate. }
  pose proof Hin as Hin'.
  catalog_case Hin'; unfold multi_word_keys; cbn; auto 10;
    exfalso; apply Hsingle; reflexivity.
Qed.

Lemma fallback_answers_for_multi_word_keys_witness :
  _get_recommendation_for_vulnerability_type
    (PStr "Blind SQL error in search") (PStr "") = Ok rec_sql_injection /\
  (rec_sql_injection = default_recommendation \/
   exists key,
     In key multi_word_keys /\ In (key, rec_sql_injection) remediation_db /\
     word_match key (PyStr.lower "Blind SQL error in search")
       (PyStr.lower "")).
Proof.
  split; [reflexivity|].
  apply (fallback_answers_for_multi_word_keys
           "Blind SQL error in search" "" rec_sql_injection);
    [|reflexivity].
  intros k t' Hin. catalog_case Hin; absent.
Defined.

(** X11. On a well-formed finding with a string severity (or none) the
    recommendation built by [_get_recommendation_for_vulnerability] is the
    catalog template of the lower-cased title with its four fields as they
    are, followed by ['affected_url'] when the affected URL counts as true,
    followed by ['timeframe'].  No step is changed by the URL substitution:
    no step of the catalog holds the placeholder. *)
Theorem recommendation_is_template_url_timeframe :
  forall (vuln : dict) (sev : string),
    well_formed_vuln vuln ->
    or_default (Py.lookup "severity" vuln) (PStr "medium") = PStr sev ->
    exists title details tpl,
      or_default (Py.lookup "title" vuln) (PStr "") = PStr title /\
      or_default (Py.lookup "details" vuln) (PDict []) = PDict details /\
      _get_recommendation_for_vulnerability_type
        (PStr (PyStr.lower title)) (PStr "") = Ok (PDict tpl) /\
      map fst tpl = template_fields /\
      _get_recommendation_for_vulnerability (PDict vuln) =
      Ok (PDict
            (tpl ++
             (if Py.truthy (affected_url_of vuln details)
              then [("affected_url", affected_url_of vuln details)]
              else []) ++
             [("timeframe", PStr (timeframe_of (PyStr.lower sev)))])%list).
Proof.
  intros vuln sev Hwf Hsev.
  destruct (recommendation_contents vuln sev Hwf Hsev)
    as (title & details & tpl & H).
  exists title, details, tpl. exact H.
Qed.

Lemma recommendation_is_template_url_timeframe_witness :
  well_formed_vuln loud_finding /\
  exists tpl,
    _get_recommendation_for_vulnerability_type
      (PStr "sql injection in /login") (PStr "") = Ok (PDict tpl) /\
    _get_recommendation_for_vulnerability (PDict loud_finding) =
    Ok (PDict (tpl ++
               [("affected_url", PStr "http://a.example/login");
                ("timeframe", PStr "Immediate (within 24-48 hours)")])%list).
Proof.
  assert (Hwf : well_formed_vuln loud_finding).
  { split; [exact I|]. exists []. split; [reflexivity|].
    right. now eexists. }
  split; [exact Hwf|].
  destruct (recommendation_is_template_url_timeframe loud_finding "CRITICAL"
              Hwf eq_refl)
    as (title & details & tpl & Ht & Hd & Hl & _ & Hr).
  cbn in Ht, Hd. inversion Ht; subst title. inversion Hd; subst details.
  exists tpl. split; [exact Hl|]. exact Hr.
Defined.

(** X12. For a finding made from a manual check, the recommendation built
    later by [_get_recommendation_for_vulnerability] is the one the
    normalizer attached, with a timeframe added: both lookups go by the
    title alone and lower-casing it first changes nothing. *)
Theorem manual_check_recommendation_is_the_attached_one :
  forall (check : pyval) (f : dict),
    manual_finding check = Ok (PDict f) ->
    exists attached sev,
      Py.lookup "recommendation" f = Some (PDict attached) /\
      Py.lookup "severity" f = Some (PStr sev) /\
      _get_recommendation_for_vulnerability (PDict f) =
      Ok (PDict (attached ++
                 [("timeframe", PStr (timeframe_of sev))])%list).
Proof.
  intros check f H. unfold manual_finding in H. monad_inv H.
  rename x into title, x0 into sev, x1 into description, x2 into attached.
  destruct title as [| | |title| |]; try discriminate.
  apply (f_equal (fun v => match v with PDict d => d | _ => [] end)) in H.
  cbn in H. subst f.
  assert (Hsev : PyStr.lower sev = sev).
  { apply manual_severity_cases in E0. cbn in E0.
    destruct E0 as [H|[H|[H|[]]]]; inversion H; reflexivity. }
  assert (Hwf : well_formed_vuln
                  [("title", PStr title); ("severity", PStr sev);
                   ("description", description);
                   ("recommendation", attached)]).
  { split; [exact I|]. exists []. split; [reflexivity|]. now left. }
  destruct (recommendation_contents _ sev Hwf eq_refl)
    as (title' & details & tpl & Ht & Hd & Hl & _ & Hr).
  cbn in Ht, Hd. inversion Ht; subst title'. inversion Hd; subst details.
  rewrite lookup_lower, E2 in Hl. apply ok_inj in Hl. subst attached.
  exists tpl, sev. split; [reflexivity|]. split; [reflexivity|].
  rewrite Hr, Hsev. reflexivity.
Qed.

Lemma manual_check_recommendation_is_the_attached_one_witness :
  exists f,
    manual_finding idor_check = Ok (PDict f) /\
    Py.lookup "recommendation" f = Some default_recommendation /\
    exists attached,
      _get_recommendation_for_vulnerability (PDict f) =
      Ok (PDict (attached ++
                 [("timeframe",
                   PStr "Short-term (within 1-2 weeks)")])%list).
Proof.
  eexists. split; [vm_compute; reflexivity|]. split; [reflexivity|].
  match goal with
  | |- context [_get_recommendation_for_vulnerability (PDict ?f)] =>
      destruct (manual_check_recommendation_is_the_attached_one
                  idor_check f eq_refl)
        as (attached & sev & _ & Hs & Hr)
  end.
  exists attached. cbn in Hs. inversion Hs; subst sev. exact Hr.
Defined.

End RecommendationTheorems.

(* ===================================================================== *)
(** ** [prioritize_findings] *)
(* ===================================================================== *)

Section PrioritizeFacts.

Lemma store_store (k : string) (v v' : pyval) (d : dict) :
  Py.store k v (Py.store k v' d) = Py.store k v d.
Proof.
  induction d as [|[k0 v0] d IH]; cbn [Py.store].
  - now rewrite String.eqb_refl.
  - destruct (String.eqb k0 k) eqn:E; cbn [Py.store]; rewrite ?E.
    + now rewrite String.eqb_refl.
    + now rewrite IH.
Qed.

Lemma store_same (k : string) (v : pyval) (d : dict) :
  Py.lookup k d = Some v -> Py.store k v d = d.
Proof.
  induction d as [|[k0 v0] d IH]; cbn [Py.lookup Py.store]; [discriminate|].
  destruct (String.eqb k0 k) eqn:E.
  - apply String.eqb_eq in E. subst k0. intros H. inversion H. reflexivity.
  - intros H. now rewrite IH.
Qed.

Lemma timed_action_entry (timeframe : string) (e : pyval) :
  is_entry e -> timed_action timeframe e = Ok (timed timeframe e).
Proof. intros (t & d & r & ->). reflexivity. Qed.

Lemma tier_loop (timeframe target : string) (xs : list pyval) :
  Forall is_entry xs ->
  forall (l : list pyval) (p : dict),
    Py.lookup target p = Some (PList l) ->
    for_each
      (fun priorities rec =>
         let* action := timed_action timeframe rec in
         append_to target action priorities)
      xs p =
    Ok (Py.store target (PList (l ++ map (timed timeframe) xs)) p).
Proof.
  induction 1 as [|x xs Hx _ IH]; intros l p Hl; cbn [for_each map].
  - rewrite app_nil_r. now rewrite store_same.
  - rewrite (timed_action_entry _ _ Hx). cbn [bind].
    unfold append_to at 1. rewrite Hl. cbn [bind].
    rewrite (IH (l ++ [timed timeframe x])%list).
    + rewrite store_store, <- app_assoc. reflexivity.
    + rewrite lookup_store. now rewrite String.eqb_refl.
Qed.

Lemma recommend_vulnerability_entries (r r' : recommendations)
    (vuln : pyval) :
  recommend_vulnerability r vuln = Ok r' ->
  (Forall is_entry (high_priority r) /\ Forall is_entry (medium_priority r)
   /\ Forall is_entry (low_priority r)) ->
  Forall is_entry (high_priority r') /\ Forall is_entry (medium_priority r')
  /\ Forall is_entry (low_priority r').
Proof.
  intros H (Hh & Hm & Hl). unfold recommend_vulnerability in H.
  monad_inv H; cbn [append_high append_medium append_low high_priority
                    medium_priority low_priority];
    repeat split; try assumption;
    apply Forall_app; (split; [assumption|]);
    (constructor; [|constructor]); unfold is_entry; eauto.
Qed.

Lemma recommend_port_entries (r r' : recommendations) (port_info : pyval) :
  recommend_port r port_info = Ok r' ->
  (Forall is_entry (high_priority r) /\ Forall is_entry (medium_priority r)
   /\ Forall is_entry (low_priority r)) ->
  Forall is_entry (high_priority r') /\ Forall is_entry (medium_priority r')
  /\ Forall is_entry (low_priority r').
Proof.
  intros H (Hh & Hm & Hl). unfold recommend_port in H.
  monad_inv H; cbn [append_high append_medium append_low high_priority
                    medium_priority low_priority];
    repeat split; try assumption;
    apply Forall_app; (split; [assumption|]);
    (constructor; [|constructor]); unfold is_entry; eauto.
Qed.

Lemma recommend_directory_entries (r r' : recommendations)
    (dir_info : pyval) :
  recommend_directory r dir_info = Ok r' ->
  (Forall is_entry (high_priority r) /\ Forall is_entry (medium_priority r)
   /\ Forall is_entry (low_priority r)) ->
  Forall is_entry (high_priority r') /\ Forall is_entry (medium_priority r')
  /\ Forall is_entry (low_priority r').
Proof.
  intros H (Hh & Hm & Hl). unfold recommend_directory in H.
  monad_inv H; cbn [append_high append_medium append_low high_priority
                    medium_priority low_priority];
    repeat split; try assumption;
    apply Forall_app; (split; [assumption|]);
    (constructor; [|constructor]); unfold is_entry; eauto.
Qed.

Lemma for_section_invariant (I : recommendations -> Prop) (key : string)
    (details : pyval)
    (body : recommendations -> pyval -> res recommendations)
    (r r' : recommendations) :
  (forall s x s', body s x = Ok s' -> I s -> I s') ->
  for_section key details body r = Ok r' -> I r -> I r'.
Proof.
  intros Hstep H Hr. unfold for_section in H. monad_inv H; [|exact Hr].
  revert H. apply for_each_invariant; [|exact Hr].
  intros s y s' Hs Hb. eapply Hstep; eassumption.
Qed.

Lemma generated_entries (details : pyval) (r : recommendations) :
  generate_recommendations details = Ok r ->
  Forall is_entry (high_priority r) /\ Forall is_entry (medium_priority r)
  /\ Forall is_entry (low_priority r).
Proof.
  unfold generate_recommendations. intros H.
  apply bind_ok_inv in H as [r1 [H1 H]].
  apply bind_ok_inv in H as [r2 [H2 H3]].
  set (I := fun r : recommendations =>
              Forall is_entry (high_priority r) /\
              Forall is_entry (medium_priority r) /\
              Forall is_entry (low_priority r)).
  change (I r).
  apply (for_section_invariant I _ _ _ _ _
           (fun s x s' => recommend_directory_entries s s' x) H3).
  apply (for_section_invariant I _ _ _ _ _
           (fun s x s' => recommend_port_entries s s' x) H2).
  apply (for_section_invariant I _ _ _ _ _
           (fun s x s' => recommend_vulnerability_entries s s' x) H1).
  unfold I. cbn. repeat split; constructor.
Qed.

End PrioritizeFacts.

Section PrioritizeTheorems.

(** X13. After [generate_recommendations], [prioritize_findings] raises
    nothing and turns the three lists into the three timed lists item by
    item, in the same order: each action has the title, description and
    recommendation of its entry and the timeframe of its tier, "As soon as
    possible (24-48 hours)", "Within 1-2 weeks" or "Within 1-3 months".
    On a dict without the three lists it gives three empty lists. *)
Theorem priorities_mirror_the_recommendations :
  (forall (details : pyval) (r : recommendations),
      generate_recommendations details = Ok r ->
      prioritize_findings (recommendations_dict r) =
      Ok [("immediate_action",
           PList (map (timed "As soon as possible (24-48 hours)")
                    (high_priority r)));
          ("short_term",
           PList (map (timed "Within 1-2 weeks") (medium_priority r)));
          ("long_term",
           PList (map (timed "Within 1-3 months") (low_priority r)))]) /\
  (forall (t d rc : pyval) (timeframe : string),
      timed timeframe (entry t d rc) =
      PDict [("title", t); ("description", d); ("recommendation", rc);
             ("timeframe", PStr timeframe)]) /\
  (forall recs : dict,
      Py.lookup "high_priority" recs = None ->
      Py.lookup "medium_priority" recs = None ->
      Py.lookup "low_priority" recs = None ->
      prioritize_findings (PDict recs) =
      Ok [("immediate_action", PList []); ("short_term", PList []);
          ("long_term", PList [])]).
Proof.
  split; [|split].
  - intros details r H.
    destruct (generated_entries details r H) as (Hh & Hm & Hl).
    unfold prioritize_findings, prioritize_tier, recommendations_dict.
    cbn [Py.contains Py.has_key Py.lookup String.eqb Ascii.eqb Bool.eqb
         bind Py.getitem Py.iter].
    rewrite (tier_loop _ "immediate_action" _ Hh []) by reflexivity.
    cbn [bind Py.store String.eqb Ascii.eqb Bool.eqb app].
    rewrite (tier_loop _ "short_term" _ Hm []) by reflexivity.
    cbn [bind Py.store String.eqb Ascii.eqb Bool.eqb app].
    rewrite (tier_loop _ "long_term" _ Hl []) by reflexivity.
    reflexivity.
  - reflexivity.
  - intros recs Hh Hm Hl.
    unfold prioritize_findings, prioritize_tier.
    cbn [Py.contains bind]. unfold Py.has_key. rewrite Hh, Hm, Hl.
    reflexivity.
Qed.

Lemma priorities_mirror_the_recommendations_witness :
  generate_recommendations (PDict (details ssh_analysis)) =
    Ok (mk_recommendations []
          [entry (PStr "Remote Access Service on Port 22")
             (PStr "Found ssh running on port 22")
             (PStr "Restrict access to port 22 to trusted IPs only and ensure strong authentication is in place.")]
          []) /\
  prioritize_findings
    (recommendations_dict
       (mk_recommendations []
          [entry (PStr "Remote Access Service on Port 22")
             (PStr "Found ssh running on port 22")
             (PStr "Restrict access to port 22 to trusted IPs only and ensure strong authentication is in place.")]
          [])) =
  Ok [("immediate_action", PList []);
      ("short_term",
       PList [PDict [("title", PStr "Remote Access Service on Port 22");
                     ("description", PStr "Found ssh running on port 22");
                     ("recommendation",
                      PStr "Restrict access to port 22 to trusted IPs only and ensure strong authentication is in place.");
                     ("timeframe", PStr "Within 1-2 weeks")]]);
      ("long_term", PList [])].
Proof.
  split; [reflexivity|].
  exact (proj1 priorities_mirror_the_recommendations
           (PDict (details ssh_analysis)) _ eq_refl).
Defined.

End PrioritizeTheorems.

(* ===================================================================== *)
(** ** [load_results] *)
(* ===================================================================== *)

Section LoadFacts.

Lemma lookup_load_first (k key : string) (files : list file) (d : dict) :
  Py.lookup k (load_first key files d) =
  if String.eqb key k
  then match first_json files with
       | Some v => Some v
       | None => Py.lookup k d
       end
  else Py.lookup k d.
Proof.
  unfold load_first, first_json.
  destruct files as [|[| |v] rest]; rewrite ?lookup_store;
    destruct (String.eqb key k); reflexivity.
Qed.

Lemma truthy_store (k : string) (v : pyval) (d : dict) :
  Py.truthy (PDict (Py.store k v d)) = true.
Proof.
  destruct d as [|[k0 v0] d]; cbn [Py.store Py.truthy]; [reflexivity|].
  destruct (String.eqb k0 k); reflexivity.
Qed.

Lemma truthy_load_first (key : string) (files : list file) (d : dict) :
  Py.truthy (PDict (load_first key files d)) =
  is_some (first_json files) || Py.truthy (PDict d).
Proof.
  unfold load_first, first_json.
  destruct files as [|[| |v] rest]; cbn [is_some orb]; try reflexivity.
  apply truthy_store.
Qed.

(** The loop over the vulnerability files, once the list exists. *)
Lemma load_vulnerabilities_started (files : list file) :
  forall (d : dict) (l : list pyval),
    Py.lookup "vulnerabilities" d = Some (PList l) ->
    fold_left load_vulnerability files d =
    Py.store "vulnerabilities" (PList (l ++ parsed files)) d.
Proof.
  induction files as [|f files IH]; intros d l Hl; cbn [fold_left parsed
                                                          flat_map].
  - rewrite app_nil_r. now rewrite store_same.
  - assert (Hk : Py.has_key "vulnerabilities" d = true)
      by (unfold Py.has_key; now rewrite Hl).
    destruct f as [| |v]; cbn [load_vulnerability app]; rewrite ?Hk.
    + now apply IH.
    + now apply IH.
    + unfold append_to. rewrite Hl.
      rewrite (IH _ (l ++ [v])%list).
      * rewrite store_store, <- app_assoc. reflexivity.
      * rewrite lookup_store. now rewrite String.eqb_refl.
Qed.

(** The loop over the vulnerability files, from a state without the list. *)
Lemma load_vulnerabilities_fresh (files : list file) :
  forall d : dict,
    Py.lookup "vulnerabilities" d = None ->
    fold_left load_vulnerability files d =
    if existsb opened files
    then Py.store "vulnerabilities" (PList (parsed files)) d
    else d.
Proof.
  induction files as [|f files IH]; intros d Hl; cbn [fold_left existsb
                                                        parsed flat_map].
  - reflexivity.
  - assert (Hk : Py.has_key "vulnerabilities" d = false)
      by (unfold Py.has_key; now rewrite Hl).
    destruct f as [| |v]; cbn [load_vulnerability opened orb app];
      rewrite ?Hk.
    + now apply IH.
    + rewrite (load_vulnerabilities_started files _ []).
      * now rewrite store_store.
      * rewrite lookup_store. now rewrite String.eqb_refl.
    + unfold append_to. rewrite lookup_store, String.eqb_refl.
      rewrite store_store.
      rewrite (load_vulnerabilities_started files _ [v]).
      * now rewrite store_store.
      * rewrite lookup_store. now rewrite String.eqb_refl.
Qed.

End LoadFacts.

Section LoadTheorems.

(** X14. [load_results] reads only the first file that [glob] lists for
    subdomains, ports, directories and live hosts: the section is the value
    read from that file, and it is missing when that file cannot be opened
    or parsed, whatever the files after it.  The method returns [True]
    exactly when one of these four first files was read or a vulnerability
    file could be opened. *)
Theorem load_results_reads_first_files :
  forall tree : scan_tree,
    Py.lookup "subdomains" (fst (load_results tree))
      = first_json (subdomain_files tree) /\
    Py.lookup "ports" (fst (load_results tree))
      = first_json (port_files tree) /\
    Py.lookup "directories" (fst (load_results tree))
      = first_json (dir_files tree) /\
    Py.lookup "livehosts" (fst (load_results tree))
      = first_json (host_files tree) /\
    snd (load_results tree) =
      is_some (first_json (subdomain_files tree))
      || is_some (first_json (port_files tree))
      || is_some (first_json (dir_files tree))
      || is_some (first_json (host_files tree))
      || existsb opened (vuln_files tree).
Proof.
  intros tree. unfold load_results. cbn [fst snd].
  set (d4 := load_first "livehosts" (host_files tree)
               (load_first "directories" (dir_files tree)
                  (load_first "ports" (port_files tree)
                     (load_first "subdomains" (subdomain_files tree) [])))).
  assert (Hfresh : Py.lookup "vulnerabilities" d4 = None).
  { unfold d4. rewrite !lookup_load_first. reflexivity. }
  rewrite (load_vulnerabilities_fresh _ _ Hfresh).
  assert (Hkeep : forall k, String.eqb "vulnerabilities" k = false ->
            Py.lookup k
              (if existsb opened (vuln_files tree)
               then Py.store "vulnerabilities"
                      (PList (parsed (vuln_files tree))) d4
               else d4) = Py.lookup k d4).
  { intros k Hk. destruct (existsb opened (vuln_files tree));
      [|reflexivity]. now rewrite lookup_store, Hk. }
  rewrite !Hkeep by reflexivity. unfold d4.
  rewrite !lookup_load_first.
  cbn [String.eqb Ascii.eqb Bool.eqb Py.lookup].
  repeat split;
    try (destruct (first_json (subdomain_files tree)),
           (first_json (port_files tree)),
           (first_json (dir_files tree)),
           (first_json (host_files tree)); reflexivity).
  destruct (existsb opened (vuln_files tree)).
  - rewrite truthy_store. now rewrite !orb_true_r.
  - fold d4. unfold d4. rewrite !truthy_load_first.
    cbn [Py.truthy]. rewrite !orb_false_r.
    destruct (first_json (subdomain_files tree)),
      (first_json (port_files tree)),
      (first_json (dir_files tree)),
      (first_json (host_files tree)); reflexivity.
Qed.

(** X15. The ['vulnerabilities'] of the loaded results are the values read
    from the vulnerability files, all of them and in the order of the
    listing.  The list exists as soon as one file could be opened, even if
    nothing could be parsed: it is then empty, and the method still
    returns [True]. *)
Theorem load_results_collects_vulnerability_files :
  (forall tree : scan_tree,
      Py.lookup "vulnerabilities" (fst (load_results tree)) =
      if existsb opened (vuln_files tree)
      then Some (PList (parsed (vuln_files tree)))
      else None) /\
  (forall tree : scan_tree,
      existsb opened (vuln_files tree) = true ->
      parsed (vuln_files tree) = [] ->
      Py.lookup "vulnerabilities" (fst (load_results tree)) = Some (PList [])
      /\ snd (load_results tree) = true).
Proof.
  assert (Hl : forall tree : scan_tree,
             Py.lookup "vulnerabilities" (fst (load_results tree)) =
             if existsb opened (vuln_files tree)
             then Some (PList (parsed (vuln_files tree)))
             else None).
  { intros tree. unfold load_results. cbn [fst].
    set (d4 := load_first "livehosts" (host_files tree)
                 (load_first "directories" (dir_files tree)
                    (load_first "ports" (port_files tree)
                       (load_first "subdomains" (subdomain_files tree) [])))).
    assert (Hfresh : Py.lookup "vulnerabilities" d4 = None).
    { unfold d4. rewrite !lookup_load_first. reflexivity. }
    rewrite (load_vulnerabilities_fresh _ _ Hfresh).
    destruct (existsb opened (vuln_files tree)); [|exact Hfresh].
    now rewrite lookup_store, String.eqb_refl. }
  split; [exact Hl|].
  intros tree Hopen Hnone. split.
  - now rewrite Hl, Hopen, Hnone.
  - unfold load_results. cbn [snd].
    rewrite load_vulnerabilities_fresh
      by (rewrite !lookup_load_first; reflexivity).
    rewrite Hopen. apply truthy_store.
Qed.

Lemma load_results_collects_vulnerability_files_witness :
  existsb opened (vuln_files broken_tree) = true /\
  parsed (vuln_files broken_tree) = [] /\
  load_results broken_tree = ([("vulnerabilities", PList [])], true) /\
  Py.lookup "vulnerabilities" (fst (load_results broken_tree))
    = Some (PList []) /\
  snd (load_results broken_tree) = true.
Proof.
  split; [reflexivity|]. split; [reflexivity|]. split; [reflexivity|].
  exact (proj2 load_results_collects_vulnerability_files broken_tree
           eq_refl eq_refl).
Defined.

End LoadTheorems.

(* ===================================================================== *)
(** ** [_prepare_ai_prompt] *)
(* ===================================================================== *)

Section PromptFacts.

Lemma append_empty_r (s : string) : s ++ "" = s.
Proof. induction s as [|c s IH]; cbn; [reflexivity | now rewrite IH]. Qed.

Lemma append_assoc_s (a b c : string) : (a ++ b) ++ c = a ++ b ++ c.
Proof. induction a as [|x a IH]; cbn; [reflexivity | now rewrite IH]. Qed.

Lemma occurs_in_left (l a b : string) : occurs_in l a -> occurs_in l (a ++ b).
Proof.
  intros [before [after ->]]. exists before, (after ++ b).
  now rewrite !append_assoc_s.
Qed.

Lemma occurs_in_right (l a b : string) :
  occurs_in l b -> occurs_in l (a ++ b).
Proof.
  intros [before [after ->]]. exists (a ++ before), after.
  now rewrite !append_assoc_s.
Qed.

Lemma occurs_in_join_all (l : string) (ls : list string) :
  In l ls -> occurs_in l (join_all ls).
Proof.
  induction ls as [|x ls IH]; intros H; [contradiction|].
  cbn [join_all fold_right]. destruct H as [->|H].
  - exists "", (join_all ls). reflexivity.
  - apply occurs_in_right. now apply IH.
Qed.

Lemma count_line_text (sd : dict) (key before after : string) :
  exists mid, forall text,
    count_line (PDict sd) key before after text = Ok (text ++ mid).
Proof.
  unfold count_line. cbn [Py.contains bind Py.getitem].
  unfold Py.has_key. destruct (Py.lookup key sd) as [n|].
  - exists (before ++ Py.str n ++ after). reflexivity.
  - exists "". intros text. now rewrite append_empty_r.
Qed.

Lemma vulnerability_line_text (sd : dict) (before after : string) :
  (forall v, Py.lookup "vulnerability_count" sd = Some v ->
             exists d, v = PDict d) ->
  exists mid, forall text,
    vulnerability_line (PDict sd) before after text = Ok (text ++ mid).
Proof.
  intros Hshape. unfold vulnerability_line.
  cbn [Py.contains bind Py.getitem]. unfold Py.has_key.
  destruct (Py.lookup "vulnerability_count" sd) as [v|].
  - destruct (Hshape v eq_refl) as [d ->]. cbn [Py.get bind].
    eexists. intros text. reflexivity.
  - exists "". intros text. now rewrite append_empty_r.
Qed.

Lemma summary_lines_text (sd : dict) (before after : string) :
  (forall v, Py.lookup "vulnerability_count" sd = Some v ->
             exists d, v = PDict d) ->
  exists mid, forall text,
    summary_lines (PDict sd) before after text = Ok (text ++ mid).
Proof.
  intros Hshape. unfold summary_lines.
  destruct (count_line_text sd "subdomain_count" before
              (" subdomains discovered" ++ after)) as [m1 H1].
  destruct (count_line_text sd "live_host_count" before
              (" live hosts found" ++ after)) as [m2 H2].
  destruct (count_line_text sd "open_port_count" before
              (" open ports detected" ++ after)) as [m3 H3].
  destruct (count_line_text sd "directory_count" before
              (" directories enumerated" ++ after)) as [m4 H4].
  destruct (vulnerability_line_text sd before after Hshape) as [m5 H5].
  exists (m1 ++ m2 ++ m3 ++ m4 ++ m5). intros text.
  rewrite H1. cbn [bind]. rewrite H2. cbn [bind]. rewrite H3. cbn [bind].
  rewrite H4. cbn [bind]. rewrite H5. now rewrite !append_assoc_s.
Qed.

Lemma lines_loop (line : pyval -> res string) (xs : list pyval)
    (ls : list string) :
  Forall2 (fun x l => line x = Ok l) xs ls ->
  forall text,
    for_each (fun prompt x => let* l := line x in Ok (prompt ++ l)) xs text
    = Ok (text ++ join_all ls).
Proof.
  induction 1 as [|x l xs ls Hx _ IH]; intros text;
    cbn [for_each join_all fold_right].
  - now rewrite append_empty_r.
  - rewrite Hx. cbn [bind]. rewrite IH. now rewrite append_assoc_s.
Qed.

Lemma lines_exist (line : pyval -> res string) (P : pyval -> Prop)
    (xs : list pyval) :
  (forall x, P x -> exists l, line x = Ok l) ->
  Forall P xs ->
  exists ls, Forall2 (fun x l => line x = Ok l) xs ls.
Proof.
  intros Hline. induction 1 as [|x xs Hx _ [ls IH]].
  - exists []. constructor.
  - destruct (Hline x Hx) as [l Hl]. exists (l :: ls). now constructor.
Qed.

Lemma prompt_section_text (ad dd : dict) (key heading : string)
    (line : pyval -> res string) (ls : list string) :
  Py.lookup "details" ad = Some (PDict dd) ->
  (forall v, Py.lookup key dd = Some v -> exists xs, v = PList xs) ->
  lines_of line dd key ls ->
  forall text,
    prompt_section (PDict ad) key heading line text =
    Ok (text ++ section_text dd key heading ls).
Proof.
  intros Had Hshape Hls text. unfold prompt_section, lines_of, section_text in *.
  cbn [Py.get Py.getitem bind]. rewrite Had. cbn [Py.contains bind].
  unfold Py.has_key. destruct (Py.lookup key dd) as [v|] eqn:El.
  - destruct (Hshape v eq_refl) as [xs ->]. cbn [Py.getitem bind].
    rewrite El. cbn [Py.iter bind].
    rewrite (lines_loop line xs ls Hls). cbn [bind].
    now rewrite !append_assoc_s.
  - now rewrite append_empty_r.
Qed.

Lemma vulnerability_line_ok (f : pyval) :
  analyzed_finding f -> exists l, prompt_vulnerability_line f = Ok l.
Proof.
  intros (d & title & sev & -> & Ht & Hs & _).
  unfold prompt_vulnerability_line. rewrite !get_or_default, Hs.
  cbn [or_default bind Py.upper]. eauto.
Qed.

Lemma port_line_ok (v : pyval) :
  port_record v -> exists l, prompt_port_line v = Ok l.
Proof.
  intros (host & port & service & version & ->).
  unfold prompt_port_line. cbn. eauto.
Qed.

Lemma directory_line_ok (v : pyval) :
  has_url v -> exists l, prompt_directory_line v = Ok l.
Proof.
  intros (d & url & -> & Hurl). unfold prompt_directory_line.
  cbn [Py.getitem]. rewrite Hurl. cbn [bind]. rewrite get_or_default.
  cbn [bind]. eauto.
Qed.

Lemma section_lines_exist (line : pyval -> res string) (P : pyval -> Prop)
    (dd : dict) (key : string) :
  (forall x, P x -> exists l, line x = Ok l) ->
  (forall v, Py.lookup key dd = Some v ->
             exists xs, v = PList xs /\ Forall P xs) ->
  exists ls, lines_of line dd key ls.
Proof.
  intros Hline Hshape. unfold lines_of.
  destruct (Py.lookup key dd) as [v|]; [|now exists []].
  destruct (Hshape v eq_refl) as [xs [-> Hall]].
  eapply lines_exist; eassumption.
Qed.

(** The prompt made from a well-formed analysis, part by part. *)
Lemma prompt_parts (timestamp : string) (a : analysis_state) :
  analyzed a ->
  exists counts vl pl dl,
    lines_of prompt_vulnerability_line (details a) "vulnerabilities" vl /\
    lines_of prompt_port_line (details a) "open_ports" pl /\
    lines_of prompt_directory_line (details a) "interesting_directories" dl
    /\
    _prepare_ai_prompt (analysis_dict timestamp a) =
    Ok (prompt_preamble ++
        (PyStr.newline ++ "## SCAN SUMMARY:" ++ PyStr.newline ++ counts
         ++ PyStr.newline ++
         section_text (details a) "vulnerabilities"
           ("Vulnerabilities:" ++ PyStr.newline) vl ++
         section_text (details a) "open_ports"
           ("Open Ports:" ++ PyStr.newline) pl ++
         section_text (details a) "interesting_directories"
           ("Interesting Directories:" ++ PyStr.newline) dl) ++
        prompt_request).
Proof.
  intros (Hv & Hp & Hd & Hc).
  destruct (summary_lines_text (summary a) "- " PyStr.newline Hc)
    as [counts Hcounts].
  destruct (section_lines_exist prompt_vulnerability_line analyzed_finding
              (details a) "vulnerabilities" vulnerability_line_ok Hv)
    as [vl Hvl].
  destruct (section_lines_exist prompt_port_line port_record
              (details a) "open_ports" port_line_ok Hp) as [pl Hpl].
  destruct (section_lines_exist prompt_directory_line has_url
              (details a) "interesting_directories" directory_line_ok Hd)
    as [dl Hdl].
  exists counts, vl, pl, dl.
  split; [exact Hvl|]. split; [exact Hpl|]. split; [exact Hdl|].
  unfold _prepare_ai_prompt, analysis_dict.
  cbn [Py.contains Py.has_key Py.lookup String.eqb Ascii.eqb Bool.eqb
       bind Py.getitem].
  rewrite Hcounts. cbn [bind].
  rewrite (prompt_section_text _ (details a) "vulnerabilities" _ _ vl)
    by (try reflexivity; try exact Hvl;
        intros v Hl; destruct (Hv v Hl) as [xs [-> _]]; eauto).
  cbn [bind].
  rewrite (prompt_section_text _ (details a) "open_ports" _ _ pl)
    by (try reflexivity; try exact Hpl;
        intros v Hl; destruct (Hp v Hl) as [xs [-> _]]; eauto).
  cbn [bind].
  rewrite (prompt_section_text _ (details a) "interesting_directories"
             _ _ dl)
    by (try reflexivity; try exact Hdl;
        intros v Hl; destruct (Hd v Hl) as [xs [-> _]]; eauto).
  cbn [bind]. now rewrite !append_assoc_s.
Qed.

End PromptFacts.

Section PromptTheorems.

Lemma forall2_in (line : pyval -> res string) (xs : list pyval)
    (ls : list string) (x : pyval) :
  Forall2 (fun y l => line y = Ok l) xs ls ->
  In x xs -> exists l, In l ls /\ line x = Ok l.
Proof.
  induction 1 as [|y l xs ls Hy _ IH]; intros Hin; [contradiction|].
  destruct Hin as [->|Hin].
  - exists l. split; [now left | exact Hy].
  - destruct (IH Hin) as [l' [Hl' Hx]]. exists l'. split; [now right|].
    exact Hx.
Qed.

(** X16. [_prepare_ai_prompt] raises nothing on an analysis that
    [analyze_results] has completed, whatever the scan results were: the
    prompt is the fixed preamble, then the summary and the sections, then
    the fixed request. *)
Theorem prompt_is_built_from_any_analysis :
  forall (results : pyval) (a : analysis_state) (timestamp : string),
    analyze_results results = Ok a ->
    exists body,
      _prepare_ai_prompt (analysis_dict timestamp a) =
      Ok (prompt_preamble ++ body ++ prompt_request).
Proof.
  intros results a timestamp H.
  apply analyze_results_analyzed in H.
  destruct (prompt_parts timestamp a H)
    as (counts & vl & pl & dl & _ & _ & _ & Hp).
  eexists. exact Hp.
Qed.

Lemma prompt_is_built_from_any_analysis_witness :
  analyze_results ssh_results = Ok ssh_analysis /\
  exists body,
    _prepare_ai_prompt (analysis_dict "2024-01-01 00:00:00" ssh_analysis) =
    Ok (prompt_preamble ++ body ++ prompt_request).
Proof.
  split; [reflexivity|].
  exact (prompt_is_built_from_any_analysis ssh_results ssh_analysis
           "2024-01-01 00:00:00" eq_refl).
Defined.

(** X17. The prompt names every finding and every open port of the
    analysis: for each finding it has the line "- <title> (<SEVERITY>):
    <description>" with the severity in upper case, and for each port
    record the line "- Port <port>: <service> (<version>)". *)
Theorem prompt_lists_findings_and_ports :
  forall (results : pyval) (a : analysis_state) (timestamp : string),
    analyze_results results = Ok a ->
    exists prompt,
      _prepare_ai_prompt (analysis_dict timestamp a) = Ok prompt /\
      (forall findings f,
          Py.lookup "vulnerabilities" (details a) = Some (PList findings) ->
          In f findings ->
          exists d title sev,
            f = PDict d /\
            Py.lookup "title" d = Some (PStr title) /\
            Py.lookup "severity" d = Some (PStr sev) /\
            occurs_in
              ("- " ++ title ++ " (" ++ PyStr.upper sev ++ "): " ++
               Py.str (or_default (Py.lookup "description" d)
                         (PStr "No description")) ++ PyStr.newline)
              prompt) /\
      (forall open_ports host port service version,
          Py.lookup "open_ports" (details a) = Some (PList open_ports) ->
          In (PDict [("host", host); ("port", port); ("service", service);
                     ("version", version)]) open_ports ->
          occurs_in
            ("- Port " ++ Py.str port ++ ": " ++ Py.str service ++ " (" ++
             Py.str version ++ ")" ++ PyStr.newline)
            prompt).
Proof.
  intros results a timestamp H.
  apply analyze_results_analyzed in H.
  destruct (prompt_parts timestamp a H)
    as (counts & vl & pl & dl & Hvl & Hpl & _ & Hp).
  destruct H as (Hv & _ & _ & _).
  eexists. split; [exact Hp|]. split.
  - intros findings f Hl Hin.
    destruct (Hv _ Hl) as [l [Heq Hall]]. inversion Heq; subst l.
    rewrite Forall_forall in Hall.
    destruct (Hall f Hin) as (d & title & sev & -> & Ht & Hs & _).
    exists d, title, sev. repeat split; try assumption.
    unfold lines_of in Hvl. rewrite Hl in Hvl.
    destruct (forall2_in _ _ _ _ Hvl Hin) as [line [Hline Hf]].
    unfold prompt_vulnerability_line in Hf.
    rewrite !get_or_default, Ht, Hs in Hf.
    cbn [or_default bind Py.upper Py.str] in Hf. apply ok_inj in Hf.
    rewrite Hf.
    apply occurs_in_right, occurs_in_left.
    do 5 apply occurs_in_right. apply occurs_in_left.
    unfold section_text. rewrite Hl.
    apply occurs_in_right, occurs_in_left, occurs_in_join_all, Hline.
  - intros open_ports host port service version Hl Hin.
    unfold lines_of in Hpl. rewrite Hl in Hpl.
    destruct (forall2_in _ _ _ _ Hpl Hin) as [line [Hline Hf]].
    assert (Heq : Ok line =
                  Ok ("- Port " ++ Py.str port ++ ": " ++ Py.str service ++
                      " (" ++ Py.str version ++ ")" ++ PyStr.newline))
      by (rewrite <- Hf; reflexivity).
    apply ok_inj in Heq. subst line.
    apply occurs_in_right, occurs_in_left.
    do 6 apply occurs_in_right. apply occurs_in_left.
    unfold section_text. rewrite Hl.
    apply occurs_in_right, occurs_in_left, occurs_in_join_all, Hline.
Qed.

Lemma prompt_lists_findings_and_ports_witness :
  analyze_results ssh_results = Ok ssh_analysis /\
  exists prompt,
    _prepare_ai_prompt (analysis_dict "2024-01-01 00:00:00" ssh_analysis)
      = Ok prompt /\
    occurs_in ("- Port 22: ssh (unknown)" ++ PyStr.newline) prompt.
Proof.
  split; [reflexivity|].
  destruct (prompt_lists_findings_and_ports ssh_results ssh_analysis
              "2024-01-01 00:00:00" eq_refl) as [prompt [Hp [_ Hports]]].
  exists prompt. split; [exact Hp|].
  exact (Hports [ssh_port_record] (PStr "10.0.0.5") (PInt 22) (PStr "ssh")
           (PStr "unknown") eq_refl (or_introl eq_refl)).
Defined.

End PromptTheorems.

(* ===================================================================== *)
(** ** [_prepare_transformers_text] *)
(* ===================================================================== *)

Section SummaryTextFacts.

Lemma rstrip_end (chars s : string) :
  PyStr.rstrip chars s = "" \/
  exists before c,
    PyStr.rstrip chars s = before ++ String c "" /\
    PyStr.mem c chars = false.
Proof.
  induction s as [|a s IH]; cbn [PyStr.rstrip]; [now left|].
  destruct (PyStr.rstrip chars s) as [|k kept] eqn:E.
  - destruct (PyStr.mem a chars) eqn:Em; [now left|].
    right. exists "", a. split; [reflexivity | exact Em].
  - right. destruct IH as [IH|(before & c & Hk & Hc)]; [discriminate|].
    exists (String a before), c. split; [|exact Hc].
    cbn [append]. now rewrite Hk.
Qed.

Lemma filter_by_high (xs : list pyval) :
  Forall analyzed_finding xs ->
  exists kept,
    filter_by is_high_severity xs = Ok kept /\ Forall analyzed_finding kept.
Proof.
  induction 1 as [|x xs Hx _ [kept [IH Hk]]]; cbn [filter_by].
  - exists []. split; [reflexivity | constructor].
  - pose proof Hx as (d & title & sev & -> & Ht & Hs & Hd).
    unfold is_high_severity at 1. rewrite get_or_default, Hs.
    cbn [or_default bind Py.lower]. rewrite IH. cbn [bind].
    destruct (Py.in_strs (PyStr.lower sev) ["critical"; "high"]);
      eexists; (split; [reflexivity|]); auto.
Qed.

Lemma top_vulnerability_ok (f : pyval) :
  analyzed_finding f -> exists shown, top_vulnerability f = Ok shown.
Proof.
  intros (d & title & sev & -> & Ht & Hs & _).
  unfold top_vulnerability. rewrite !get_or_default, Hs.
  cbn [or_default bind Py.upper]. eauto.
Qed.

Lemma top_loop_ok (xs : list pyval) :
  Forall analyzed_finding xs ->
  forall (n : nat) (text : string),
    exists text',
      for_each
        (fun text (item : nat * pyval) =>
           let (i, vuln) := item in
           let text := if (0 <? i)%nat then text ++ ", " else text in
           let* shown := top_vulnerability vuln in
           Ok (text ++ shown))
        (combine (seq n (List.length xs)) xs) text = Ok text'.
Proof.
  induction 1 as [|x xs Hx _ IH]; intros n text;
    cbn [List.length seq combine for_each]; [eauto|].
  destruct (top_vulnerability_ok x Hx) as [shown ->]. cbn [bind].
  apply IH.
Qed.

Lemma firstn_forall (P : pyval -> Prop) (n : nat) (xs : list pyval) :
  Forall P xs -> Forall P (firstn n xs).
Proof.
  intros H. revert n.
  induction H as [|x xs Hx _ IH]; intros [|n]; cbn [firstn]; auto.
Qed.

Lemma collect_services_ok (xs : list pyval) :
  Forall text_service xs ->
  forall acc,
    Forall (fun v => exists s, v = PStr s) acc ->
    exists services,
      for_each collect_service xs acc = Ok services /\
      Forall (fun v => exists s, v = PStr s) services.
Proof.
  induction 1 as [|x xs Hx _ IH]; intros acc Hacc; cbn [for_each]; [eauto|].
  destruct Hx as (d & service & -> & Hs).
  unfold collect_service at 1. cbn [Py.getitem]. rewrite Hs. cbn [bind].
  destruct (negb (Py.in_list (PStr service) acc)); cbn [bind]; apply IH.
  - apply Forall_app. split; [exact Hacc|]. constructor; eauto.
  - exact Hacc.
Qed.

Lemma section_nonempty_value (timestamp : string) (a : analysis_state)
    (key : string) :
  section_nonempty (analysis_dict timestamp a) key =
  Ok match Py.lookup key (details a) with
     | Some v => Py.truthy v
     | None => false
     end.
Proof.
  unfold section_nonempty, analysis_dict.
  cbn [Py.get Py.getitem Py.lookup String.eqb Ascii.eqb Bool.eqb bind
       Py.contains or_default].
  unfold Py.has_key.
  destruct (Py.lookup key (details a)); reflexivity.
Qed.

Lemma join_ok (sep : string) (l : list pyval) :
  Forall (fun v => exists s, v = PStr s) l ->
  exists joined, Py.join sep l = Ok joined.
Proof.
  induction 1 as [|x l [s ->] _ [joined IH]]; cbn [Py.join]; [eauto|].
  destruct l as [|y l]; [eauto|]. rewrite IH. eauto.
Qed.

End SummaryTextFacts.

Section SummaryTextTheorems.

(** X18. Whatever [_prepare_transformers_text] returns, it is [None] or a
    text of at least 100 characters that ends with a full stop, the
    trailing commas and spaces having been stripped before the stop. *)
Theorem summary_text_is_none_or_long_and_clean :
  forall (analysis : pyval) (result : option string),
    _prepare_transformers_text analysis = Ok result ->
    match result with
    | None => True
    | Some text => (100 <= String.length text)%nat /\ ends_cleanly text
    end.
Proof.
  intros analysis result H. unfold _prepare_transformers_text in H.
  apply bind_ok_inv in H as [has_summary [_ H]].
  apply bind_ok_inv in H as [t1 [_ H]].
  apply bind_ok_inv in H as [t2 [_ H]].
  apply bind_ok_inv in H as [t3 [_ H]].
  destruct (String.length (PyStr.rstrip ", " t3 ++ ".") <? 100)%nat eqn:E;
    apply ok_inj in H; subst result; [exact I|].
  split; [now apply Nat.ltb_ge in E|].
  exists (PyStr.rstrip ", " t3). split; [reflexivity|].
  destruct (rstrip_end ", " t3) as [->|(before & c & -> & Hc)];
    [now left|].
  right. exists before, c. split; [reflexivity|].
  cbn [PyStr.mem] in Hc. apply orb_false_iff in Hc as [Hcomma Hc].
  apply orb_false_iff in Hc as [Hspace _].
  split; intros ->; discriminate.
Qed.

Lemma summary_text_is_none_or_long_and_clean_witness :
  _prepare_transformers_text
    (analysis_dict "2024-01-01 00:00:00" ssh_analysis) =
    Ok (Some ("Bug bounty scan results summary: 1 open ports detected.  " ++
              "Notable findings include open services (ssh).")) /\
  (100 <= String.length
            ("Bug bounty scan results summary: 1 open ports detected.  " ++
             "Notable findings include open services (ssh)."))%nat /\
  ends_cleanly
    ("Bug bounty scan results summary: 1 open ports detected.  " ++
     "Notable findings include open services (ssh).").
Proof.
  split; [reflexivity|].
  exact (summary_text_is_none_or_long_and_clean
           (analysis_dict "2024-01-01 00:00:00" ssh_analysis)
           (Some _) eq_refl).
Defined.

(** X19. [_prepare_transformers_text] raises nothing on an analysis that
    [analyze_results] has completed, provided the service of every open
    port is a string. *)
Theorem summary_text_is_built_when_services_are_text :
  forall (results : pyval) (a : analysis_state) (timestamp : string),
    analyze_results results = Ok a ->
    (forall open_ports,
        Py.lookup "open_ports" (details a) = Some (PList open_ports) ->
        Forall text_service open_ports) ->
    exists result,
      _prepare_transformers_text (analysis_dict timestamp a) = Ok result.
Proof.
  intros results a timestamp H Hservices.
  apply analyze_results_analyzed in H.
  destruct H as (Hv & Hp & Hd & Hc).
  destruct (summary_lines_text (summary a) "" ". " Hc) as [counts Hcounts].
  unfold _prepare_transformers_text, analysis_dict.
  cbn [Py.contains Py.has_key Py.lookup String.eqb Ascii.eqb Bool.eqb
       bind Py.getitem].
  rewrite Hcounts. cbn [bind].
  assert (Htop : forall text, exists text',
             top_vulnerabilities
               (PDict [("timestamp", PStr timestamp);
                       ("summary", PDict (summary a));
                       ("details", PDict (details a))]) text = Ok text').
  { intros text. unfold top_vulnerabilities.
    cbn [Py.get Py.getitem Py.lookup String.eqb Ascii.eqb Bool.eqb bind
         Py.contains or_default].
    unfold Py.has_key.
    destruct (Py.lookup "vulnerabilities" (details a)) as [v|] eqn:El;
      [|eauto].
    destruct (Hv v eq_refl) as [l [-> Hall]]. cbn [bind Py.iter].
    destruct (filter_by_high l Hall) as [kept [-> Hkept]]. cbn [bind].
    unfold enumerate. apply top_loop_ok. now apply firstn_forall. }
  destruct (Htop ("Bug bounty scan results summary: " ++ counts))
    as [t2 ->].
  cbn [bind].
  assert (Hnotable : forall text, exists text',
             notable_findings
               (PDict [("timestamp", PStr timestamp);
                       ("summary", PDict (summary a));
                       ("details", PDict (details a))]) text = Ok text').
  { intros text. unfold notable_findings.
    fold (analysis_dict timestamp a). rewrite !section_nonempty_value.
    unfold analysis_dict.
    cbn [Py.getitem Py.lookup String.eqb Ascii.eqb Bool.eqb bind].
    assert (Hports : forall text1, exists text',
               (if match Py.lookup "open_ports" (details a) with
                   | Some v => Py.truthy v
                   | None => false
                   end
                then
                  let* section :=
                    match Py.lookup "open_ports" (details a) with
                    | Some x => Ok x
                    | None => Raise KeyError
                    end in
                  let* xs := Py.iter section in
                  let* common_services := for_each collect_service xs [] in
                  let* joined := Py.join ", " (firstn 3 common_services) in
                  Ok (text1 ++ "open services (" ++ joined ++ "), ")
                else Ok text1) = Ok text').
    { intros text1.
      destruct (Py.lookup "open_ports" (details a)) as [v|] eqn:El;
        [|eauto].
      destruct (Hp v eq_refl) as [l [-> _]].
      destruct (Py.truthy (PList l)); cbn [bind Py.iter]; [|eauto].
      destruct (collect_services_ok l (Hservices l eq_refl) [])
        as [services [-> Hs]]; [constructor|].
      cbn [bind].
      destruct (join_ok ", " (firstn 3 services)) as [joined ->];
        [now apply firstn_forall|].
      cbn [bind]. eauto. }
    destruct (Py.lookup "interesting_directories" (details a)) as [v|];
      cbn [bind]; [|apply Hports].
    destruct (Hd v eq_refl) as [l [-> _]].
    destruct (Py.truthy (PList l)); cbn [bind Py.len]; apply Hports. }
  destruct (Hnotable (t2 ++ " Notable findings include ")) as [t3 ->].
  cbn [bind]. destruct (_ <? _)%nat; eauto.
Qed.

Lemma summary_text_is_built_when_services_are_text_witness :
  analyze_results ssh_results = Ok ssh_analysis /\
  Forall text_service [ssh_port_record] /\
  exists result,
    _prepare_transformers_text
      (analysis_dict "2024-01-01 00:00:00" ssh_analysis) = Ok result.
Proof.
  assert (Hs : Forall text_service [ssh_port_record]).
  { constructor; [|constructor]. now eexists _, "ssh". }
  split; [reflexivity|]. split; [exact Hs|].
  apply (summary_text_is_built_when_services_are_text ssh_results
           ssh_analysis "2024-01-01 00:00:00" eq_refl).
  intros open_ports Hl. cbn in Hl. inversion Hl; subst. exact Hs.
Defined.

End SummaryTextTheorems.

(* ===================================================================== *)
(** ** The normalizer over several bundles, and the loaded findings *)
(* ===================================================================== *)

Section BundleFacts.

(** A loop that only appends to its state can be run from the empty
    state. *)
Lemma appending_loop {X : Type} (body : list pyval -> X -> res (list pyval))
    (xs : list X) :
  (forall acc x,
      body acc x = let* fs := body [] x in Ok (acc ++ fs)%list) ->
  forall acc,
    for_each body xs acc =
    let* fs := for_each body xs [] in Ok (acc ++ fs)%list.
Proof.
  intros Hbody. induction xs as [|x xs IH]; intros acc; cbn [for_each bind].
  - now rewrite app_nil_r.
  - rewrite (Hbody acc x). destruct (body [] x) as [fs|e]; cbn [bind];
      [|reflexivity].
    rewrite (IH (acc ++ fs)%list), (IH fs).
    destruct (for_each body xs []) as [gs|e]; cbn [bind]; [|reflexivity].
    now rewrite app_assoc.
Qed.

Lemma append_findings_from_empty (build : pyval -> res pyval)
    (vuln_data : pyval) (key : string) (acc : list pyval) :
  append_findings build vuln_data key acc =
  let* fs := append_findings build vuln_data key [] in Ok (acc ++ fs)%list.
Proof.
  unfold append_findings.
  destruct (Py.getitem vuln_data key) as [entries|e]; cbn [bind];
    [|reflexivity].
  destruct (Py.iter entries) as [xs|e]; cbn [bind]; [|reflexivity].
  apply appending_loop. intros acc' x.
  destruct (build x) as [f|e]; reflexivity.
Qed.

Lemma analyze_bundle_from_empty (acc : list pyval) (vuln_data : pyval) :
  analyze_bundle acc vuln_data =
  let* fs := analyze_bundle [] vuln_data in Ok (acc ++ fs)%list.
Proof.
  unfold analyze_bundle.
  destruct (Py.contains "results" vuln_data) as [[|]|e]; cbn [bind];
    [apply append_findings_from_empty| |reflexivity].
  destruct (Py.contains "manual_checks" vuln_data) as [[|]|e]; cbn [bind];
    [apply append_findings_from_empty| |reflexivity].
  now rewrite app_nil_r.
Qed.

Lemma loaded_vulnerabilities (tree : scan_tree) :
  Py.lookup "vulnerabilities" (fst (load_results tree)) =
  if existsb opened (vuln_files tree)
  then Some (PList (parsed (vuln_files tree)))
  else None.
Proof.
  unfold load_results. cbn [fst].
  set (d4 := load_first "livehosts" (host_files tree)
               (load_first "directories" (dir_files tree)
                  (load_first "ports" (port_files tree)
                     (load_first "subdomains" (subdomain_files tree) [])))).
  assert (Hfresh : Py.lookup "vulnerabilities" d4 = None).
  { unfold d4. rewrite !lookup_load_first. reflexivity. }
  rewrite (load_vulnerabilities_fresh _ _ Hfresh).
  destruct (existsb opened (vuln_files tree)); [|exact Hfresh].
  now rewrite lookup_store, String.eqb_refl.
Qed.

End BundleFacts.

Section BundleTheorems.

(** X20. [_analyze_vulnerabilities] works bundle by bundle: the findings of
    a list of bundles are the findings of its first part followed by the
    findings of the rest, in that order and with nothing merged or dropped;
    an exception of either part is the exception of the whole. *)
Theorem findings_of_bundles_are_concatenated :
  forall first rest : list pyval,
    _analyze_vulnerabilities (PList (first ++ rest)) =
    let* found_first := _analyze_vulnerabilities (PList first) in
    let* found_rest := _analyze_vulnerabilities (PList rest) in
    Ok (found_first ++ found_rest)%list.
Proof.
  intros first rest. unfold _analyze_vulnerabilities.
  cbn [Py.iter bind]. rewrite for_each_app.
  destruct (for_each analyze_bundle first []) as [found|e]; cbn [bind];
    [|reflexivity].
  apply appending_loop. intros acc x. apply analyze_bundle_from_empty.
Qed.

(** X21. A bundle that has ['results'] is read as scanner output and
    nothing else of it is looked at: two bundles with the same ['results']
    give the same findings wherever they stand in the list, so the
    ['manual_checks'] of such a bundle are never reported. *)
Theorem scanner_format_hides_manual_checks :
  forall (before after : list pyval) (bundle bundle' : dict)
         (results : pyval),
    Py.lookup "results" bundle = Some results ->
    Py.lookup "results" bundle' = Some results ->
    _analyze_vulnerabilities (PList (before ++ PDict bundle :: after)) =
    _analyze_vulnerabilities (PList (before ++ PDict bundle' :: after)).
Proof.
  intros before after bundle bundle' results H H'.
  unfold _analyze_vulnerabilities. cbn [Py.iter bind].
  rewrite !for_each_app.
  destruct (for_each analyze_bundle before []) as [found|e]; cbn [bind];
    [|reflexivity].
  cbn [for_each].
  replace (analyze_bundle found (PDict bundle'))
    with (analyze_bundle found (PDict bundle)); [reflexivity|].
  unfold analyze_bundle, append_findings.
  cbn [Py.contains Py.getitem]. unfold Py.has_key.
  now rewrite H, H'.
Qed.

Lemma scanner_format_hides_manual_checks_witness :
  Py.lookup "results" two_format_bundle
    = Py.lookup "results" scanner_bundle /\
  _analyze_vulnerabilities (PList [PDict two_format_bundle])
    = Ok [odd_severity_finding] /\
  _analyze_vulnerabilities (PList [PDict two_format_bundle]) =
  _analyze_vulnerabilities (PList [PDict scanner_bundle]).
Proof.
  split; [reflexivity|]. split; [reflexivity|].
  exact (scanner_format_hides_manual_checks [] [] two_format_bundle
           scanner_bundle _ eq_refl eq_refl).
Defined.

(** X22. When the loaded results are analysed, the findings of the details
    are those of the values read from the vulnerability files, every file
    that could be parsed and in the order of the listing; there is no
    ['vulnerabilities'] section when no vulnerability file could be
    opened. *)
Theorem loaded_findings_come_from_the_vulnerability_files :
  forall (tree : scan_tree) (a : analysis_state),
    analyze_results (PDict (fst (load_results tree))) = Ok a ->
    if existsb opened (vuln_files tree)
    then exists findings,
           _analyze_vulnerabilities (PList (parsed (vuln_files tree)))
             = Ok findings /\
           Py.lookup "vulnerabilities" (details a) = Some (PList findings)
    else Py.lookup "vulnerabilities" (details a) = None.
Proof.
  intros tree a H.
  pose proof (loaded_vulnerabilities tree) as Hl.
  analysis_cases H; cbn [details summary];
    cbn [Py.contains] in Hvulns; unfold Py.has_key in Hvulns;
    rewrite Hl in Hvulns;
    destruct (existsb opened (vuln_files tree)); try discriminate;
    rewrite ?lookup_store;
    cbn [Py.lookup String.eqb Ascii.eqb Bool.eqb]; try reflexivity;
    match goal with
    | Hg : Py.getitem _ "vulnerabilities" = Ok ?section,
      Hn : _analyze_vulnerabilities ?section = Ok ?findings |- _ =>
        cbn [Py.getitem] in Hg; rewrite Hl in Hg; apply ok_inj in Hg;
        subst section; exists findings; split; [exact Hn | reflexivity]
    end.
Qed.

Lemma loaded_findings_come_from_the_vulnerability_files_witness :
  analyze_results (PDict (fst (load_results odd_severity_tree)))
    = Ok odd_severity_analysis /\
  exists findings,
    _analyze_vulnerabilities (PList (parsed (vuln_files odd_severity_tree)))
      = Ok findings /\
    Py.lookup "vulnerabilities" (details odd_severity_analysis)
      = Some (PList findings).
Proof.
  split; [reflexivity|].
  exact (loaded_findings_come_from_the_vulnerability_files odd_severity_tree
           odd_severity_analysis eq_refl).
Defined.

End BundleTheorems.
